(** * blockbuilder: the voxel grid and the placement engine

    A shallow embedding of the grid and occupancy code of the repository:

    - [BlockSystem]  : src/BlockSystem.js, class BlockSystem (floor based
      grid, a Map from "x,y,z" keys to meshes);
    - [CubeBuilder]  : the first main.js (unnamed/part_000), class
      BlockBuilder placing coloured cubes on mouse down;
    - [BlockBuilder] : the second main.js (unnamed/part_001), class
      BlockBuilder placing glTF models on mouse up, with drag detection.

    JavaScript numbers that live in world space are taken as exact
    rationals ([Q]); grid coordinates and pixels are integers ([Z]).  The
    engine computes with IEEE doubles: sums and products of integers and
    halves below 2^52 are exact there, and [Float64] gives the two grid
    functions of BlockSystem on doubles for the sums that are rounded.  The
    intersection test of three.js (Raycaster.intersectObjects) is an outside
    collaborator: every handler that casts a ray receives the first
    intersection as an argument. *)

From Stdlib Require Import ZArith QArith Qround Qabs Lqa Lia String Ascii List.
From Stdlib Require Import Floats.
From stdpp Require Import base gmap strings list pretty.

Close Scope Q_scope.
Local Open Scope Z_scope.

(** ** JavaScript numbers *)

(** [Math.floor]. *)
Definition Math_floor (v : Q) : Z := Qfloor v.

(** [Math.round]: the nearest integer, a fraction of exactly one half goes
    up (towards plus infinity). *)
Definition Math_round (v : Q) : Z := Qfloor (v + (1 # 2))%Q.

(** [Math.abs] on pixel coordinates. *)
Definition Math_abs (v : Z) : Z := Z.abs v.

(** THREE.Vector3 *)
Record Vector3 := mkVector3 { vx : Q; vy : Q; vz : Q }.

(** [a.add(b)], the exact sums.  The engine rounds each sum to a double
    ([Float64.add]); the sums of integers and halves below 2^52 are exact. *)
Definition vadd (a b : Vector3) : Vector3 :=
  mkVector3 (vx a + vx b)%Q (vy a + vy b)%Q (vz a + vz b)%Q.

(** [a.multiplyScalar(k)] *)
Definition multiplyScalar (a : Vector3) (k : Q) : Vector3 :=
  mkVector3 (vx a * k)%Q (vy a * k)%Q (vz a * k)%Q.

(** The six faces of an axis aligned box and their outward unit normals. *)
Inductive Face := PosX | NegX | PosY | NegY | PosZ | NegZ.

Definition faceStep (f : Face) : Z * Z * Z :=
  match f with
  | PosX => (1, 0, 0) | NegX => (-1, 0, 0)
  | PosY => (0, 1, 0) | NegY => (0, -1, 0)
  | PosZ => (0, 0, 1) | NegZ => (0, 0, -1)
  end.

Definition faceNormal (f : Face) : Vector3 :=
  let '(a, b, c) := faceStep f in
  mkVector3 (inject_Z a) (inject_Z b) (inject_Z c).

(** ** Strings: template literals, [split] and [Number] *)

(** [`${n}`] for an integer [n] is its decimal text, stdpp's [pretty]. *)
Definition numberToString (n : Z) : string := pretty n.

(** [s.split(sep)] for a separator of one character. *)
Fixpoint split (sep : ascii) (s : string) : list string :=
  match s with
  | EmptyString => [EmptyString]
  | String c rest =>
      if Ascii.eqb c sep then EmptyString :: split sep rest
      else match split sep rest with
           | [] => [String c EmptyString]
           | piece :: pieces => String c piece :: pieces
           end
  end.

Definition digitValue (c : ascii) : option N :=
  let n := N_of_ascii c in
  if ((48 <=? n) && (n <=? 57))%N then Some (n - 48)%N else None.

Fixpoint readDigits (s : string) (acc : N) : option N :=
  match s with
  | EmptyString => Some acc
  | String c rest =>
      match digitValue c with
      | Some d => readDigits rest (10 * acc + d)%N
      | None => None
      end
  end.

(** [Number(s)] on the texts keys are made of: an optional sign followed by
    decimal digits, and the empty text, which is 0.  Any other text (NaN, or
    a literal that is no decimal integer) has no grid coordinate and is
    [None]; so is [undefined]. *)
Definition Number (s : string) : option Z :=
  match s with
  | EmptyString => Some 0
  | String "-"%char (String _ _ as ds) =>
      (fun n => - Z.of_N n) <$> readDigits ds 0%N
  | String "+"%char (String _ _ as ds) => Z.of_N <$> readDigits ds 0%N
  | ds => Z.of_N <$> readDigits ds 0%N
  end.

(** ** src/BlockSystem.js *)

Module BlockSystem.

(** A grid position [{x, y, z}]. *)
Record GridPos := mkGridPos { x : Z; y : Z; z : Z }.

(** [worldToGrid(position)], with [this.blockSize] as [blockSize]. *)
Definition worldToGrid (blockSize : Q) (position : Vector3) : GridPos :=
  {| x := Math_floor (vx position / blockSize)%Q;
     y := Math_floor (vy position / blockSize)%Q;
     z := Math_floor (vz position / blockSize)%Q |}.

(** [gridToWorld(gridPos)], the exact centre.  At block size 1 it is the
    double the engine computes for coordinates below 2^52 in absolute value
    ([Float64.gridToWorld] follows the rounding beyond). *)
Definition gridToWorld (blockSize : Q) (gridPos : GridPos) : Vector3 :=
  {| vx := (inject_Z (x gridPos) * blockSize + blockSize / 2)%Q;
     vy := (inject_Z (y gridPos) * blockSize + blockSize / 2)%Q;
     vz := (inject_Z (z gridPos) * blockSize + blockSize / 2)%Q |}.

(** [positionToKey(pos)]: [`${pos.x},${pos.y},${pos.z}`] *)
Definition positionToKey (pos : GridPos) : string :=
  numberToString (x pos) +:+ "," +:+ numberToString (y pos) +:+ ","
    +:+ numberToString (z pos).

(** [keyToPosition(key)]: [const [x, y, z] = key.split(',').map(Number)];
    a destructured name past the end of the array is [undefined]. *)
Definition keyToPosition (key : string) : option Z * option Z * option Z :=
  let parts := Number <$> split "," key in
  (mjoin (parts !! 0%nat), mjoin (parts !! 1%nat), mjoin (parts !! 2%nat)).

(** An entry of [BLOCK_TYPES]; [transparent] and [opacity] are optional. *)
Record BlockType := mkBlockType {
  color : Z;
  name : string;
  transparent : option bool;
  opacity : option Q
}.

Definition GRASS := mkBlockType 0x3A9D23 "Grass" None None.
Definition DIRT := mkBlockType 0x8B4513 "Dirt" None None.
Definition STONE := mkBlockType 0x7D7D7D "Stone" None None.
Definition WOOD := mkBlockType 0x966F33 "Wood" None None.
Definition WATER := mkBlockType 0x1CA3EC "Water" (Some true) (Some (7 # 10)%Q).
Definition SAND := mkBlockType 0xEDC9AF "Sand" None None.

Definition BLOCK_TYPES : list (string * BlockType) :=
  [("GRASS", GRASS); ("DIRT", DIRT); ("STONE", STONE); ("WOOD", WOOD);
   ("WATER", WATER); ("SAND", SAND)].

(** THREE.MeshStandardMaterial, the attributes set by the code. *)
Record Material := mkMaterial {
  mcolor : Z;
  mtransparent : bool;
  mopacity : Q
}.

(** [createBlockMaterials()]: one material per entry of [BLOCK_TYPES];
    [props.transparent || false], [props.opacity || 1.0]. *)
Definition createBlockMaterials : list (string * Material) :=
  (fun '(type, props) =>
     (type, mkMaterial (color props)
              (default false (transparent props))
              (match opacity props with
               | Some o => if Qeq_bool o 0 then 1%Q else o
               | None => 1%Q
               end))) <$> BLOCK_TYPES.

(** THREE.Mesh of a placed block. [mesh_id] is the object's identity (the
    [id] three.js gives every Object3D); the geometry is the shared box of
    side [blockSize], centred on [mposition]. *)
Record Mesh := mkMesh {
  mesh_id : nat;
  mmaterial : option Material;
  mposition : Vector3
}.

(** The fields of a BlockSystem.  [scene] holds the block meshes among the
    children of [this.scene]; the highlight mesh, which stays in the scene
    from the constructor on, is the pair [highlightPosition],
    [highlightVisible]. *)
Record State := mkState {
  scene : list Mesh;
  blocks : gmap string Mesh;
  blockSize : Q;
  selectedBlockType : BlockType;
  blockMaterials : list (string * Material);
  highlightPosition : Vector3;
  highlightVisible : bool;
  nextId : nat
}.

(** [new BlockSystem(scene)] on a scene without blocks. *)
Definition constructor : State :=
  {| scene := [];
     blocks := ∅;
     blockSize := 1%Q;
     selectedBlockType := GRASS;
     blockMaterials := createBlockMaterials;
     highlightPosition := mkVector3 0%Q 0%Q 0%Q;
     highlightVisible := false;
     nextId := 0%nat |}.

Definition assocGet {A} (key : string) (l : list (string * A)) : option A :=
  snd <$> List.find (fun kv => String.eqb (fst kv) key) l.

(** [setSelectedBlockType(type)] *)
Definition setSelectedBlockType (type : string) (s : State) : bool * State :=
  match assocGet type BLOCK_TYPES with
  | Some props =>
      (true,
       mkState (scene s) (blocks s) (blockSize s) props (blockMaterials s)
         (highlightPosition s) (highlightVisible s) (nextId s))
  | None => (false, s)
  end.

(** [hasBlock(gridPos)] *)
Definition hasBlock (s : State) (gridPos : GridPos) : bool :=
  bool_decide (is_Some (blocks s !! positionToKey gridPos)).

(** Where [placeBlock] and [updateHighlightPosition] put a mesh:
    [worldPos - blockSize / 2] on each axis. *)
Definition meshPosition (blockSize : Q) (gridPos : GridPos) : Vector3 :=
  let worldPos := gridToWorld blockSize gridPos in
  mkVector3 (vx worldPos - blockSize / 2)%Q
            (vy worldPos - blockSize / 2)%Q
            (vz worldPos - blockSize / 2)%Q.

Definition setHighlight (position : Vector3) (visible : bool) (s : State)
  : State :=
  mkState (scene s) (blocks s) (blockSize s) (selectedBlockType s)
    (blockMaterials s) position visible (nextId s).

(** [updateHighlightPosition(intersection, face)]: [intersection] is the
    hit point when there is an intersection, [normal] is [face.normal]. *)
Definition updateHighlightPosition (intersection : option Vector3)
    (normal : Vector3) (s : State) : option GridPos * State :=
  match intersection with
  | None => (None, setHighlight (highlightPosition s) false s)
  | Some point =>
      let position := vadd point (multiplyScalar normal (blockSize s / 2)%Q) in
      let gridPos := worldToGrid (blockSize s) position in
      if hasBlock s gridPos
      then (None, setHighlight (highlightPosition s) false s)
      else (Some gridPos, setHighlight (meshPosition (blockSize s) gridPos) true s)
  end.

(** [scene.add(mesh)] appends to the children. *)
Definition sceneAdd (mesh : Mesh) (children : list Mesh) : list Mesh :=
  children ++ [mesh].

(** [scene.remove(mesh)]: the first child that is this very object goes. *)
Fixpoint sceneRemove (mesh : Mesh) (children : list Mesh) : list Mesh :=
  match children with
  | [] => []
  | child :: rest =>
      if Nat.eqb (mesh_id child) (mesh_id mesh) then rest
      else child :: sceneRemove mesh rest
  end.

(** [placeBlock(gridPos)] *)
Definition placeBlock (gridPos : GridPos) (s : State) : bool * State :=
  if hasBlock s gridPos then (false, s)
  else
    let blockTypeKey :=
      List.find (fun key =>
                   match assocGet key BLOCK_TYPES with
                   | Some props => String.eqb (name props) (name (selectedBlockType s))
                   | None => false
                   end) (fst <$> BLOCK_TYPES) in
    let material := blockTypeKey ≫= (fun key => assocGet key (blockMaterials s)) in
    let blockMesh :=
      mkMesh (nextId s) material (meshPosition (blockSize s) gridPos) in
    (true,
     mkState (sceneAdd blockMesh (scene s))
       (<[positionToKey gridPos := blockMesh]> (blocks s))
       (blockSize s) (selectedBlockType s) (blockMaterials s)
       (highlightPosition s) (highlightVisible s) (S (nextId s))).

(** [removeBlock(gridPos)] *)
Definition removeBlock (gridPos : GridPos) (s : State) : bool * State :=
  let key := positionToKey gridPos in
  match blocks s !! key with
  | Some blockMesh =>
      (true,
       mkState (sceneRemove blockMesh (scene s)) (delete key (blocks s))
         (blockSize s) (selectedBlockType s) (blockMaterials s)
         (highlightPosition s) (highlightVisible s) (nextId s))
  | None => (false, s)
  end.

(** [handleClick(intersection, face, isRightClick)] *)
Definition handleClick (intersection : option Vector3) (normal : Vector3)
    (isRightClick : bool) (s : State) : bool * State :=
  match intersection with
  | None => (false, s)
  | Some point =>
      if isRightClick then
        removeBlock (worldToGrid (blockSize s) point) s
      else
        let position := vadd point (multiplyScalar normal (blockSize s / 2)%Q) in
        placeBlock (worldToGrid (blockSize s) position) s
  end.

(** The calls a client makes on a BlockSystem, and a run of them. *)
Inductive Call :=
| CallPlace (gridPos : GridPos)
| CallRemove (gridPos : GridPos)
| CallSelect (type : string)
| CallHighlight (intersection : option Vector3) (normal : Vector3)
| CallClick (intersection : option Vector3) (normal : Vector3) (isRightClick : bool).

Definition call (c : Call) (s : State) : State :=
  match c with
  | CallPlace g => snd (placeBlock g s)
  | CallRemove g => snd (removeBlock g s)
  | CallSelect type => snd (setSelectedBlockType type s)
  | CallHighlight i n => snd (updateHighlightPosition i n s)
  | CallClick i n r => snd (handleClick i n r s)
  end.

Definition run (calls : list Call) (s : State) : State :=
  fold_left (fun st c => call c st) calls s.

End BlockSystem.

(** ** Plain objects read with a computed key *)

(** The names every object inherits from Object.prototype.  Read with
    [object[name]] each of them is truthy: eleven functions and, for
    [__proto__], the prototype itself.  Written with [object[name] = value]
    they become properties of the object, but for [__proto__], which makes
    the value the prototype. *)
Definition objectPrototype : list string :=
  ["constructor"; "hasOwnProperty"; "isPrototypeOf"; "propertyIsEnumerable";
   "toLocaleString"; "toString"; "valueOf"; "__proto__"; "__defineGetter__";
   "__defineSetter__"; "__lookupGetter__"; "__lookupSetter__"].

(** The properties of the object GLTFLoader of three.js hands to the
    callback of [load]; the code reads [scene]. *)
Definition gltfProperties : list string :=
  ["scene"; "scenes"; "animations"; "cameras"; "asset"; "parser"; "userData"].

(** How a call ends: with a value, or with the TypeError of reading a
    property of [undefined]. *)
Inductive Completion :=
| Returned (value : bool)
| ThrewTypeError.

(** ** BlockSystem.js on doubles *)

Module Float64.

(** THREE.Vector3 with the doubles the engine holds. *)
Record Vector3 := mkVector3 { vx : float; vy : float; vz : float }.

(** [a.add(b)]: each sum rounded to the nearest double. *)
Definition add (a b : Vector3) : Vector3 :=
  mkVector3 (vx a + vx b)%float (vy a + vy b)%float (vz a + vz b)%float.

(** [Math.floor] of a double with a finite value, as an integer; [None]
    for NaN and the infinities. *)
Definition Math_floor (v : float) : option Z :=
  match Prim2SF v with
  | S754_zero _ => Some 0
  | S754_finite negative mantissa exponent =>
      let m := if negative then Z.neg mantissa else Z.pos mantissa in
      Some (if 0 <=? exponent then m * 2 ^ exponent
            else m / 2 ^ (- exponent))
  | S754_infinity _ | S754_nan => None
  end.

(** [worldToGrid(position)]; [None] when a coordinate is not finite. *)
Definition worldToGrid (blockSize : float) (position : Vector3)
  : option (Z * Z * Z) :=
  match Math_floor (vx position / blockSize)%float,
        Math_floor (vy position / blockSize)%float,
        Math_floor (vz position / blockSize)%float with
  | Some gx, Some gy, Some gz => Some (gx, gy, gz)
  | _, _, _ => None
  end.

(** [gridToWorld(gridPos)] *)
Definition gridToWorld (blockSize : float) (gridPos : Vector3) : Vector3 :=
  mkVector3 (vx gridPos * blockSize + blockSize / 2)%float
            (vy gridPos * blockSize + blockSize / 2)%float
            (vz gridPos * blockSize + blockSize / 2)%float.

End Float64.

(** ** Pointer events *)

(** What the handlers read from a MouseEvent; [targetOnUI] is
    [event.target.closest('#block-selector, #prev-page, #next-page,
    .block-option') !== null]. *)
Record MouseEvent := mkMouseEvent {
  clientX : Z;
  clientY : Z;
  button : Z;
  targetOnUI : bool
}.

(** [getKey(pos)] of both main.js:
    [`${Math.round(pos.x)},${Math.round(pos.y)},${Math.round(pos.z)}`] *)
Definition getKey (pos : Vector3) : string :=
  numberToString (Math_round (vx pos)) +:+ "," +:+
  numberToString (Math_round (vy pos)) +:+ "," +:+
  numberToString (Math_round (vz pos)).

(** [v.x = Math.round(v.x)], and so for y and z. *)
Definition roundToGrid (v : Vector3) : Vector3 :=
  mkVector3 (inject_Z (Math_round (vx v))) (inject_Z (Math_round (vy v)))
            (inject_Z (Math_round (vz v))).

(** ** The first main.js (unnamed/part_000): coloured cubes *)

Module CubeBuilder.

(** A cube of [blocksGroup]: THREE.Mesh with a 1x1x1 box. *)
Record Block := mkBlock {
  position : Vector3;
  color : option Z
}.

(** The object of an intersection: the ground plane, or the child of
    [blocksGroup] with the given index ([intersectObjects] is not recursive
    here and the cubes have no children). *)
Inductive HitObject := HitPlane | HitBlock (index : nat).

(** The first element of [raycaster.intersectObjects(...)]. *)
Record Intersection := mkIntersection {
  object : HitObject;
  point : Vector3;
  normal : Vector3
}.

Record State := mkState {
  blocksGroup : list Block;
  occupiedPositions : gset string;
  previewPosition : Vector3;
  previewVisible : bool;
  console : list Vector3
}.

Definition colors : list Z := [0x000000; 0x333333; 0x666666; 0x999999].

(** The state the constructor leaves. *)
Definition constructor : State :=
  mkState [] ∅ (mkVector3 0%Q 0%Q 0%Q) false [].

(** [addBlock(pos, color)] *)
Definition addBlock (pos : Vector3) (color : option Z) (s : State) : State :=
  let block := mkBlock (roundToGrid pos) color in
  mkState (blocksGroup s ++ [block])
    ({[getKey (position block)]} ∪ occupiedPositions s)
    (previewPosition s) (previewVisible s)
    (console s ++ [position block]).

(** [removeBlock(block)], the block being the child of index [index]. *)
Definition removeBlock (index : nat) (s : State) : State :=
  match blocksGroup s !! index with
  | Some block =>
      let key := getKey (position block) in
      mkState (delete index (blocksGroup s)) (occupiedPositions s ∖ {[key]})
        (previewPosition s) (previewVisible s) (console s)
  | None => s
  end.

(** The position a hit resolves to, before it is rounded: on the plane the
    hit point with y forced to 0, on a cube its position plus the face
    normal. [None] when the hit object is no child of the group. *)
Definition targetPosition (hit : Intersection) (s : State) : option Vector3 :=
  match object hit with
  | HitPlane => Some (mkVector3 (vx (point hit)) 0%Q (vz (point hit)))
  | HitBlock i =>
      (fun block => vadd (position block) (normal hit)) <$> blocksGroup s !! i
  end.

(** [updatePreview()], with the first intersection of the ray with the plane
    and the cubes. *)
Definition updatePreview (hit : option Intersection) (s : State) : State :=
  match hit with
  | Some h =>
      match targetPosition h s with
      | Some previewPos =>
          mkState (blocksGroup s) (occupiedPositions s)
            (roundToGrid previewPos) true (console s)
      | None => s
      end
  | None =>
      mkState (blocksGroup s) (occupiedPositions s)
        (previewPosition s) false (console s)
  end.

(** [onMouseMove(event)] *)
Definition onMouseMove (event : MouseEvent) (hit : option Intersection)
    (s : State) : State :=
  updatePreview hit s.

(** [onMouseDown(event)]: [hit] is the first intersection with the plane and
    the cubes, [hitBlocks] the first one with the cubes alone, [random] is
    [Math.floor(Math.random() * this.colors.length)]. *)
Definition onMouseDown (event : MouseEvent) (hit : option Intersection)
    (hitBlocks : option nat) (random : nat) (s : State) : State :=
  if button event =? 0 then
    match hit with
    | Some h =>
        match targetPosition h s with
        | Some newPos =>
            if bool_decide (getKey newPos ∈ occupiedPositions s) then s
            else addBlock newPos (colors !! random) s
        | None => s
        end
    | None => s
    end
  else if button event =? 2 then
    match hitBlocks with
    | Some i => removeBlock i s
    | None => s
    end
  else s.

(** [onKeyDown(event)]: R empties the group, child 0 first, and clears the
    set. *)
Fixpoint removeAll (children : list Block) : list Block :=
  match children with
  | [] => []
  | _ :: rest => removeAll rest
  end.

Definition onKeyDown (key : string) (s : State) : State :=
  if String.eqb key "r" || String.eqb key "R" then
    mkState (removeAll (blocksGroup s)) ∅
      (previewPosition s) (previewVisible s) (console s)
  else s.

End CubeBuilder.

(** ** The second main.js (unnamed/part_001): glTF models, drag detection *)

Module BlockBuilder.

(** THREE.Object3D as the code reads it: the position, the entry
    [userData.positionKey], the children.  A placed model is a tree of such
    nodes (a clone of [gltf.scene]). *)
#[warnings="-register-all"]
Inductive Object3D :=
| mkObject3D (position : Vector3) (positionKey : option string)
             (children : list Object3D).

Definition position (o : Object3D) : Vector3 :=
  match o with mkObject3D p _ _ => p end.
Definition positionKey (o : Object3D) : option string :=
  match o with mkObject3D _ k _ => k end.
Definition children (o : Object3D) : list Object3D :=
  match o with mkObject3D _ _ c => c end.

(** A node of the scene graph below [blocksGroup]: the child of the group
    with index [top], then down through the children with the indices of
    [path] (the empty path is that child itself, a placed model). *)
Record ObjRef := mkObjRef {
  top : nat;
  path : list nat
}.

(** [object.parent] of such a node. *)
Inductive Parent :=
| ParentNull
| ParentGroup
| ParentObject (r : ObjRef).

Definition parent (r : ObjRef) : Parent :=
  match path r with
  | [] => ParentGroup
  | _ :: _ => ParentObject (mkObjRef (top r) (removelast (path r)))
  end.

(** [while (topObject.parent !== this.blocksGroup && topObject.parent !==
    null) topObject = topObject.parent], at most [fuel] turns. *)
Fixpoint climb (fuel : nat) (topObject : ObjRef) : ObjRef :=
  match fuel with
  | O => topObject
  | S fuel' =>
      match parent topObject with
      | ParentObject p => climb fuel' p
      | ParentGroup | ParentNull => topObject
      end
  end.

(** The loop, with one turn for every step of the path. *)
Definition topObjectOf (object : ObjRef) : ObjRef :=
  climb (length (path object)) object.

(** The object of an intersection: the ground plane or a node of a placed
    model ([intersectObjects] is recursive here). *)
Inductive HitObject := HitPlane | HitNode (r : ObjRef).

(** The first element of [raycaster.intersectObjects(...)]; [worldNormal] is
    [intersect.face.normal.clone().applyMatrix3(normalMatrix).normalize()],
    the normal of the hit face in world space. *)
Record Intersection := mkIntersection {
  object : HitObject;
  point : Vector3;
  worldNormal : Vector3
}.

Record State := mkState {
  blocksGroup : list Object3D;
  occupiedPositions : gset string;
  blockModels : gmap string Object3D;
  selectedModel : option string;
  previewPosition : Vector3;
  previewVisible : bool;
  isDragging : bool;
  dragStartX : Z;
  dragStartY : Z;
  dragThreshold : Z;
  clickedOnUI : bool;
  console : list string
}.

(** The state the constructor leaves, before any model is loaded. *)
Definition constructor : State :=
  {| blocksGroup := [];
     occupiedPositions := ∅;
     blockModels := ∅;
     selectedModel := None;
     previewPosition := mkVector3 0%Q 0%Q 0%Q;
     previewVisible := false;
     isDragging := false;
     dragStartX := 0;
     dragStartY := 0;
     dragThreshold := 5;
     clickedOnUI := false;
     console := [] |}.

Definition setScene (group : list Object3D) (occupied : gset string)
    (s : State) : State :=
  mkState group occupied (blockModels s) (selectedModel s)
    (previewPosition s) (previewVisible s) (isDragging s) (dragStartX s)
    (dragStartY s) (dragThreshold s) (clickedOnUI s) (console s).

Definition setPreview (position : Vector3) (visible : bool) (s : State)
  : State :=
  mkState (blocksGroup s) (occupiedPositions s) (blockModels s)
    (selectedModel s) position visible (isDragging s) (dragStartX s)
    (dragStartY s) (dragThreshold s) (clickedOnUI s) (console s).

Definition setDrag (dragging : bool) (startX startY : Z) (onUI : bool)
    (s : State) : State :=
  mkState (blocksGroup s) (occupiedPositions s) (blockModels s)
    (selectedModel s) (previewPosition s) (previewVisible s) dragging
    startX startY (dragThreshold s) onUI (console s).

Definition warn (message : string) (s : State) : State :=
  mkState (blocksGroup s) (occupiedPositions s) (blockModels s)
    (selectedModel s) (previewPosition s) (previewVisible s) (isDragging s)
    (dragStartX s) (dragStartY s) (dragThreshold s) (clickedOnUI s)
    (console s ++ [message]).

(** The callback of [gltfLoader.load]: [this.blockModels[model.id] = gltf];
    [gltf] stands for [gltf.scene].  The entry under [__proto__] is the
    prototype the assignment sets, which [blockModels["__proto__"]] reads
    back. *)
Definition storeModel (modelId : string) (gltf : Object3D) (s : State)
  : State :=
  mkState (blocksGroup s) (occupiedPositions s)
    (<[modelId := gltf]> (blockModels s)) (selectedModel s)
    (previewPosition s) (previewVisible s) (isDragging s) (dragStartX s)
    (dragStartY s) (dragThreshold s) (clickedOnUI s) (console s).

(** [selectModel(modelId)] *)
Definition selectModel (modelId : string) (s : State) : State :=
  mkState (blocksGroup s) (occupiedPositions s) (blockModels s)
    (Some modelId) (previewPosition s) (previewVisible s) (isDragging s)
    (dragStartX s) (dragStartY s) (dragThreshold s) (clickedOnUI s)
    (console s).

(** [this.blockModels[modelId]] finds no model the code stored but a
    property the object inherits: one of Object.prototype, or, when a model
    was stored under [__proto__] and so became the prototype, one of that
    model.  Such a value is truthy and has no [scene]. *)
Definition inheritedName (modelId : string) (s : State) : bool :=
  match blockModels s !! modelId with
  | Some _ => false
  | None =>
      existsb (String.eqb modelId) objectPrototype
      || (match blockModels s !! "__proto__" with
          | Some _ => true
          | None => false
          end
          && existsb (String.eqb modelId) gltfProperties)
  end.

(** [this.blockModels[modelId]] is truthy. *)
Definition hasProperty (modelId : string) (s : State) : bool :=
  match blockModels s !! modelId with
  | Some _ => true
  | None => inheritedName modelId s
  end.

(** The model the code stored under the selected id, which [addBlock]
    clones; [None] when nothing is selected (an empty id is falsy) or the
    code stored no model under the id. *)
Definition loadedModel (s : State) : option Object3D :=
  match selectedModel s with
  | Some modelId =>
      if String.eqb modelId "" then None else blockModels s !! modelId
  | None => None
  end.

(** The selected id is not empty and finds an inherited property: the guard
    [!this.selectedModel || !this.blockModels[this.selectedModel]] of
    [addBlock] lets it pass. *)
Definition selectedInherited (s : State) : bool :=
  match selectedModel s with
  | Some modelId => negb (String.eqb modelId "") && inheritedName modelId s
  | None => false
  end.

(** [addBlock(pos)]: the guard, the test of the cell, then
    [gltf.scene.clone()], which throws when [gltf] is an inherited
    property. *)
Definition addBlock (pos : Vector3) (s : State) : Completion * State :=
  match loadedModel s with
  | None =>
      if selectedInherited s then
        if bool_decide (getKey pos ∈ occupiedPositions s)
        then (Returned false, s)
        else (ThrewTypeError, s)
      else
        (Returned false, warn "No model selected or model not loaded yet" s)
  | Some gltf =>
      let key := getKey pos in
      if bool_decide (key ∈ occupiedPositions s) then (Returned false, s)
      else
        let modelScene :=
          mkObject3D (roundToGrid pos) (Some key) (children gltf) in
        (Returned true,
         setScene (blocksGroup s ++ [modelScene])
           ({[key]} ∪ occupiedPositions s) s)
  end.

(** [removeBlock(object)]: the key of the top-level parent leaves the set
    when it is there and truthy, and that parent leaves the group. *)
Definition removeBlock (object : ObjRef) (s : State) : State :=
  let topObject := topObjectOf object in
  match blocksGroup s !! top topObject with
  | Some o =>
      let occupied :=
        match positionKey o with
        | Some key =>
            if String.eqb key "" then occupiedPositions s
            else occupiedPositions s ∖ {[key]}
        | None => occupiedPositions s
        end in
      setScene (delete (top topObject) (blocksGroup s)) occupied s
  | None => s
  end.

(** The position a hit resolves to, before it is rounded: on the plane the
    hit point with y set to 0; on a model the world position of its
    top-level parent (the group sits at the origin) plus the world normal.
    [None] when the hit object is not in the group. *)
Definition targetPosition (hit : Intersection) (s : State) : option Vector3 :=
  match object hit with
  | HitPlane => Some (mkVector3 (vx (point hit)) 0%Q (vz (point hit)))
  | HitNode r =>
      let targetObject := topObjectOf r in
      (fun o => vadd (position o) (worldNormal hit))
        <$> blocksGroup s !! top targetObject
  end.

(** [updatePreview()], with the first intersection of the ray with the plane
    and the models. *)
Definition updatePreview (hit : option Intersection) (s : State) : State :=
  match hit with
  | Some h =>
      match targetPosition h s with
      | Some previewPos => setPreview (roundToGrid previewPos) true s
      | None => s
      end
  | None => setPreview (previewPosition s) false s
  end.

(** The drag test of [onMouseMove]. *)
Definition exceedsThreshold (event : MouseEvent) (s : State) : bool :=
  (Math_abs (clientX event - dragStartX s) >? dragThreshold s)
  || (Math_abs (clientY event - dragStartY s) >? dragThreshold s).

(** [onMouseMove(event)] *)
Definition onMouseMove (event : MouseEvent) (hit : option Intersection)
    (s : State) : State :=
  let s1 :=
    if negb (isDragging s) && exceedsThreshold event s
    then setDrag true (dragStartX s) (dragStartY s) (clickedOnUI s) s
    else s in
  updatePreview hit s1.

(** [onMouseDown(event)]; [hitBlocks] is the object of the first
    intersection with the models alone. *)
Definition onMouseDown (event : MouseEvent) (hitBlocks : option ObjRef)
    (s : State) : State :=
  let s1 := setDrag false (clientX event) (clientY event) (targetOnUI event) s in
  if button event =? 2 then
    match hitBlocks with
    | Some object => removeBlock object s1
    | None => s1
    end
  else s1.

(** The condition under which [onMouseUp] calls [addBlock]. *)
Definition placesBlock (event : MouseEvent) (s : State) : bool :=
  (button event =? 0) && negb (isDragging s) && negb (clickedOnUI s)
  && previewVisible s.

(** [onMouseUp(event)]: when [addBlock] throws, the handler ends there and
    the two flags keep their values. *)
Definition onMouseUp (event : MouseEvent) (s : State) : State :=
  let result :=
    if placesBlock event s then addBlock (previewPosition s) s
    else (Returned false, s) in
  let s1 := snd result in
  match fst result with
  | Returned _ => setDrag false (dragStartX s1) (dragStartY s1) false s1
  | ThrewTypeError => s1
  end.

(** [onKeyDown(event)]: R removes child 0 of the group until none is left,
    and clears the set. *)
Fixpoint removeAll (children : list Object3D) : list Object3D :=
  match children with
  | [] => []
  | _ :: rest => removeAll rest
  end.

Definition onKeyDown (key : string) (s : State) : State :=
  if String.eqb key "r" || String.eqb key "R" then
    setScene (removeAll (blocksGroup s)) ∅ s
  else s.

(** What happens to a running application. *)
Inductive Event :=
| ModelLoaded (modelId : string) (gltf : Object3D)
| ModelSelected (modelId : string)
| MouseMove (event : MouseEvent) (hit : option Intersection)
| MouseDown (event : MouseEvent) (hitBlocks : option ObjRef)
| MouseUp (event : MouseEvent)
| KeyDown (key : string)
| Place (pos : Vector3)
| Remove (object : ObjRef).

Definition handle (e : Event) (s : State) : State :=
  match e with
  | ModelLoaded modelId gltf => storeModel modelId gltf s
  | ModelSelected modelId => selectModel modelId s
  | MouseMove event hit => onMouseMove event hit s
  | MouseDown event hitBlocks => onMouseDown event hitBlocks s
  | MouseUp event => onMouseUp event s
  | KeyDown key => onKeyDown key s
  | Place pos => snd (addBlock pos s)
  | Remove object => removeBlock object s
  end.

Definition run (events : list Event) (s : State) : State :=
  fold_left (fun st e => handle e st) events s.

End BlockBuilder.

(** ** More JavaScript built-ins *)

(** [Math.ceil]. *)
Definition Math_ceil (v : Q) : Z := Qceiling v.

(** [array.slice(start, end)]: a negative index counts from the end, every
    index is clamped to the array, and the result is empty when the end is
    not after the start. *)
Definition slice {A : Type} (start finish : Z) (l : list A) : list A :=
  let len := Z.of_nat (length l) in
  let k := if start <? 0 then Z.max (len + start) 0 else Z.min start len in
  let final :=
    if finish <? 0 then Z.max (len + finish) 0 else Z.min finish len in
  take (Z.to_nat (final - k)) (drop (Z.to_nat k) l).

(** The digits of [n.toString(16)]. *)
Definition hexDigit (d : N) : ascii :=
  match d with
  | 0 => "0" | 1 => "1" | 2 => "2" | 3 => "3" | 4 => "4" | 5 => "5"
  | 6 => "6" | 7 => "7" | 8 => "8" | 9 => "9" | 10 => "a" | 11 => "b"
  | 12 => "c" | 13 => "d" | 14 => "e" | _ => "f"
  end%char%N.

(** The hexadecimal digits of [n] in front of [acc]; [fuel] bounds the
    number of digits. *)
Fixpoint toHex (fuel : nat) (n : N) (acc : string) : string :=
  match fuel with
  | O => acc
  | S fuel' =>
      if (n =? 0)%N then acc
      else toHex fuel' (n / 16)%N (String (hexDigit (n mod 16)%N) acc)
  end.

(** [n.toString(16)] for an integer [n]; a number of [k] bits has at most
    [k] digits. *)
Definition toString16 (n : Z) : string :=
  match n with
  | Z0 => "0"
  | Zpos p => toHex (Pos.size_nat p) (Npos p) ""
  | Zneg p => "-" +:+ toHex (Pos.size_nat p) (Npos p) ""
  end.

Fixpoint repeatChar (count : nat) (c : ascii) : string :=
  match count with
  | O => EmptyString
  | S count' => String c (repeatChar count' c)
  end.

(** [s.padStart(targetLength, c)] for a pad text of one character. *)
Definition padStart (targetLength : nat) (c : ascii) (s : string) : string :=
  repeatChar (targetLength - String.length s) c +:+ s.

(** ** src/UserInterface.js *)

Module UserInterface.

(** A child of the palette element: [dataset.type], the background colour,
    the tooltip and whether the class list holds [selected]. *)
Record BlockOption := mkBlockOption {
  dataType : string;
  backgroundColor : string;
  title : string;
  selected : bool
}.

(** The fields of a UserInterface, with the BlockSystem it drives;
    [statusText] is the text of the status indicator. *)
Record State := mkState {
  blockSystem : BlockSystem.State;
  blockPalette : list BlockOption;
  statusText : string
}.

(** [this.blockSystem.selectedBlockType === props].  The entries of
    [BLOCK_TYPES] are six objects with six different names and colours, so
    being the same entry is having the same fields. *)
Definition sameProps (a b : BlockSystem.BlockType) : bool :=
  (BlockSystem.color a =? BlockSystem.color b)
  && String.eqb (BlockSystem.name a) (BlockSystem.name b)
  && bool_decide (BlockSystem.transparent a = BlockSystem.transparent b)
  && match BlockSystem.opacity a, BlockSystem.opacity b with
     | Some x, Some y => Qeq_bool x y
     | None, None => true
     | _, _ => false
     end.

(** The colour of an option:
    [`#${props.color.toString(16).padStart(6, '0')}`]. *)
Definition cssColor (color : Z) : string :=
  "#" +:+ padStart 6 "0" (toString16 color).

(** [createBlockPalette()]: one option per entry of [BLOCK_TYPES], in the
    order of the entries. *)
Definition createBlockPalette (bs : BlockSystem.State) : list BlockOption :=
  (fun '(type, props) =>
     mkBlockOption type (cssColor (BlockSystem.color props))
       (BlockSystem.name props)
       (sameProps (BlockSystem.selectedBlockType bs) props))
    <$> BlockSystem.BLOCK_TYPES.

Definition idleText : string :=
  "Left click to place, right click to remove blocks".

(** [new UserInterface(blockSystem)] on a page with an empty palette
    element. *)
Definition constructor (bs : BlockSystem.State) : State :=
  mkState bs (createBlockPalette bs) idleText.

Definition deselect (option : BlockOption) : BlockOption :=
  mkBlockOption (dataType option) (backgroundColor option) (title option) false.

Definition select (option : BlockOption) : BlockOption :=
  mkBlockOption (dataType option) (backgroundColor option) (title option) true.

(** The click handler of the option with index [index]: every option loses
    [selected], the clicked one gets it, and the BlockSystem is told the
    type. *)
Definition clickOption (index : nat) (ui : State) : State :=
  match blockPalette ui !! index with
  | Some blockOption =>
      mkState
        (snd (BlockSystem.setSelectedBlockType (dataType blockOption)
                (blockSystem ui)))
        (alter select index (deselect <$> blockPalette ui))
        (statusText ui)
  | None => ui
  end.

(** [updateCoordinateDisplay(position)] *)
Definition updateCoordinateDisplay (position : option BlockSystem.GridPos)
    (ui : State) : State :=
  match position with
  | None => mkState (blockSystem ui) (blockPalette ui) idleText
  | Some pos =>
      let blockType :=
        BlockSystem.name (BlockSystem.selectedBlockType (blockSystem ui)) in
      mkState (blockSystem ui) (blockPalette ui)
        ("Position: (" +:+ numberToString (BlockSystem.x pos) +:+ ", "
         +:+ numberToString (BlockSystem.y pos) +:+ ", "
         +:+ numberToString (BlockSystem.z pos) +:+ ") | Selected: "
         +:+ blockType +:+ " | Left click to place, right click to remove")
  end.

(** The option clicked, one click after the other. *)
Definition run (clicks : list nat) (ui : State) : State :=
  fold_left (fun st index => clickOption index st) clicks ui.

End UserInterface.

(** ** The model selector of the second main.js (unnamed/part_001) *)

Module BlockSelector.

(** An entry of blocks.json. *)
Record ModelFile := mkModelFile {
  id : string;
  file : string
}.

(** [this.pagination] *)
Record Pagination := mkPagination {
  itemsPerPage : Z;
  currentPage : Z;
  totalItems : Z;
  totalPages : Z
}.

(** The BlockBuilder with its selector: [options] are the models of the
    children of the block-selector element ([dataset.modelId]), in order;
    the two flags are [disabled] of the buttons, the two numbers the texts
    of the page display.  The images and the class lists of the options are
    left out. *)
Record State := mkState {
  builder : BlockBuilder.State;
  pagination : Pagination;
  allModelFiles : list ModelFile;
  options : list ModelFile;
  prevDisabled : bool;
  nextDisabled : bool;
  currentPageText : Z;
  totalPagesText : Z
}.

(** The pagination both branches of [loadBlockModels] set up: six items per
    page, page one. *)
Definition newPagination (modelFiles : list ModelFile) : Pagination :=
  let n := Z.of_nat (length modelFiles) in
  mkPagination 6 1 n (Math_ceil (inject_Z n / 6)%Q).

(** [updatePagination()]: the buttons, the page text and the options of the
    current page. *)
Definition updatePagination (s : State) : State :=
  let p := pagination s in
  let startIndex := (currentPage p - 1) * itemsPerPage p in
  let endIndex := Z.min (startIndex + itemsPerPage p) (totalItems p) in
  let visibleModels := slice startIndex endIndex (allModelFiles s) in
  mkState (builder s) p (allModelFiles s) visibleModels
    (currentPage p =? 1) (currentPage p =? totalPages p)
    (currentPage p) (totalPagesText s).

(** [loadBlockModels()] when blocks.json arrives: [modelFiles] is the list
    after it was sorted by id.  The page shows page 1 of 1 and a disabled
    previous button before. *)
Definition loadBlockModels (modelFiles : list ModelFile)
    (b : BlockBuilder.State) : State :=
  let p := newPagination modelFiles in
  updatePagination
    (mkState b p modelFiles [] true false (currentPage p) (totalPages p)).

(** The fallback of [loadBlockModels()] when blocks.json cannot be read. *)
Definition fallbackModels : list ModelFile :=
  [mkModelFile "block-grass" "block-grass.glb";
   mkModelFile "block-grass-large" "block-grass-large.glb";
   mkModelFile "block-grass-corner" "block-grass-corner.glb"].

Definition loadFallback (b : BlockBuilder.State) : State :=
  updatePagination
    (mkState b (newPagination fallbackModels) fallbackModels [] true false 1 1).

Definition setPage (page : Z) (s : State) : State :=
  let p := pagination s in
  mkState (builder s)
    (mkPagination (itemsPerPage p) page (totalItems p) (totalPages p))
    (allModelFiles s) (options s) (prevDisabled s) (nextDisabled s)
    (currentPageText s) (totalPagesText s).

Definition setBuilder (b : BlockBuilder.State) (s : State) : State :=
  mkState b (pagination s) (allModelFiles s) (options s) (prevDisabled s)
    (nextDisabled s) (currentPageText s) (totalPagesText s).

(** The click handler of the previous button. *)
Definition clickPrev (s : State) : State :=
  if currentPage (pagination s) >? 1
  then updatePagination (setPage (currentPage (pagination s) - 1) s)
  else s.

(** The click handler of the next button. *)
Definition clickNext (s : State) : State :=
  if currentPage (pagination s) <? totalPages (pagination s)
  then updatePagination (setPage (currentPage (pagination s) + 1) s)
  else s.

(** The click handler of the option with index [index]: when
    [this.blockModels[model.id]] is truthy the model is selected at once;
    otherwise its file is requested, and the model is the second
    component. *)
Definition clickOption (index : nat) (s : State) : State * option ModelFile :=
  match options s !! index with
  | Some model =>
      if BlockBuilder.hasProperty (id model) (builder s)
      then
        (setBuilder (BlockBuilder.selectModel (id model) (builder s)) s, None)
      else (s, Some model)
  | None => (s, None)
  end.

(** The callback of the load an option click requested. *)
Definition clickLoaded (model : ModelFile) (gltf : BlockBuilder.Object3D)
    (s : State) : State :=
  setBuilder
    (BlockBuilder.selectModel (id model)
       (BlockBuilder.storeModel (id model) gltf (builder s))) s.

(** The callback of the background load of the option created with index
    [index]: the model is stored, and it becomes the selection when page
    one is shown, the index is 0 and nothing is selected. *)
Definition backgroundLoaded (index : nat) (model : ModelFile)
    (gltf : BlockBuilder.Object3D) (s : State) : State :=
  let b := BlockBuilder.storeModel (id model) gltf (builder s) in
  let unselected :=
    match BlockBuilder.selectedModel b with
    | Some modelId => String.eqb modelId ""
    | None => true
    end in
  if (currentPage (pagination s) =? 1) && Nat.eqb index 0 && unselected
  then setBuilder (BlockBuilder.selectModel (id model) b) s
  else setBuilder b s.

(** What happens to the page. *)
Inductive Event :=
| ClickPrev
| ClickNext
| ClickOption (index : nat)
| ClickLoaded (model : ModelFile) (gltf : BlockBuilder.Object3D)
| BackgroundLoaded (index : nat) (model : ModelFile)
    (gltf : BlockBuilder.Object3D)
| MouseMove (event : MouseEvent) (hit : option BlockBuilder.Intersection)
| MouseDown (event : MouseEvent) (hitBlocks : option BlockBuilder.ObjRef)
| MouseUp (event : MouseEvent)
| KeyDown (key : string).

Definition handle (e : Event) (s : State) : State :=
  match e with
  | ClickPrev => clickPrev s
  | ClickNext => clickNext s
  | ClickOption index => fst (clickOption index s)
  | ClickLoaded model gltf => clickLoaded model gltf s
  | BackgroundLoaded index model gltf => backgroundLoaded index model gltf s
  | MouseMove event hit =>
      setBuilder (BlockBuilder.onMouseMove event hit (builder s)) s
  | MouseDown event hitBlocks =>
      setBuilder (BlockBuilder.onMouseDown event hitBlocks (builder s)) s
  | MouseUp event => setBuilder (BlockBuilder.onMouseUp event (builder s)) s
  | KeyDown key => setBuilder (BlockBuilder.onKeyDown key (builder s)) s
  end.

Definition run (events : list Event) (s : State) : State :=
  fold_left (fun st e => handle e st) events s.

End BlockSelector.

(** * Specification vocabulary *)

(** ** Texts *)

(** Every character is a decimal digit. *)
Fixpoint allDigits (s : string) : bool :=
  match s with
  | EmptyString => true
  | String c rest => bool_decide (is_Some (digitValue c)) && allDigits rest
  end.

(** The character [sep] does not occur. *)
Fixpoint avoids (sep : ascii) (s : string) : bool :=
  match s with
  | EmptyString => true
  | String c rest => negb (Ascii.eqb c sep) && avoids sep rest
  end.

(** ** Geometry of a rendered block *)

(** THREE.BoxGeometry is centred on the position of its mesh: a point lies on
    face [f] of the box of side [side] around [centre] when it is half a side
    away from the centre along the normal of [f] and at most half a side away
    on the two other axes. *)
Definition within (half a b : Q) : bool :=
  Qle_bool (a - b) half && Qle_bool (b - a) half.

Definition onFace (side : Q) (centre : Vector3) (f : Face) (p : Vector3)
  : bool :=
  let '(dx, dy, dz) := faceStep f in
  let half := (side / 2)%Q in
  let along (d : Z) (c v : Q) : bool :=
    if d =? 0 then within half c v
    else Qeq_bool v (c + inject_Z d * half) in
  along dx (vx centre) (vx p) && along dy (vy centre) (vy p)
  && along dz (vz centre) (vz p).

(** A vector with integer coordinates. *)
Definition gridVector (a b c : Z) : Vector3 :=
  mkVector3 (inject_Z a) (inject_Z b) (inject_Z c).

(** ** Invariants *)


(** The set and the group of a BlockBuilder agree: every model of the group
    stands on integer coordinates and carries the key of its position, no
    two models carry the same key, and the set holds exactly these keys. *)
Record builderConsistent (s : BlockBuilder.State) : Prop := {
  keys_of_positions : forall o,
    o ∈ BlockBuilder.blocksGroup s ->
    BlockBuilder.positionKey o = Some (getKey (BlockBuilder.position o))
    /\ roundToGrid (BlockBuilder.position o) = BlockBuilder.position o;
  keys_distinct :
    NoDup (BlockBuilder.positionKey <$> BlockBuilder.blocksGroup s);
  occupied_keys : forall k,
    k ∈ BlockBuilder.occupiedPositions s
    <-> Some k ∈ (BlockBuilder.positionKey <$> BlockBuilder.blocksGroup s);
  occupied_size :
    size (BlockBuilder.occupiedPositions s)
    = length (BlockBuilder.blocksGroup s)
}.

(** ** Gestures *)

(** A pointer gesture: the button goes down, the pointer moves, the button
    goes up.  Each move comes with the first intersection of its ray. *)
Definition gestureStart (down : MouseEvent)
    (moves : list (MouseEvent * option BlockBuilder.Intersection))
  : list BlockBuilder.Event :=
  BlockBuilder.MouseDown down None
  :: ((fun m => BlockBuilder.MouseMove (fst m) (snd m)) <$> moves).

Definition gesture (down : MouseEvent)
    (moves : list (MouseEvent * option BlockBuilder.Intersection))
    (up : MouseEvent) : list BlockBuilder.Event :=
  gestureStart down moves ++ [BlockBuilder.MouseUp up].

(** The pointer of [move] is more than [threshold] pixels away from where
    the button went down, on the x or on the y axis of the screen. *)
Definition movedBeyond (threshold : Z) (down move : MouseEvent) : Prop :=
  Z.abs (clientX move - clientX down) > threshold
  \/ Z.abs (clientY move - clientY down) > threshold.

(** ** Events that leave the scene alone *)

(** An event of the second main.js that is no placement and no removal: a
    pointer move, a button other than the secondary one going down, a button
    other than the primary one going up, a key other than R, and the arrival
    or the selection of a model. *)
Definition quiet (e : BlockBuilder.Event) : Prop :=
  match e with
  | BlockBuilder.ModelLoaded _ _ | BlockBuilder.ModelSelected _
  | BlockBuilder.MouseMove _ _ => True
  | BlockBuilder.MouseDown event _ => button event <> 2
  | BlockBuilder.MouseUp event => button event <> 0
  | BlockBuilder.KeyDown key => key <> "r" /\ key <> "R"
  | BlockBuilder.Place _ | BlockBuilder.Remove _ => False
  end.

(** ** Runs of the first main.js *)

(** What happens to the first main.js: the three handlers it registers. *)
Inductive CubeEvent :=
| CubeMove (event : MouseEvent) (hit : option CubeBuilder.Intersection)
| CubeDown (event : MouseEvent) (hit : option CubeBuilder.Intersection)
    (hitBlocks : option nat) (random : nat)
| CubeKey (key : string).

Definition cubeHandle (e : CubeEvent) (s : CubeBuilder.State)
  : CubeBuilder.State :=
  match e with
  | CubeMove event hit => CubeBuilder.onMouseMove event hit s
  | CubeDown event hit hitBlocks random =>
      CubeBuilder.onMouseDown event hit hitBlocks random s
  | CubeKey key => CubeBuilder.onKeyDown key s
  end.

Definition cubeRun (events : list CubeEvent) (s : CubeBuilder.State)
  : CubeBuilder.State :=
  fold_left (fun st e => cubeHandle e st) events s.

(** The set and the group of the first main.js agree: every cube stands on
    integer coordinates, no two cubes have the same key, and the set holds
    exactly the keys of the cubes. *)
Record cubesConsistent (s : CubeBuilder.State) : Prop := {
  cubes_on_grid : forall block,
    block ∈ CubeBuilder.blocksGroup s ->
    roundToGrid (CubeBuilder.position block) = CubeBuilder.position block;
  cube_keys_distinct :
    NoDup ((fun block => getKey (CubeBuilder.position block))
             <$> CubeBuilder.blocksGroup s);
  cube_keys_occupied : forall k,
    k ∈ CubeBuilder.occupiedPositions s
    <-> k ∈ ((fun block => getKey (CubeBuilder.position block))
               <$> CubeBuilder.blocksGroup s);
  cube_keys_size :
    size (CubeBuilder.occupiedPositions s)
    = length (CubeBuilder.blocksGroup s)
}.

(** ** Reading a colour *)

Definition hexDigitValue (c : ascii) : option N :=
  let n := N_of_ascii c in
  if ((48 <=? n) && (n <=? 57))%N then Some (n - 48)%N
  else if ((97 <=? n) && (n <=? 102))%N then Some (n - 87)%N
  else None.

(** The number a text of hexadecimal digits stands for, after [acc]. *)
Fixpoint readHex (s : string) (acc : N) : option N :=
  match s with
  | EmptyString => Some acc
  | String c rest =>
      match hexDigitValue c with
      | Some d => readHex rest (16 * acc + d)%N
      | None => None
      end
  end.

(** ** The page of the model selector *)

(** The selector shows a page of [modelFiles]: the pagination counts the
    models, six to a page; the current page is at least 1 and at most the
    number of pages (1 when there is no page); the options are the models of
    the current page; the buttons and the page text say where the page is. *)
Record pageShown (modelFiles : list BlockSelector.ModelFile)
    (s : BlockSelector.State) : Prop := {
  shown_files : BlockSelector.allModelFiles s = modelFiles;
  shown_items : BlockSelector.itemsPerPage (BlockSelector.pagination s) = 6;
  shown_total :
    BlockSelector.totalItems (BlockSelector.pagination s)
    = Z.of_nat (length modelFiles);
  shown_pages :
    BlockSelector.totalPages (BlockSelector.pagination s)
    = (Z.of_nat (length modelFiles) + 5) / 6;
  shown_page_low : 1 <= BlockSelector.currentPage (BlockSelector.pagination s);
  shown_page_high :
    BlockSelector.currentPage (BlockSelector.pagination s)
    <= Z.max 1 (BlockSelector.totalPages (BlockSelector.pagination s));
  shown_options :
    BlockSelector.options s
    = take 6
        (drop
           (Z.to_nat
              (6 * (BlockSelector.currentPage (BlockSelector.pagination s) - 1)))
           modelFiles);
  shown_prev :
    BlockSelector.prevDisabled s
    = (BlockSelector.currentPage (BlockSelector.pagination s) =? 1);
  shown_next :
    BlockSelector.nextDisabled s
    = (BlockSelector.currentPage (BlockSelector.pagination s)
       =? BlockSelector.totalPages (BlockSelector.pagination s));
  shown_text :
    BlockSelector.currentPageText s
    = BlockSelector.currentPage (BlockSelector.pagination s)
}.

(** ** Keys of object literals *)

(** A text that names no property every object inherits.  [BLOCK_TYPES] is
    looked up among its six entries, so the properties of its selection are
    stated for plain keys; the look-ups in [blockModels] follow the inherited
    names ([BlockBuilder.inheritedName]). *)
Definition plainKey (key : string) : Prop :=
  existsb (String.eqb key) objectPrototype = false.

(** A call that selects no inherited name. *)
Definition plainCall (c : BlockSystem.Call) : Prop :=
  match c with
  | BlockSystem.CallSelect type => plainKey type
  | _ => True
  end.

(** An event of the selector that brings no model with an inherited name. *)
Definition plainEvent (e : BlockSelector.Event) : Prop :=
  match e with
  | BlockSelector.ClickLoaded model _
  | BlockSelector.BackgroundLoaded _ model _ =>
      plainKey (BlockSelector.id model)
  | _ => True
  end.

(** The selection of the page is sound: what is selected was stored, and
    the ids of the stored models, of the list and of the options shown are
    plain keys. *)
Record selectionSound (s : BlockSelector.State) : Prop := {
  selected_stored : forall modelId,
    BlockBuilder.selectedModel (BlockSelector.builder s) = Some modelId ->
    is_Some (BlockBuilder.blockModels (BlockSelector.builder s) !! modelId);
  stored_plain : forall modelId,
    is_Some (BlockBuilder.blockModels (BlockSelector.builder s) !! modelId) ->
    plainKey modelId;
  files_plain :
    Forall (fun model => plainKey (BlockSelector.id model))
      (BlockSelector.allModelFiles s);
  options_plain :
    Forall (fun model => plainKey (BlockSelector.id model))
      (BlockSelector.options s)
}.

(** ** A running application *)

(** A glTF scene of two nodes, and the second main.js after this model was
    loaded under the id block-grass and selected. *)
Definition demoModel : BlockBuilder.Object3D :=
  BlockBuilder.mkObject3D (mkVector3 0 0 0) None
    [BlockBuilder.mkObject3D (mkVector3 0 (1 # 2) 0) None []].

Definition demoState : BlockBuilder.State :=
  BlockBuilder.selectModel "block-grass"
    (BlockBuilder.storeModel "block-grass" demoModel BlockBuilder.constructor).

(** * Properties *)

(** ** Numbers *)

Lemma Qfloor_unique (q : Q) (n : Z) :
  (inject_Z n <= q)%Q -> (q < inject_Z (n + 1))%Q -> Qfloor q = n.
Proof.
  intros Hlo Hhi.
  pose proof (Qfloor_le q) as Hle.
  pose proof (Qlt_floor q) as Hlt.
  assert (inject_Z n < inject_Z (Qfloor q + 1))%Q as H1
    by (eapply Qle_lt_trans; eassumption).
  assert (inject_Z (Qfloor q) < inject_Z (n + 1))%Q as H2
    by (eapply Qle_lt_trans; eassumption).
  rewrite <- Zlt_Qlt in H1, H2. lia.
Qed.

Lemma Math_round_integer (n : Z) (d : Q) :
  (- (1 # 2) <= d)%Q -> (d < 1 # 2)%Q ->
  Math_round (inject_Z n + d) = n.
Proof.
  intros Hlo Hhi. unfold Math_round. apply Qfloor_unique.
  - lra.
  - rewrite inject_Z_plus. change (inject_Z 1) with 1%Q. lra.
Qed.

Lemma Math_round_inject_Z (n : Z) : Math_round (inject_Z n) = n.
Proof.
  transitivity (Math_round (inject_Z n + 0)).
  - unfold Math_round. apply Qfloor_comp. ring.
  - apply Math_round_integer; lra.
Qed.

Lemma Math_round_add_inject_Z (n m : Z) :
  Math_round (inject_Z n + inject_Z m) = n + m.
Proof. rewrite <- inject_Z_plus. apply Math_round_inject_Z. Qed.

(** ** Keys *)

Lemma append_cons (c : ascii) (s1 s2 : string) :
  String c s1 +:+ s2 = String c (s1 +:+ s2).
Proof. reflexivity. Qed.

Lemma append_empty (s : string) : "" +:+ s = s.
Proof. reflexivity. Qed.

Lemma append_assoc (s1 s2 s3 : string) :
  (s1 +:+ s2) +:+ s3 = s1 +:+ (s2 +:+ s3).
Proof.
  induction s1 as [|c s1 IH]; [done|].
  by rewrite !append_cons, IH.
Qed.

Lemma allDigits_app (s1 s2 : string) :
  allDigits (s1 +:+ s2) = allDigits s1 && allDigits s2.
Proof.
  induction s1 as [|c s1 IH]; [done|].
  rewrite append_cons. simpl. by rewrite IH, andb_assoc.
Qed.

Lemma digit_not_comma (c : ascii) :
  is_Some (digitValue c) -> Ascii.eqb c "," = false.
Proof.
  destruct c as [[] [] [] [] [] [] [] []]; intros [d Hd]; vm_compute in Hd;
    try discriminate; reflexivity.
Qed.

Lemma allDigits_avoids_comma (s : string) :
  allDigits s = true -> avoids "," s = true.
Proof.
  induction s as [|c s IH]; simpl; [done|].
  intros [Hc Hs]%andb_true_iff. apply bool_decide_eq_true in Hc.
  rewrite (digit_not_comma c Hc). simpl. auto.
Qed.

Lemma digitValue_pretty_N_char (d : N) :
  (d < 10)%N -> digitValue (pretty_N_char d) = Some d.
Proof.
  intros Hd.
  assert (d = 0 ∨ d = 1 ∨ d = 2 ∨ d = 3 ∨ d = 4 ∨ d = 5 ∨ d = 6 ∨ d = 7
          ∨ d = 8 ∨ d = 9)%N as Hcases by lia.
  repeat (destruct Hcases as [-> | Hcases]; [reflexivity|]).
  by subst.
Qed.

Lemma pretty_N_go_app (n : N) (s : string) :
  pretty_N_go n s = pretty_N_go n "" +:+ s.
Proof.
  revert s. induction (N.lt_wf_0 n) as [n _ IH]. intros s.
  destruct (decide (n = 0)%N) as [-> | Hn]; [done|].
  rewrite (pretty_N_go_step n s), (pretty_N_go_step n "") by lia.
  rewrite (IH (n `div` 10)%N) by (apply N.div_lt; lia).
  rewrite (IH (n `div` 10)%N ltac:(apply N.div_lt; lia) (String _ "")).
  by rewrite append_assoc.
Qed.

Lemma pretty_N_go_last (n : N) :
  (0 < n)%N ->
  pretty_N_go n "" =
  pretty_N_go (n `div` 10)%N "" +:+ String (pretty_N_char (n `mod` 10)%N) "".
Proof.
  intros Hn. rewrite pretty_N_go_step by done. apply pretty_N_go_app.
Qed.

Lemma readDigits_app (s1 s2 : string) (acc : N) :
  readDigits (s1 +:+ s2) acc = readDigits s1 acc ≫= readDigits s2.
Proof.
  revert acc. induction s1 as [|c s1 IH]; intros acc; [done|].
  rewrite append_cons. simpl.
  destruct (digitValue c); [apply IH | done].
Qed.

Lemma readDigits_pretty_N_go (n : N) :
  readDigits (pretty_N_go n "") 0%N = Some n.
Proof.
  induction (N.lt_wf_0 n) as [n _ IH].
  destruct (decide (n = 0)%N) as [-> | Hn]; [done|].
  rewrite pretty_N_go_last, readDigits_app by lia.
  rewrite IH by (apply N.div_lt; lia). simpl.
  rewrite digitValue_pretty_N_char by (apply N.mod_lt; lia).
  f_equal. pose proof (N.div_mod n 10). lia.
Qed.

Lemma allDigits_pretty_N_go (n : N) : allDigits (pretty_N_go n "") = true.
Proof.
  induction (N.lt_wf_0 n) as [n _ IH].
  destruct (decide (n = 0)%N) as [-> | Hn]; [done|].
  rewrite pretty_N_go_last, allDigits_app by lia.
  rewrite IH by (apply N.div_lt; lia). simpl.
  rewrite digitValue_pretty_N_char by (apply N.mod_lt; lia).
  by rewrite bool_decide_eq_true_2.
Qed.

Lemma pretty_N_go_nonempty (n : N) :
  (0 < n)%N -> pretty_N_go n "" <> "".
Proof.
  intros Hn. rewrite pretty_N_go_last by done.
  destruct (pretty_N_go (n `div` 10)%N ""); discriminate.
Qed.

Lemma Number_digits (s : string) :
  s <> "" -> allDigits s = true -> Number s = Z.of_N <$> readDigits s 0%N.
Proof.
  destruct s as [|c s]; [done|]. intros _. simpl.
  intros [Hc _]%andb_true_iff. apply bool_decide_eq_true in Hc.
  destruct c as [[] [] [] [] [] [] [] []]; destruct Hc as [d Hd];
    vm_compute in Hd; try discriminate; reflexivity.
Qed.

Lemma Number_numberToString (n : Z) : Number (numberToString n) = Some n.
Proof.
  unfold numberToString, pretty, pretty_Z.
  destruct n as [|p|p]; [done| |].
  - unfold pretty, pretty_positive, pretty, pretty_N.
    rewrite decide_False by done.
    rewrite Number_digits
      by (apply pretty_N_go_nonempty || apply allDigits_pretty_N_go; lia).
    by rewrite readDigits_pretty_N_go.
  - unfold pretty, pretty_positive, pretty, pretty_N.
    rewrite decide_False by done.
    pose proof (pretty_N_go_nonempty (N.pos p) ltac:(lia)) as Hne.
    pose proof (readDigits_pretty_N_go (N.pos p)) as Hread.
    destruct (pretty_N_go (N.pos p) "") as [|c ds] eqn:E; [done|].
    simpl. simpl in Hread. by rewrite Hread.
Qed.

Lemma numberToString_avoids_comma (n : Z) :
  avoids "," (numberToString n) = true.
Proof.
  unfold numberToString, pretty, pretty_Z.
  destruct n as [|p|p]; [done| |];
    unfold pretty, pretty_positive, pretty, pretty_N;
    rewrite decide_False by done; simpl;
    apply allDigits_avoids_comma, allDigits_pretty_N_go.
Qed.

Lemma split_avoids (sep : ascii) (s : string) :
  avoids sep s = true -> split sep s = [s].
Proof.
  induction s as [|c s IH]; simpl; [done|].
  intros [Hc Hs]%andb_true_iff. apply negb_true_iff in Hc.
  by rewrite Hc, (IH Hs).
Qed.

Lemma split_app (sep : ascii) (s1 s2 : string) :
  avoids sep s1 = true ->
  split sep (s1 +:+ String sep s2) = s1 :: split sep s2.
Proof.
  induction s1 as [|c s1 IH].
  - intros _. rewrite append_empty. simpl. by rewrite Ascii.eqb_refl.
  - rewrite append_cons. simpl.
    intros [Hc Hs]%andb_true_iff. apply negb_true_iff in Hc.
    by rewrite Hc, (IH Hs).
Qed.

Lemma keyToPosition_positionToKey (g : BlockSystem.GridPos) :
  BlockSystem.keyToPosition (BlockSystem.positionToKey g) =
  (Some (BlockSystem.x g), Some (BlockSystem.y g), Some (BlockSystem.z g)).
Proof.
  unfold BlockSystem.keyToPosition, BlockSystem.positionToKey.
  rewrite !append_cons, !append_empty.
  rewrite (split_app _ _ _ (numberToString_avoids_comma (BlockSystem.x g))).
  rewrite (split_app _ _ _ (numberToString_avoids_comma (BlockSystem.y g))).
  rewrite split_avoids by apply numberToString_avoids_comma.
  simpl. by rewrite !Number_numberToString.
Qed.

Lemma positionToKey_inj (a b : BlockSystem.GridPos) :
  BlockSystem.positionToKey a = BlockSystem.positionToKey b -> a = b.
Proof.
  intros Hkey.
  pose proof (keyToPosition_positionToKey a) as Ha.
  pose proof (keyToPosition_positionToKey b) as Hb.
  rewrite Hkey, Hb in Ha.
  destruct a, b; simpl in *; congruence.
Qed.

Lemma getKey_positionToKey (pos : Vector3) :
  getKey pos =
  BlockSystem.positionToKey
    (BlockSystem.mkGridPos (Math_round (vx pos)) (Math_round (vy pos))
       (Math_round (vz pos))).
Proof. reflexivity. Qed.

Lemma getKey_inj (p q : Vector3) :
  getKey p = getKey q -> roundToGrid p = roundToGrid q.
Proof.
  rewrite !getKey_positionToKey. intros H%positionToKey_inj.
  unfold roundToGrid. congruence.
Qed.

Lemma getKey_nonempty (pos : Vector3) : getKey pos <> "".
Proof.
  unfold getKey. destruct (numberToString (Math_round (vx pos))); discriminate.
Qed.

Lemma roundToGrid_idem (pos : Vector3) :
  roundToGrid (roundToGrid pos) = roundToGrid pos.
Proof. unfold roundToGrid. simpl. by rewrite !Math_round_inject_Z. Qed.

Lemma getKey_roundToGrid (pos : Vector3) : getKey (roundToGrid pos) = getKey pos.
Proof. unfold getKey, roundToGrid. simpl. by rewrite !Math_round_inject_Z. Qed.

(** C7. Keys can be read back and tell cells apart: for every integer grid
    position g, keyToPosition (positionToKey g) has the three coordinates of
    g, and two grid positions have the same key exactly when they are the
    same position. *)
Theorem key_round_trip_and_injectivity :
  (forall g : BlockSystem.GridPos,
     BlockSystem.keyToPosition (BlockSystem.positionToKey g) =
     (Some (BlockSystem.x g), Some (BlockSystem.y g), Some (BlockSystem.z g)))
  /\ (forall a b : BlockSystem.GridPos,
        BlockSystem.positionToKey a = BlockSystem.positionToKey b <-> a = b).
Proof.
  split.
  - apply keyToPosition_positionToKey.
  - intros a b. split; [apply positionToKey_inj | by intros ->].
Qed.

(** ** The coordinate mapper *)

Lemma floor_near_centre (blockSize v : Q) (n : Z) :
  (0 < blockSize)%Q ->
  (Qabs (v - (inject_Z n * blockSize + blockSize / 2)) < blockSize / 2)%Q ->
  Math_floor (v / blockSize) = n.
Proof.
  intros Hbs [Hlo Hhi]%Qabs_Qlt_condition.
  unfold Math_floor. apply Qfloor_unique.
  - apply Qle_shift_div_l; [done|].
    change (blockSize / 2)%Q with (blockSize * (1 # 2))%Q in *. lra.
  - apply Qlt_shift_div_r; [done|].
    rewrite inject_Z_plus. change (inject_Z 1) with 1%Q.
    assert ((inject_Z n + 1) * blockSize == inject_Z n * blockSize + blockSize)%Q
      as -> by ring.
    change (blockSize / 2)%Q with (blockSize * (1 # 2))%Q in *. lra.
Qed.

(** C6. Cell containment, for the points of a cell.  At the block size the
    constructor sets, and for a cell with coordinates below 2^52 in absolute
    value (where the centre is a double), every point that is less than half
    a block away from the centre gridToWorld g on every axis is mapped back
    to g by worldToGrid.  The point is taken as it is: the sum of the centre
    and an offset is rounded when the code computes it, and may be a point
    of the face of the cell. *)
Theorem cell_containment (g : BlockSystem.GridPos) (p : Vector3) :
  let blockSize := BlockSystem.blockSize BlockSystem.constructor in
  let centre := BlockSystem.gridToWorld blockSize g in
  Z.abs (BlockSystem.x g) < 2 ^ 52 ->
  Z.abs (BlockSystem.y g) < 2 ^ 52 ->
  Z.abs (BlockSystem.z g) < 2 ^ 52 ->
  (Qabs (vx p - vx centre) < blockSize / 2)%Q ->
  (Qabs (vy p - vy centre) < blockSize / 2)%Q ->
  (Qabs (vz p - vz centre) < blockSize / 2)%Q ->
  BlockSystem.worldToGrid blockSize p = g.
Proof.
  cbn zeta. intros _ _ _ Hx Hy Hz. destruct g as [gx gy gz].
  unfold BlockSystem.worldToGrid.
  cbn [BlockSystem.gridToWorld vx vy vz BlockSystem.x BlockSystem.y
       BlockSystem.z] in *.
  f_equal; by apply floor_near_centre.
Qed.

Lemma cell_containment_witness :
  BlockSystem.worldToGrid (BlockSystem.blockSize BlockSystem.constructor)
    (mkVector3 (11 # 4) (- (23 # 8)) (1 # 2))
  = BlockSystem.mkGridPos 2 (-3) 0.
Proof.
  apply (cell_containment (BlockSystem.mkGridPos 2 (-3) 0)
           (mkVector3 (11 # 4) (- (23 # 8)) (1 # 2))); reflexivity.
Defined.

(** Where containment fails for an offset.  The offset 0.49999999999999994,
    the largest double below one half, added to the centre 1.5 of cell 1
    gives the double 2, which worldToGrid maps to cell 2.  And from 2^52 on
    the centre itself is rounded: gridToWorld of the cell 2^52 + 1 is
    2^52 + 2, a point of another cell. *)
Lemma cell_containment_counterexample :
  let e := Float64.mkVector3 0x1.fffffffffffffp-2 0 0 in
  let g := Float64.mkVector3 1 0 0 in
  let far := Float64.mkVector3 0x1.0000000000001p+52 0 0 in
  (PrimFloat.abs (Float64.vx e) <? 1 / 2)%float = true
  /\ Float64.vx (Float64.add (Float64.gridToWorld 1 g) e) = 2%float
  /\ Float64.worldToGrid 1 (Float64.add (Float64.gridToWorld 1 g) e)
     = Some (2, 0, 0)
  /\ Float64.Math_floor (Float64.vx far) = Some (2 ^ 52 + 1)
  /\ Float64.worldToGrid 1 (Float64.gridToWorld 1 far)
     = Some (2 ^ 52 + 2, 0, 0).
Proof. cbn zeta. repeat split; by vm_compute. Qed.

(** ** BlockSystem: the occupancy map and the scene *)

Section BlockSystemFacts.
Import BlockSystem.







Lemma sceneRemove_sublist (l : list Mesh) (m : Mesh) :
  sublist (sceneRemove m l) l.
Proof.
  induction l as [|c l IH]; simpl; [done|].
  destruct (Nat.eqb (mesh_id c) (mesh_id m)).
  - by apply sublist_cons.
  - by apply sublist_skip.
Qed.


Lemma placeBlock_occupied (g : GridPos) (s : State) :
  hasBlock s g = true -> placeBlock g s = (false, s).
Proof. intros H. unfold placeBlock. by rewrite H. Qed.

Lemma hasBlock_false (s : State) (g : GridPos) :
  hasBlock s g = false <-> blocks s !! positionToKey g = None.
Proof.
  unfold hasBlock. rewrite bool_decide_eq_false, <- eq_None_not_Some. done.
Qed.

Lemma hasBlock_true (s : State) (g : GridPos) :
  hasBlock s g = true <-> is_Some (blocks s !! positionToKey g).
Proof. unfold hasBlock. by rewrite bool_decide_eq_true. Qed.






End BlockSystemFacts.

(** ** BlockBuilder: the set of keys and the group of models *)

Section BlockBuilderFacts.
Import BlockBuilder.

Lemma length_removelast_cons (k : nat) (p : list nat) :
  length (removelast (k :: p)) = length p.
Proof.
  revert k. induction p as [|k' p IH]; intros k; [done|].
  change (S (length (removelast (k' :: p))) = S (length p)).
  by rewrite IH.
Qed.

Lemma climb_root (fuel : nat) (i : nat) (p : list nat) :
  length p = fuel -> climb fuel (mkObjRef i p) = mkObjRef i [].
Proof.
  revert p. induction fuel as [|fuel IH]; intros p Hlen.
  - by destruct p.
  - destruct p as [|k p]; [done|].
    change (climb fuel (mkObjRef i (removelast (k :: p))) = mkObjRef i []).
    apply IH. rewrite length_removelast_cons. simpl in Hlen. lia.
Qed.

(** The loop of [removeBlock] and [updatePreview] stops at the child of the
    group the hit node belongs to, whose parent is the group. *)
Lemma topObjectOf_root (r : ObjRef) :
  topObjectOf r = mkObjRef (top r) [] /\ parent (topObjectOf r) = ParentGroup.
Proof.
  unfold topObjectOf. destruct r as [i p]. simpl.
  by rewrite climb_root.
Qed.

Lemma elem_of_delete_NoDup {A} (l : list A) (i : nat) (a b : A) :
  NoDup l -> l !! i = Some a -> (b ∈ delete i l <-> b ∈ l /\ b <> a).
Proof.
  intros Hnd Hi.
  rewrite <- (take_drop_middle l i a Hi) in Hnd.
  rewrite delete_take_drop.
  rewrite <- (take_drop_middle l i a Hi) at 3.
  apply NoDup_app in Hnd as (_ & Hdisj & [Hnotin _]%NoDup_cons).
  rewrite !elem_of_app, elem_of_cons. split.
  - intros [Hb | Hb].
    + split; [by left|]. intros ->. apply (Hdisj a Hb). by left.
    + split; [by right; right|]. by intros ->.
  - intros [[Hb | [-> | Hb]] Hne]; [by left | done | by right].
Qed.

Lemma constructor_builderConsistent : builderConsistent constructor.
Proof.
  constructor; unfold BlockBuilder.constructor;
    cbn [blocksGroup occupiedPositions].
  - intros o Ho. by apply elem_of_nil in Ho.
  - constructor.
  - intros k. split; [set_solver | intros H; by apply elem_of_nil in H].
  - apply size_empty.
Qed.

Lemma addBlock_rejected_no_model (pos : Vector3) (s : State) :
  loadedModel s = None -> selectedInherited s = false ->
  addBlock pos s
  = (Returned false, warn "No model selected or model not loaded yet" s).
Proof. intros H Hplain. unfold addBlock. by rewrite H, Hplain. Qed.

(** With an inherited property for a model, [addBlock] returns false on an
    occupied cell and throws on a free one; the state stays. *)
Lemma addBlock_inherited (pos : Vector3) (s : State) :
  loadedModel s = None -> selectedInherited s = true ->
  addBlock pos s
  = (if bool_decide (getKey pos ∈ occupiedPositions s)
     then Returned false else ThrewTypeError, s).
Proof.
  intros H Hinherited. unfold addBlock. rewrite H, Hinherited.
  by case_bool_decide.
Qed.

Lemma addBlock_rejected_occupied (pos : Vector3) (s : State) :
  is_Some (loadedModel s) -> getKey pos ∈ occupiedPositions s ->
  addBlock pos s = (Returned false, s).
Proof.
  intros [gltf H] Hocc. unfold addBlock. rewrite H.
  by rewrite bool_decide_eq_true_2.
Qed.

Lemma addBlock_placed (pos : Vector3) (gltf : Object3D) (s : State) :
  loadedModel s = Some gltf -> getKey pos ∉ occupiedPositions s ->
  addBlock pos s =
  (Returned true,
   setScene
     (blocksGroup s ++ [mkObject3D (roundToGrid pos) (Some (getKey pos)) (children gltf)])
     ({[getKey pos]} ∪ occupiedPositions s) s).
Proof.
  intros H Hfree. unfold addBlock. rewrite H.
  by rewrite bool_decide_eq_false_2.
Qed.

Lemma builderConsistent_scene (s s' : State) :
  blocksGroup s' = blocksGroup s -> occupiedPositions s' = occupiedPositions s ->
  builderConsistent s -> builderConsistent s'.
Proof.
  intros Hg Ho [H1 H2 H3 H4]. constructor; rewrite ?Hg, ?Ho; done.
Qed.

Lemma addBlock_consistent (pos : Vector3) (s : State) :
  builderConsistent s -> builderConsistent (snd (addBlock pos s)).
Proof.
  intros Hs. unfold addBlock.
  destruct (loadedModel s) as [gltf|];
    [|destruct (selectedInherited s); [by case_bool_decide|];
      by apply (builderConsistent_scene s)].
  case_bool_decide as Hocc; [done|]. cbn [snd].
  constructor; cbn [setScene blocksGroup occupiedPositions].
  - intros o [Ho | ->%list_elem_of_singleton]%elem_of_app; [by apply Hs|].
    cbn [positionKey position]. by rewrite getKey_roundToGrid, roundToGrid_idem.
  - rewrite fmap_app. apply NoDup_app. split; [apply Hs|]. split.
    + intros k Hk ->%list_elem_of_singleton. simpl in Hk.
      by apply (occupied_keys s Hs) in Hk.
    + apply NoDup_singleton.
  - intros k. rewrite fmap_app, elem_of_app, elem_of_union, elem_of_singleton.
    rewrite (occupied_keys s Hs k). simpl. rewrite list_elem_of_singleton.
    split; intros [H | H]; [right; congruence | by left | by right | left; congruence].
  - rewrite size_union by set_solver.
    rewrite size_singleton, length_app, (occupied_size s Hs). simpl. lia.
Qed.

Lemma removeBlock_spec (r : ObjRef) (o : Object3D) (s : State) :
  builderConsistent s -> blocksGroup s !! top r = Some o ->
  removeBlock r s =
  setScene (delete (top r) (blocksGroup s))
           (occupiedPositions s ∖ {[getKey (position o)]}) s.
Proof.
  intros Hs Ho. unfold removeBlock.
  destruct (topObjectOf_root r) as [-> _]. cbn [top]. rewrite Ho.
  destruct (keys_of_positions s Hs o) as [-> _];
    [by eapply list_elem_of_lookup_2|].
  destruct (String.eqb_spec (getKey (position o)) "") as [He | _]; [|done].
  by apply getKey_nonempty in He.
Qed.

Lemma removeBlock_outside (r : ObjRef) (s : State) :
  blocksGroup s !! top r = None -> removeBlock r s = s.
Proof.
  intros Ho. unfold removeBlock.
  destruct (topObjectOf_root r) as [-> _]. cbn [top]. by rewrite Ho.
Qed.

Lemma builder_removeBlock_consistent (r : ObjRef) (s : State) :
  builderConsistent s -> builderConsistent (removeBlock r s).
Proof.
  intros Hs. destruct (blocksGroup s !! top r) as [o|] eqn:Ho;
    [|by rewrite removeBlock_outside].
  rewrite (removeBlock_spec r o s Hs Ho).
  pose proof (list_elem_of_lookup_2 _ _ _ Ho) as Hin.
  destruct (keys_of_positions s Hs o Hin) as [Hkey _].
  assert ((positionKey <$> blocksGroup s) !! top r = Some (Some (getKey (position o))))
    as Hki by (by rewrite list_lookup_fmap, Ho; simpl; rewrite Hkey).
  constructor; cbn [setScene blocksGroup occupiedPositions].
  - intros o' Ho'%list_elem_of_delete_inv. by apply Hs.
  - apply (sublist_NoDup _ (positionKey <$> blocksGroup s)); [apply Hs|].
    apply fmap_sublist, sublist_delete.
  - intros k. rewrite elem_of_difference, elem_of_singleton.
    rewrite (occupied_keys s Hs k), list_fmap_delete.
    rewrite (elem_of_delete_NoDup _ _ _ _ (keys_distinct s Hs) Hki).
    split; intros [H1 H2]; (split; [done | congruence]).
  - rewrite size_difference.
    + rewrite size_singleton, length_delete by (by rewrite Ho).
      by rewrite (occupied_size s Hs).
    + apply singleton_subseteq_l, (occupied_keys s Hs).
      rewrite <- Hkey. by apply list_elem_of_fmap_2.
Qed.

Lemma updatePreview_scene (hit : option Intersection) (s : State) :
  blocksGroup (updatePreview hit s) = blocksGroup s
  /\ occupiedPositions (updatePreview hit s) = occupiedPositions s
  /\ console (updatePreview hit s) = console s
  /\ isDragging (updatePreview hit s) = isDragging s
  /\ clickedOnUI (updatePreview hit s) = clickedOnUI s
  /\ dragStartX (updatePreview hit s) = dragStartX s
  /\ dragStartY (updatePreview hit s) = dragStartY s
  /\ dragThreshold (updatePreview hit s) = dragThreshold s.
Proof.
  unfold updatePreview. destruct hit as [h|]; [|done].
  by destruct (targetPosition h s).
Qed.

Lemma onMouseMove_scene (event : MouseEvent) (hit : option Intersection)
    (s : State) :
  blocksGroup (onMouseMove event hit s) = blocksGroup s
  /\ occupiedPositions (onMouseMove event hit s) = occupiedPositions s
  /\ console (onMouseMove event hit s) = console s
  /\ clickedOnUI (onMouseMove event hit s) = clickedOnUI s
  /\ dragStartX (onMouseMove event hit s) = dragStartX s
  /\ dragStartY (onMouseMove event hit s) = dragStartY s
  /\ dragThreshold (onMouseMove event hit s) = dragThreshold s.
Proof.
  unfold onMouseMove.
  destruct (updatePreview_scene hit
    (if negb (isDragging s) && exceedsThreshold event s
     then setDrag true (dragStartX s) (dragStartY s) (clickedOnUI s) s else s))
    as (-> & -> & -> & _ & -> & -> & -> & ->).
  by destruct (negb (isDragging s) && exceedsThreshold event s).
Qed.

(** [isDragging] after a move: it was set before, or this move is beyond the
    threshold. *)
Lemma onMouseMove_isDragging (event : MouseEvent) (hit : option Intersection)
    (s : State) :
  isDragging (onMouseMove event hit s) = isDragging s || exceedsThreshold event s.
Proof.
  unfold onMouseMove.
  destruct (updatePreview_scene hit
    (if negb (isDragging s) && exceedsThreshold event s
     then setDrag true (dragStartX s) (dragStartY s) (clickedOnUI s) s else s))
    as (_ & _ & _ & -> & _).
  by destruct (isDragging s) eqn:Hd, (exceedsThreshold event s); simpl;
    rewrite ?Hd.
Qed.

(** What [onMouseUp] leaves of the scene is what its call of [addBlock], if
    any, left. *)
Lemma onMouseUp_scene (event : MouseEvent) (s : State) :
  let s1 :=
    if placesBlock event s then snd (addBlock (previewPosition s) s) else s in
  blocksGroup (onMouseUp event s) = blocksGroup s1
  /\ occupiedPositions (onMouseUp event s) = occupiedPositions s1
  /\ console (onMouseUp event s) = console s1
  /\ blockModels (onMouseUp event s) = blockModels s1
  /\ selectedModel (onMouseUp event s) = selectedModel s1
  /\ previewPosition (onMouseUp event s) = previewPosition s1
  /\ previewVisible (onMouseUp event s) = previewVisible s1.
Proof.
  cbn zeta. unfold onMouseUp.
  destruct (placesBlock event s); cbn [fst snd]; [|done].
  by destruct (fst (addBlock (previewPosition s) s)).
Qed.

Lemma onMouseUp_not_placing (event : MouseEvent) (s : State) :
  placesBlock event s = false ->
  blocksGroup (onMouseUp event s) = blocksGroup s
  /\ occupiedPositions (onMouseUp event s) = occupiedPositions s
  /\ console (onMouseUp event s) = console s.
Proof.
  intros H. destruct (onMouseUp_scene event s) as (Hg & Ho & Hc & _).
  by rewrite Hg, Ho, Hc, H.
Qed.

Lemma handle_consistent (e : Event) (s : State) :
  builderConsistent s -> builderConsistent (handle e s).
Proof.
  intros Hs. destruct e as [id gltf | id | ev hit | ev hb | ev | key | pos | r];
    cbn [handle].
  - by apply (builderConsistent_scene s).
  - by apply (builderConsistent_scene s).
  - destruct (onMouseMove_scene ev hit s) as (Hg & Ho & _).
    by apply (builderConsistent_scene s).
  - unfold onMouseDown.
    assert (builderConsistent
              (setDrag false (clientX ev) (clientY ev) (targetOnUI ev) s))
      as Hs1 by (by apply (builderConsistent_scene s)).
    destruct (button ev =? 2); [|done].
    destruct hb as [r|]; [|done]. by apply builder_removeBlock_consistent.
  - destruct (onMouseUp_scene ev s) as (Hg & Ho & _).
    apply (builderConsistent_scene
             (if placesBlock ev s then snd (addBlock (previewPosition s) s) else s));
      [done | done |].
    destruct (placesBlock ev s); [by apply addBlock_consistent | done].
  - unfold onKeyDown.
    destruct (String.eqb key "r" || String.eqb key "R"); [|done].
    assert (removeAll (blocksGroup s) = []) as Hall
      by (induction (blocksGroup s); [done | by simpl]).
    constructor; cbn [setScene blocksGroup occupiedPositions]; rewrite Hall.
    + intros o Ho. by apply elem_of_nil in Ho.
    + constructor.
    + intros k. split; [set_solver | intros H; by apply elem_of_nil in H].
    + apply size_empty.
  - by apply addBlock_consistent.
  - by apply builder_removeBlock_consistent.
Qed.

Lemma builder_run_consistent (events : list Event) (s : State) :
  builderConsistent s -> builderConsistent (run events s).
Proof.
  revert s. induction events as [|e events IH]; intros s Hs; [done|].
  simpl. apply IH. by apply handle_consistent.
Qed.


End BlockBuilderFacts.

(** ** Resolving a hit on a block *)

(** In the second main.js a hit on a placed model resolves to the cell next
    to the model along the normal of the hit face, whatever node of the model
    and whatever point of the face was hit. *)
Lemma preview_adjacent_cell (s : BlockBuilder.State) (i : nat)
    (path : list nat) (o : BlockBuilder.Object3D) (a b c : Z) (f : Face)
    (p : Vector3) :
  BlockBuilder.blocksGroup s !! i = Some o ->
  BlockBuilder.position o = gridVector a b c ->
  let hit :=
    BlockBuilder.mkIntersection
      (BlockBuilder.HitNode (BlockBuilder.mkObjRef i path)) p (faceNormal f) in
  let s' := BlockBuilder.updatePreview (Some hit) s in
  BlockBuilder.previewVisible s' = true
  /\ BlockBuilder.previewPosition s' =
     let '(dx, dy, dz) := faceStep f in gridVector (a + dx) (b + dy) (c + dz).
Proof.
  intros Ho Hpos. cbn zeta.
  unfold BlockBuilder.updatePreview, BlockBuilder.targetPosition.
  cbn [BlockBuilder.object BlockBuilder.worldNormal].
  destruct (topObjectOf_root (BlockBuilder.mkObjRef i path)) as [-> _].
  cbn [BlockBuilder.top]. rewrite Ho. cbn [fmap option_fmap option_map].
  split; [done|]. cbn [BlockBuilder.setPreview BlockBuilder.previewPosition].
  rewrite Hpos. unfold roundToGrid, vadd, gridVector, faceNormal.
  destruct (faceStep f) as [[dx dy] dz]. cbn [vx vy vz].
  by rewrite !Math_round_add_inject_Z.
Qed.

(** A right click on a placed model of the second main.js removes the model
    the hit node belongs to and the key of its cell, and nothing else. *)
Lemma hit_block_removed (s : BlockBuilder.State) (event : MouseEvent)
    (i : nat) (path : list nat) (o : BlockBuilder.Object3D) :
  builderConsistent s ->
  button event = 2 ->
  BlockBuilder.blocksGroup s !! i = Some o ->
  let s' :=
    BlockBuilder.onMouseDown event (Some (BlockBuilder.mkObjRef i path)) s in
  BlockBuilder.blocksGroup s' = delete i (BlockBuilder.blocksGroup s)
  /\ BlockBuilder.occupiedPositions s' =
     BlockBuilder.occupiedPositions s ∖ {[getKey (BlockBuilder.position o)]}
  /\ BlockBuilder.positionKey o = Some (getKey (BlockBuilder.position o))
  /\ (forall k, k <> getKey (BlockBuilder.position o) ->
        (k ∈ BlockBuilder.occupiedPositions s' <->
         k ∈ BlockBuilder.occupiedPositions s)).
Proof.
  intros Hs Hb Ho. cbn zeta. unfold BlockBuilder.onMouseDown. rewrite Hb.
  change (2 =? 2) with true. cbv iota.
  rewrite (removeBlock_spec _ o);
    [| by apply (builderConsistent_scene s) | done].
  cbn [BlockBuilder.setScene BlockBuilder.setDrag BlockBuilder.blocksGroup
       BlockBuilder.occupiedPositions].
  split; [done|]. split; [done|]. split.
  - apply (keys_of_positions s Hs o). by eapply list_elem_of_lookup_2.
  - intros k Hk. rewrite elem_of_difference, elem_of_singleton.
    split; [by intros [Hin _] | by intros Hin; split].
Qed.

(** C1. In BlockSystem the cell a hit resolves to depends on the hit point:
    with the one block of cell (0,0,0) in the scene, whose box is centred on
    the origin, the point (1/4, 1/2, 1/4) of its top face resolves to
    (0,1,0), while the point (-1/4, 1/2, 1/4) of the same face, with the same
    normal (0,1,0), resolves to (-1,1,0), and a left click there places the
    new block in cell (-1,1,0). *)
Theorem highlight_cell_depends_on_hit_point :
  let s :=
    snd (BlockSystem.placeBlock (BlockSystem.mkGridPos 0 0 0)
           BlockSystem.constructor) in
  let hit1 := mkVector3 (1 # 4) (1 # 2) (1 # 4) in
  let hit2 := mkVector3 (- (1 # 4)) (1 # 2) (1 # 4) in
  (exists m,
      BlockSystem.scene s = [m]
      /\ onFace (BlockSystem.blockSize s) (BlockSystem.mposition m) PosY hit1 = true
      /\ onFace (BlockSystem.blockSize s) (BlockSystem.mposition m) PosY hit2 = true)
  /\ fst (BlockSystem.updateHighlightPosition (Some hit1) (faceNormal PosY) s)
     = Some (BlockSystem.mkGridPos 0 1 0)
  /\ fst (BlockSystem.updateHighlightPosition (Some hit2) (faceNormal PosY) s)
     = Some (BlockSystem.mkGridPos (-1) 1 0)
  /\ (let s' := snd (BlockSystem.handleClick (Some hit2) (faceNormal PosY) false s) in
      BlockSystem.hasBlock s' (BlockSystem.mkGridPos (-1) 1 0) = true
      /\ BlockSystem.hasBlock s' (BlockSystem.mkGridPos 0 1 0) = false).
Proof.
  cbn zeta. split; [|by vm_compute].
  eexists. split; [reflexivity|]. by vm_compute.
Qed.

(** C2. In BlockSystem a right click on a block need not remove that block:
    with the one block of cell (0,0,0) in the scene, a right click on the
    point (-1/4, 1/2, 1/4) of its top face is rejected and leaves the block
    in place; with a second block in cell (-1,0,0), the same click removes
    the record of (-1,0,0) and keeps the record of (0,0,0). *)
Theorem right_click_misses_hit_block :
  let s :=
    snd (BlockSystem.placeBlock (BlockSystem.mkGridPos 0 0 0)
           BlockSystem.constructor) in
  let hit := mkVector3 (- (1 # 4)) (1 # 2) (1 # 4) in
  (exists m,
      BlockSystem.scene s = [m]
      /\ onFace (BlockSystem.blockSize s) (BlockSystem.mposition m) PosY hit = true)
  /\ BlockSystem.handleClick (Some hit) (faceNormal PosY) true s = (false, s)
  /\ (let s2 := snd (BlockSystem.placeBlock (BlockSystem.mkGridPos (-1) 0 0) s) in
      let s3 := snd (BlockSystem.handleClick (Some hit) (faceNormal PosY) true s2) in
      fst (BlockSystem.handleClick (Some hit) (faceNormal PosY) true s2) = true
      /\ BlockSystem.hasBlock s3 (BlockSystem.mkGridPos 0 0 0) = true
      /\ BlockSystem.hasBlock s3 (BlockSystem.mkGridPos (-1) 0 0) = false).
Proof.
  cbn zeta. split; [|split; [|by vm_compute]].
  - eexists. split; [reflexivity|]. by vm_compute.
  - unfold BlockSystem.handleClick, BlockSystem.removeBlock.
    by replace (BlockSystem.blocks _ !! _) with (@None BlockSystem.Mesh)
      by (by vm_compute).
Qed.

(** ** Placing and removing *)

(** C3. Placing twice in an empty cell: the first call succeeds, the second
    is rejected and changes nothing, and the cell has its one record.  In
    BlockSystem, for every state and every cell without a block; in the
    second main.js, for every state with a loaded model selected and every
    position whose key is not in the set. *)
Theorem double_placement_rejected :
  (forall (s : BlockSystem.State) (g : BlockSystem.GridPos),
      BlockSystem.hasBlock s g = false ->
      exists s1 m,
        BlockSystem.placeBlock g s = (true, s1)
        /\ BlockSystem.placeBlock g s1 = (false, s1)
        /\ BlockSystem.blocks s1 =
           <[BlockSystem.positionToKey g := m]> (BlockSystem.blocks s)
        /\ size (BlockSystem.blocks s1) = S (size (BlockSystem.blocks s))
        /\ BlockSystem.scene s1 = BlockSystem.scene s ++ [m]
        /\ BlockSystem.mposition m =
           BlockSystem.meshPosition (BlockSystem.blockSize s) g)
  /\ (forall (s : BlockBuilder.State) (pos : Vector3),
        is_Some (BlockBuilder.loadedModel s) ->
        getKey pos ∉ BlockBuilder.occupiedPositions s ->
        exists s1 o,
          BlockBuilder.addBlock pos s = (Returned true, s1)
          /\ BlockBuilder.addBlock pos s1 = (Returned false, s1)
          /\ BlockBuilder.occupiedPositions s1 =
             {[getKey pos]} ∪ BlockBuilder.occupiedPositions s
          /\ size (BlockBuilder.occupiedPositions s1) =
             S (size (BlockBuilder.occupiedPositions s))
          /\ BlockBuilder.blocksGroup s1 = BlockBuilder.blocksGroup s ++ [o]
          /\ BlockBuilder.positionKey o = Some (getKey pos)
          /\ BlockBuilder.position o = roundToGrid pos).
Proof.
  split.
  - intros s g Hfree. pose proof Hfree as Hnone. apply hasBlock_false in Hnone.
    unfold BlockSystem.placeBlock at 1. rewrite Hfree.
    eexists. eexists. split; [reflexivity|].
    split; [|split; [reflexivity|split; [|split; reflexivity]]].
    + apply placeBlock_occupied, hasBlock_true.
      cbn [BlockSystem.blocks]. by rewrite lookup_insert_eq.
    + cbn [BlockSystem.blocks]. by apply map_size_insert_None.
  - intros s pos [gltf Hmodel] Hfree.
    rewrite (addBlock_placed pos gltf s Hmodel Hfree).
    eexists. eexists. split; [reflexivity|].
    split; [|split; [reflexivity|split; [|split; [reflexivity|split; reflexivity]]]].
    + apply addBlock_rejected_occupied.
      * exists gltf. exact Hmodel.
      * cbn [BlockBuilder.setScene BlockBuilder.occupiedPositions].
        apply elem_of_union. left. by apply elem_of_singleton.
    + cbn [BlockBuilder.setScene BlockBuilder.occupiedPositions].
      rewrite size_union, size_singleton; [done|].
      intros k ->%elem_of_singleton. done.
Qed.

Lemma double_placement_rejected_witness :
  (exists s1 m,
      BlockSystem.placeBlock (BlockSystem.mkGridPos 0 0 0) BlockSystem.constructor
      = (true, s1)
      /\ BlockSystem.placeBlock (BlockSystem.mkGridPos 0 0 0) s1 = (false, s1)
      /\ BlockSystem.blocks s1 =
         <[BlockSystem.positionToKey (BlockSystem.mkGridPos 0 0 0) := m]>
           (BlockSystem.blocks BlockSystem.constructor)
      /\ size (BlockSystem.blocks s1) =
         S (size (BlockSystem.blocks BlockSystem.constructor))
      /\ BlockSystem.scene s1 = BlockSystem.scene BlockSystem.constructor ++ [m]
      /\ BlockSystem.mposition m =
         BlockSystem.meshPosition (BlockSystem.blockSize BlockSystem.constructor)
           (BlockSystem.mkGridPos 0 0 0))
  /\ (exists s1 o,
        BlockBuilder.addBlock (mkVector3 0 0 0) demoState = (Returned true, s1)
        /\ BlockBuilder.addBlock (mkVector3 0 0 0) s1 = (Returned false, s1)
        /\ BlockBuilder.occupiedPositions s1 =
           {[getKey (mkVector3 0 0 0)]} ∪ BlockBuilder.occupiedPositions demoState
        /\ size (BlockBuilder.occupiedPositions s1) =
           S (size (BlockBuilder.occupiedPositions demoState))
        /\ BlockBuilder.blocksGroup s1 = BlockBuilder.blocksGroup demoState ++ [o]
        /\ BlockBuilder.positionKey o = Some (getKey (mkVector3 0 0 0))
        /\ BlockBuilder.position o = roundToGrid (mkVector3 0 0 0)).
Proof.
  split.
  - apply (proj1 double_placement_rejected). reflexivity.
  - apply (proj2 double_placement_rejected).
    + exists demoModel. reflexivity.
    + apply not_elem_of_empty.
Defined.

(** C4. Removing what was placed, and removing from an empty cell.  In
    BlockSystem, placeBlock g followed by removeBlock g leaves the map as it
    was without the record of g (so empty, if it was empty), and removeBlock
    on a cell without a block returns false and the state it was given.  In
    the second main.js, removing the model just placed restores the group
    and the set, and a right click that hits no model changes neither. *)
Theorem removal_symmetry :
  (forall (s : BlockSystem.State) (g : BlockSystem.GridPos),
      let placed := snd (BlockSystem.placeBlock g s) in
      let removed := snd (BlockSystem.removeBlock g placed) in
      fst (BlockSystem.removeBlock g placed) = true
      /\ BlockSystem.blocks removed =
         delete (BlockSystem.positionToKey g) (BlockSystem.blocks s)
      /\ BlockSystem.blocks removed !! BlockSystem.positionToKey g = None
      /\ (BlockSystem.blocks s = ∅ -> BlockSystem.blocks removed = ∅))
  /\ (forall (s : BlockSystem.State) (g : BlockSystem.GridPos),
        BlockSystem.hasBlock s g = false ->
        BlockSystem.removeBlock g s = (false, s))
  /\ (forall (s : BlockBuilder.State) (pos : Vector3) (path : list nat),
        is_Some (BlockBuilder.loadedModel s) ->
        getKey pos ∉ BlockBuilder.occupiedPositions s ->
        let placed := snd (BlockBuilder.addBlock pos s) in
        let hit := BlockBuilder.mkObjRef (length (BlockBuilder.blocksGroup s)) path in
        let removed := BlockBuilder.removeBlock hit placed in
        BlockBuilder.blocksGroup removed = BlockBuilder.blocksGroup s
        /\ BlockBuilder.occupiedPositions removed = BlockBuilder.occupiedPositions s)
  /\ (forall (s : BlockBuilder.State) (event : MouseEvent),
        button event = 2 ->
        let s' := BlockBuilder.onMouseDown event None s in
        BlockBuilder.blocksGroup s' = BlockBuilder.blocksGroup s
        /\ BlockBuilder.occupiedPositions s' = BlockBuilder.occupiedPositions s).
Proof.
  split; [|split; [|split]].
  - intros s g. cbn zeta.
    assert (exists m,
      BlockSystem.blocks (snd (BlockSystem.placeBlock g s))
        !! BlockSystem.positionToKey g = Some m
      /\ delete (BlockSystem.positionToKey g)
           (BlockSystem.blocks (snd (BlockSystem.placeBlock g s)))
         = delete (BlockSystem.positionToKey g) (BlockSystem.blocks s))
      as (m & Hm & Hdel).
    { unfold BlockSystem.placeBlock.
      destruct (BlockSystem.hasBlock s g) eqn:Hhas.
      - apply hasBlock_true in Hhas as [m Hm]. by exists m.
      - eexists. cbn [snd BlockSystem.blocks].
        split; [apply lookup_insert_eq | apply delete_insert_eq]. }
    unfold BlockSystem.removeBlock. rewrite Hm.
    cbn [fst snd BlockSystem.blocks]. rewrite Hdel.
    split; [done|]. split; [done|]. split; [apply lookup_delete_eq|].
    intros ->. apply delete_empty.
  - intros s g Hfree%hasBlock_false. unfold BlockSystem.removeBlock.
    by rewrite Hfree.
  - intros s pos path [gltf Hmodel] Hfree. cbn zeta.
    rewrite (addBlock_placed pos gltf s Hmodel Hfree). cbn [snd].
    unfold BlockBuilder.removeBlock.
    destruct (topObjectOf_root
      (BlockBuilder.mkObjRef (length (BlockBuilder.blocksGroup s)) path))
      as [-> _].
    cbn [BlockBuilder.top BlockBuilder.setScene BlockBuilder.blocksGroup
         BlockBuilder.occupiedPositions].
    rewrite list_lookup_middle by done. cbn [BlockBuilder.positionKey].
    destruct (String.eqb_spec (getKey pos) "") as [He | _];
      [by apply getKey_nonempty in He|].
    cbn [BlockBuilder.setScene BlockBuilder.blocksGroup
         BlockBuilder.occupiedPositions].
    split.
    + rewrite delete_take_drop, take_app_length.
      rewrite drop_ge by (rewrite length_app; simpl; lia). apply app_nil_r.
    + apply set_eq. intros k.
      rewrite elem_of_difference, elem_of_union, elem_of_singleton.
      split; [by intros [[-> | Hk] Hne] | intros Hk].
      split; [by right | by intros ->].
  - intros s event Hb. cbn zeta. unfold BlockBuilder.onMouseDown.
    rewrite Hb. done.
Qed.

Lemma removal_symmetry_witness :
  (BlockSystem.blocks BlockSystem.constructor = ∅ ->
   BlockSystem.blocks
     (snd (BlockSystem.removeBlock (BlockSystem.mkGridPos 1 2 3)
             (snd (BlockSystem.placeBlock (BlockSystem.mkGridPos 1 2 3)
                     BlockSystem.constructor)))) = ∅)
  /\ BlockSystem.removeBlock (BlockSystem.mkGridPos 1 2 3) BlockSystem.constructor
     = (false, BlockSystem.constructor)
  /\ (let placed := snd (BlockBuilder.addBlock (mkVector3 0 0 0) demoState) in
      let hit := BlockBuilder.mkObjRef (length (BlockBuilder.blocksGroup demoState)) [0%nat] in
      let removed := BlockBuilder.removeBlock hit placed in
      BlockBuilder.blocksGroup removed = BlockBuilder.blocksGroup demoState
      /\ BlockBuilder.occupiedPositions removed
         = BlockBuilder.occupiedPositions demoState)
  /\ (let s' := BlockBuilder.onMouseDown (mkMouseEvent 10 10 2 false) None demoState in
      BlockBuilder.blocksGroup s' = BlockBuilder.blocksGroup demoState
      /\ BlockBuilder.occupiedPositions s' = BlockBuilder.occupiedPositions demoState).
Proof.
  split; [|split; [|split]].
  - apply (proj1 removal_symmetry BlockSystem.constructor
             (BlockSystem.mkGridPos 1 2 3)).
  - apply (proj1 (proj2 removal_symmetry)). reflexivity.
  - apply (proj1 (proj2 (proj2 removal_symmetry))).
    + exists demoModel. reflexivity.
    + apply not_elem_of_empty.
  - apply (proj2 (proj2 (proj2 removal_symmetry))). reflexivity.
Defined.


(** Placing without a variant: when no model is selected, or nothing is
    found under the selected id ([this.blockModels[this.selectedModel]] is
    undefined), addBlock returns false, logs its warning, and leaves the
    set of keys and the group of models as they were. *)
Lemma no_variant_rejection (s : BlockBuilder.State) (pos : Vector3) :
  BlockBuilder.selectedModel s = None
  \/ (exists modelId, BlockBuilder.selectedModel s = Some modelId
                      /\ BlockBuilder.hasProperty modelId s = false) ->
  fst (BlockBuilder.addBlock pos s) = Returned false
  /\ BlockBuilder.occupiedPositions (snd (BlockBuilder.addBlock pos s))
     = BlockBuilder.occupiedPositions s
  /\ BlockBuilder.blocksGroup (snd (BlockBuilder.addBlock pos s))
     = BlockBuilder.blocksGroup s
  /\ BlockBuilder.console (snd (BlockBuilder.addBlock pos s))
     = BlockBuilder.console s ++ ["No model selected or model not loaded yet"].
Proof.
  intros Hnone.
  assert (BlockBuilder.loadedModel s = None
          /\ BlockBuilder.selectedInherited s = false) as [Hmodel Hplain].
  { unfold BlockBuilder.loadedModel, BlockBuilder.selectedInherited.
    destruct Hnone as [-> | (modelId & -> & Hlookup)]; [done|].
    unfold BlockBuilder.hasProperty in Hlookup.
    destruct (BlockBuilder.blockModels s !! modelId); [done|].
    rewrite Hlookup, andb_false_r. by destruct (String.eqb modelId ""). }
  by rewrite (addBlock_rejected_no_model pos s Hmodel Hplain).
Qed.

(** C8. A selected model that is not loaded is not always rejected.  A
    model file with the id constructor is selected by a click on its option
    before any model is loaded, because the look-up in blockModels finds the
    property of that name every object inherits.  The guard of addBlock then
    passes as well: on a free cell the call throws a TypeError where the
    rejection was due, and only an occupied cell is answered with false.  A
    click on the ground ends in that call: it places nothing and logs no
    warning. *)
Theorem inherited_name_is_not_rejected :
  let page :=
    BlockSelector.loadBlockModels
      [BlockSelector.mkModelFile "constructor" "constructor.glb"]
      BlockBuilder.constructor in
  let s := BlockSelector.builder (fst (BlockSelector.clickOption 0 page)) in
  let hit :=
    BlockBuilder.mkIntersection BlockBuilder.HitPlane
      (mkVector3 (1 # 5) 0 (3 # 10)) (faceNormal PosY) in
  let clicked :=
    BlockBuilder.run
      [BlockBuilder.MouseMove (mkMouseEvent 10 10 0 false) (Some hit);
       BlockBuilder.MouseDown (mkMouseEvent 10 10 0 false) None;
       BlockBuilder.MouseUp (mkMouseEvent 10 10 0 false)] s in
  BlockBuilder.selectedModel s = Some "constructor"
  /\ BlockBuilder.blockModels s = ∅
  /\ (forall pos, BlockBuilder.addBlock pos s = (ThrewTypeError, s))
  /\ (forall pos,
        BlockBuilder.addBlock pos
          (BlockBuilder.setScene [] {[getKey pos]} s)
        = (Returned false, BlockBuilder.setScene [] {[getKey pos]} s))
  /\ BlockBuilder.blocksGroup clicked = []
  /\ BlockBuilder.console clicked = [].
Proof.
  cbn zeta. split; [reflexivity|]. split; [reflexivity|].
  split; [|split; [|split; reflexivity]].
  - intros pos. rewrite addBlock_inherited by reflexivity.
    rewrite bool_decide_eq_false_2; [done|]. apply not_elem_of_empty.
  - intros pos. rewrite addBlock_inherited by reflexivity.
    cbn [BlockBuilder.setScene BlockBuilder.occupiedPositions].
    rewrite bool_decide_eq_true_2; [done|]. by apply elem_of_singleton.
Qed.

(** ** The ground plane *)

(** C9. A hit on the ground plane resolves to the floor: the y coordinate of
    the target is 0 whatever the y of the hit point, and x and z are the
    rounded x and z of the hit point.  The preview of both main.js is shown
    on that cell.  In the second main.js a release of the primary button
    that is no drag and did not start on the UI then places the selected
    model exactly there when the cell is free and changes nothing when it is
    occupied; in the first main.js a press of the primary button places a
    cube exactly there when the cell is free and changes nothing when it is
    occupied. *)
Theorem ground_plane_pinning (p n : Vector3) :
  let target := gridVector (Math_round (vx p)) 0 (Math_round (vz p)) in
  (forall s : BlockBuilder.State,
      let hit := BlockBuilder.mkIntersection BlockBuilder.HitPlane p n in
      let s' := BlockBuilder.updatePreview (Some hit) s in
      BlockBuilder.previewVisible s' = true
      /\ BlockBuilder.previewPosition s' = target)
  /\ (forall (s : BlockBuilder.State) (up : MouseEvent)
             (gltf : BlockBuilder.Object3D),
        BlockBuilder.loadedModel s = Some gltf ->
        button up = 0 ->
        BlockBuilder.isDragging s = false ->
        BlockBuilder.clickedOnUI s = false ->
        let hit := BlockBuilder.mkIntersection BlockBuilder.HitPlane p n in
        let s' :=
          BlockBuilder.onMouseUp up (BlockBuilder.updatePreview (Some hit) s) in
        (getKey target ∉ BlockBuilder.occupiedPositions s ->
         BlockBuilder.blocksGroup s'
         = BlockBuilder.blocksGroup s
           ++ [BlockBuilder.mkObject3D target (Some (getKey target))
                 (BlockBuilder.children gltf)]
         /\ BlockBuilder.occupiedPositions s'
            = {[getKey target]} ∪ BlockBuilder.occupiedPositions s)
        /\ (getKey target ∈ BlockBuilder.occupiedPositions s ->
            BlockBuilder.blocksGroup s' = BlockBuilder.blocksGroup s
            /\ BlockBuilder.occupiedPositions s'
               = BlockBuilder.occupiedPositions s))
  /\ (forall s : CubeBuilder.State,
        let hit := CubeBuilder.mkIntersection CubeBuilder.HitPlane p n in
        let s' := CubeBuilder.updatePreview (Some hit) s in
        CubeBuilder.previewVisible s' = true
        /\ CubeBuilder.previewPosition s' = target)
  /\ (forall (s : CubeBuilder.State) (event : MouseEvent)
             (hitBlocks : option nat) (random : nat),
        button event = 0 ->
        let hit := CubeBuilder.mkIntersection CubeBuilder.HitPlane p n in
        let s' := CubeBuilder.onMouseDown event (Some hit) hitBlocks random s in
        (getKey target ∉ CubeBuilder.occupiedPositions s ->
         CubeBuilder.blocksGroup s'
         = CubeBuilder.blocksGroup s
           ++ [CubeBuilder.mkBlock target (CubeBuilder.colors !! random)]
         /\ CubeBuilder.occupiedPositions s'
            = {[getKey target]} ∪ CubeBuilder.occupiedPositions s)
        /\ (getKey target ∈ CubeBuilder.occupiedPositions s -> s' = s)).
Proof.
  cbn zeta.
  assert (roundToGrid (mkVector3 (vx p) 0%Q (vz p))
          = gridVector (Math_round (vx p)) 0 (Math_round (vz p))) as Hround
    by reflexivity.
  assert (getKey (mkVector3 (vx p) 0%Q (vz p))
          = getKey (gridVector (Math_round (vx p)) 0 (Math_round (vz p))))
    as Hkey by (by rewrite <- Hround, getKey_roundToGrid).
  split; [done|]. split; [|split; [done|]].
  - intros s up gltf Hmodel Hb Hdrag Hui.
    set (hovered := BlockBuilder.updatePreview _ s).
    assert (BlockBuilder.placesBlock up hovered = true) as Hplaces.
    { unfold BlockBuilder.placesBlock, hovered, BlockBuilder.updatePreview.
      cbn [BlockBuilder.targetPosition BlockBuilder.object
           BlockBuilder.setPreview BlockBuilder.isDragging
           BlockBuilder.clickedOnUI BlockBuilder.previewVisible].
      by rewrite Hb, Hdrag, Hui. }
    destruct (onMouseUp_scene up hovered) as (Hg & Ho & _).
    rewrite Hplaces in Hg, Ho. rewrite Hg, Ho.
    change (BlockBuilder.previewPosition hovered)
      with (gridVector (Math_round (vx p)) 0 (Math_round (vz p))).
    split.
    + intros Hfree.
      rewrite (addBlock_placed _ gltf hovered) by done.
      cbn [snd BlockBuilder.setScene BlockBuilder.blocksGroup
           BlockBuilder.occupiedPositions].
      by rewrite <- Hround at 1; rewrite roundToGrid_idem, Hround.
    + intros Hocc.
      by rewrite (addBlock_rejected_occupied _ hovered) by done.
  - intros s event hitBlocks random Hb.
    unfold CubeBuilder.onMouseDown. rewrite Hb. change (0 =? 0) with true.
    cbv iota.
    cbn [CubeBuilder.targetPosition CubeBuilder.object CubeBuilder.point].
    rewrite Hkey. split.
    + intros Hfree. rewrite bool_decide_eq_false_2 by done.
      unfold CubeBuilder.addBlock.
      cbn [CubeBuilder.blocksGroup CubeBuilder.occupiedPositions
           CubeBuilder.position].
      by rewrite getKey_roundToGrid, Hround, Hkey.
    + intros Hocc. by rewrite bool_decide_eq_true_2.
Qed.

Lemma ground_plane_pinning_witness :
  let p := mkVector3 (7 # 4) (- (3 # 10)) (- (5 # 2)) in
  let target := gridVector 2 0 (-2) in
  (let hit :=
     BlockBuilder.mkIntersection BlockBuilder.HitPlane p (faceNormal PosY) in
   let s' :=
     BlockBuilder.onMouseUp (mkMouseEvent 10 10 0 false)
       (BlockBuilder.updatePreview (Some hit) demoState) in
   BlockBuilder.blocksGroup s'
   = BlockBuilder.blocksGroup demoState
     ++ [BlockBuilder.mkObject3D target (Some (getKey target))
           (BlockBuilder.children demoModel)]
   /\ BlockBuilder.occupiedPositions s'
      = {[getKey target]} ∪ BlockBuilder.occupiedPositions demoState)
  /\ (let hit :=
        CubeBuilder.mkIntersection CubeBuilder.HitPlane p (faceNormal PosY) in
      let s' :=
        CubeBuilder.onMouseDown (mkMouseEvent 10 10 0 false) (Some hit) None 1
          CubeBuilder.constructor in
      CubeBuilder.blocksGroup s'
      = CubeBuilder.blocksGroup CubeBuilder.constructor
        ++ [CubeBuilder.mkBlock target (CubeBuilder.colors !! 1%nat)]
      /\ CubeBuilder.occupiedPositions s'
         = {[getKey target]}
           ∪ CubeBuilder.occupiedPositions CubeBuilder.constructor).
Proof.
  pose proof (ground_plane_pinning
                (mkVector3 (7 # 4) (- (3 # 10)) (- (5 # 2))) (faceNormal PosY))
    as (_ & Hbuilder & _ & Hcube).
  split.
  - apply (Hbuilder demoState (mkMouseEvent 10 10 0 false) demoModel);
      try reflexivity.
    apply not_elem_of_empty.
  - apply (Hcube CubeBuilder.constructor (mkMouseEvent 10 10 0 false) None
             1%nat); [reflexivity|].
    apply not_elem_of_empty.
Defined.

(** ** Drag detection *)

Section DragFacts.
Import BlockBuilder.

Lemma run_app (events1 events2 : list Event) (s : State) :
  run (events1 ++ events2) s = run events2 (run events1 s).
Proof. unfold run. apply fold_left_app. Qed.

Lemma run_cons (e : Event) (events : list Event) (s : State) :
  run (e :: events) s = run events (handle e s).
Proof. reflexivity. Qed.

Lemma exceedsThreshold_movedBeyond (down move : MouseEvent) (s : State) :
  dragStartX s = clientX down -> dragStartY s = clientY down ->
  (exceedsThreshold move s = true <-> movedBeyond (dragThreshold s) down move).
Proof.
  intros Hx Hy. unfold exceedsThreshold, movedBeyond, Math_abs.
  rewrite Hx, Hy, orb_true_iff, !Z.gtb_gt. done.
Qed.

(** While the pointer moves, the scene, the console, the start of the
    gesture and the UI flag stay, and [isDragging] is set once a move is
    beyond the threshold. *)
Lemma moves_run (down : MouseEvent)
    (moves : list (MouseEvent * option Intersection)) (s : State) :
  dragStartX s = clientX down -> dragStartY s = clientY down ->
  let s' := run ((fun m => MouseMove (fst m) (snd m)) <$> moves) s in
  blocksGroup s' = blocksGroup s
  /\ occupiedPositions s' = occupiedPositions s
  /\ console s' = console s
  /\ clickedOnUI s' = clickedOnUI s
  /\ (isDragging s = true
      \/ Exists (fun m => movedBeyond (dragThreshold s) down (fst m)) moves ->
      isDragging s' = true).
Proof.
  revert s. induction moves as [|[move hit] moves IH]; intros s Hx Hy; cbn zeta.
  - repeat split; try done. intros [Hd | Hex]; [done | by inversion Hex].
  - rewrite fmap_cons, run_cons. cbn [handle fst snd].
    destruct (onMouseMove_scene move hit s) as (Hg & Ho & Hc & Hui & Hsx & Hsy & Hth).
    specialize (IH (onMouseMove move hit s)). cbn zeta in IH.
    destruct IH as (-> & -> & -> & -> & Hdrag); [congruence | congruence |].
    repeat split; try done.
    intros Hcase. apply Hdrag. rewrite Hth, onMouseMove_isDragging.
    destruct Hcase as [Hd | Hex]; [left; by rewrite Hd|].
    apply Exists_cons in Hex as [Hnow | Hlater]; [left | by right].
    apply (exceedsThreshold_movedBeyond down move s Hx Hy) in Hnow.
    rewrite Hnow. apply orb_true_r.
Qed.

End DragFacts.

(** A gesture with a move beyond the threshold, or one that started on the
    UI, ends without a call of [addBlock]. *)
Lemma gesture_not_placing (s : BlockBuilder.State) (down up : MouseEvent)
    (moves : list (MouseEvent * option BlockBuilder.Intersection)) :
  button down = 0 ->
  Exists (fun m => movedBeyond (BlockBuilder.dragThreshold s) down (fst m)) moves
  \/ targetOnUI down = true ->
  let before := BlockBuilder.run (gestureStart down moves) s in
  let after := BlockBuilder.run (gesture down moves up) s in
  BlockBuilder.placesBlock up before = false
  /\ BlockBuilder.blocksGroup after = BlockBuilder.blocksGroup s
  /\ BlockBuilder.occupiedPositions after = BlockBuilder.occupiedPositions s
  /\ BlockBuilder.console after = BlockBuilder.console s.
Proof.
  intros Hb Hdrag_or_ui. cbn zeta. unfold gesture. rewrite run_app.
  unfold gestureStart. rewrite run_cons. cbn [BlockBuilder.handle].
  unfold BlockBuilder.onMouseDown. rewrite Hb. change (0 =? 2) with false.
  cbv iota.
  set (s1 := BlockBuilder.setDrag false (clientX down) (clientY down)
               (targetOnUI down) s).
  destruct (moves_run down moves s1 eq_refl eq_refl)
    as (Hg & Ho & Hc & Hui & Hdrag).
  set (s2 := BlockBuilder.run _ s1) in *.
  assert (BlockBuilder.placesBlock up s2 = false) as Hno.
  { unfold BlockBuilder.placesBlock.
    destruct Hdrag_or_ui as [Hex | Hui'].
    - rewrite Hdrag by (by right). simpl. by rewrite andb_false_r.
    - rewrite Hui. cbn [s1 BlockBuilder.setDrag BlockBuilder.clickedOnUI].
      rewrite Hui'. simpl. by rewrite andb_false_r. }
  split; [done|].
  change (BlockBuilder.run [BlockBuilder.MouseUp up] s2)
    with (BlockBuilder.onMouseUp up s2).
  destruct (onMouseUp_not_placing up s2 Hno) as (-> & -> & ->).
  by rewrite Hg, Ho, Hc.
Qed.




(** The same, read off the point of release: when every change of the
    pointer position is reported by a move, the button goes up where the
    last move was (or where it went down, without a move); then a release
    more than the threshold away from the start ends without a call of
    addBlock. *)
Corollary release_point_gating (s : BlockBuilder.State)
    (down up : MouseEvent)
    (moves : list (MouseEvent * option BlockBuilder.Intersection)) :
  button down = 0 ->
  0 <= BlockBuilder.dragThreshold s ->
  clientX up = clientX (List.last (fst <$> moves) down) ->
  clientY up = clientY (List.last (fst <$> moves) down) ->
  movedBeyond (BlockBuilder.dragThreshold s) down up ->
  let after := BlockBuilder.run (gesture down moves up) s in
  BlockBuilder.blocksGroup after = BlockBuilder.blocksGroup s
  /\ BlockBuilder.occupiedPositions after = BlockBuilder.occupiedPositions s
  /\ BlockBuilder.console after = BlockBuilder.console s.
Proof.
  intros Hb Hth Hx Hy Hmoved. cbn zeta.
  refine (proj2 (gesture_not_placing s down up moves Hb (or_introl _))).
  destruct (decide (moves = [])) as [-> | Hne].
  - exfalso. simpl in Hx, Hy. unfold movedBeyond in Hmoved.
    rewrite Hx, Hy, !Z.sub_diag in Hmoved. simpl in Hmoved. lia.
  - apply Exists_exists.
    destruct (exists_last Hne) as (front & [move hit] & ->).
    exists (move, hit).
    split; [apply elem_of_app; right; by apply list_elem_of_singleton|].
    rewrite fmap_app in Hx, Hy.
    change (fst <$> [(move, hit)]) with [move] in Hx, Hy.
    rewrite last_last in Hx, Hy.
    unfold movedBeyond in *. cbn [fst]. by rewrite <- Hx, <- Hy.
Qed.

(** A click without a drag does place: the button goes down at (10,10), the
    pointer moves by two pixels over the ground plane, and the button goes
    up; the model stands in cell (0,0,0). *)
Example click_places_block :
  let hit :=
    BlockBuilder.mkIntersection BlockBuilder.HitPlane
      (mkVector3 (1 # 5) (1 # 100) (3 # 10)) (faceNormal PosY) in
  let moves := [(mkMouseEvent 12 11 0 false, Some hit)] in
  let after :=
    BlockBuilder.run
      (gesture (mkMouseEvent 10 10 0 false) moves (mkMouseEvent 12 11 0 false))
      demoState in
  BlockBuilder.blocksGroup after =
  [BlockBuilder.mkObject3D (gridVector 0 0 0) (Some "0,0,0")
     (BlockBuilder.children demoModel)]
  /\ "0,0,0" ∈ BlockBuilder.occupiedPositions after.
Proof.
  cbn zeta. split; [by vm_compute|].
  apply (bool_decide_unpack _). by vm_compute.
Qed.

(** Adjacency at the origin in the second main.js: with a model in
    cell (0,0,0), a hit on it with normal (0,1,0) resolves to (0,1,0) and a
    hit with normal (1,0,0) to (1,0,0), wherever the hit point lies. *)
Example preview_next_to_origin (p : Vector3) (path : list nat) :
  let s := snd (BlockBuilder.addBlock (mkVector3 0 0 0) demoState) in
  let hit f :=
    BlockBuilder.mkIntersection
      (BlockBuilder.HitNode (BlockBuilder.mkObjRef 0%nat path)) p (faceNormal f) in
  BlockBuilder.previewPosition (BlockBuilder.updatePreview (Some (hit PosY)) s)
  = gridVector 0 1 0
  /\ BlockBuilder.previewPosition (BlockBuilder.updatePreview (Some (hit PosX)) s)
     = gridVector 1 0 0.
Proof.
  cbn zeta. split.
  - eapply (preview_adjacent_cell _ 0%nat path _ 0 0 0 PosY p); reflexivity.
  - eapply (preview_adjacent_cell _ 0%nat path _ 0 0 0 PosX p); reflexivity.
Qed.

(** A session of the second main.js: a model is placed in cell (0,0,0); a
    second placement there is rejected; a hover over the +x face of the model
    and a click place a model in cell (1,0,0); a right click on the first
    model removes it and leaves the second; R empties the scene. *)
Example session :
  let origin := mkVector3 0 0 0 in
  let hover :=
    BlockBuilder.mkIntersection
      (BlockBuilder.HitNode (BlockBuilder.mkObjRef 0%nat [0%nat]))
      (mkVector3 (1 # 2) (1 # 3) (- (1 # 3))) (faceNormal PosX) in
  let at_ x y b := mkMouseEvent x y b false in
  let s1 := snd (BlockBuilder.addBlock origin demoState) in
  let s2 := snd (BlockBuilder.addBlock origin s1) in
  let s3 :=
    BlockBuilder.run
      [BlockBuilder.MouseMove (at_ 300 200 0) (Some hover);
       BlockBuilder.MouseDown (at_ 300 200 0) None;
       BlockBuilder.MouseUp (at_ 300 200 0)] s2 in
  let s4 :=
    BlockBuilder.onMouseDown (at_ 280 200 2)
      (Some (BlockBuilder.mkObjRef 0%nat [0%nat])) s3 in
  let s5 := BlockBuilder.onKeyDown "r" s4 in
  fst (BlockBuilder.addBlock origin demoState) = Returned true
  /\ fst (BlockBuilder.addBlock origin s1) = Returned false
  /\ elements (BlockBuilder.occupiedPositions s2) = ["0,0,0"]
  /\ BlockBuilder.position <$> BlockBuilder.blocksGroup s3
     = [gridVector 0 0 0; gridVector 1 0 0]
  /\ size (BlockBuilder.occupiedPositions s3) = 2%nat
  /\ BlockBuilder.position <$> BlockBuilder.blocksGroup s4 = [gridVector 1 0 0]
  /\ elements (BlockBuilder.occupiedPositions s4) = ["1,0,0"]
  /\ BlockBuilder.blocksGroup s5 = []
  /\ size (BlockBuilder.occupiedPositions s5) = 0%nat.
Proof. cbn zeta. repeat split; by vm_compute. Qed.

(** * Further properties of the code *)

(** ** The grid of BlockSystem *)

Lemma floor_div_cell (blockSize v : Q) (n : Z) :
  (0 < blockSize)%Q ->
  Math_floor (v / blockSize) = n <->
  (inject_Z n * blockSize <= v)%Q /\ (v < inject_Z (n + 1) * blockSize)%Q.
Proof.
  intros Hbs. unfold Math_floor. split.
  - intros <-. split.
    + pose proof (Qfloor_le (v / blockSize)) as Hle.
      apply (Qmult_le_compat_r _ _ blockSize) in Hle; [|lra].
      assert (v / blockSize * blockSize == v)%Q as Hdiv by (field; lra).
      by rewrite Hdiv in Hle.
    + pose proof (Qlt_floor (v / blockSize)) as Hlt.
      apply (Qmult_lt_compat_r _ _ blockSize) in Hlt; [|done].
      assert (v / blockSize * blockSize == v)%Q as Hdiv by (field; lra).
      by rewrite Hdiv in Hlt.
  - intros [Hlo Hhi]. apply Qfloor_unique.
    + by apply Qle_shift_div_l.
    + by apply Qlt_shift_div_r.
Qed.

(** X1. The cell of a point.  With a positive block size, worldToGrid maps a
    point to the cell g exactly when, on each axis, the point lies between
    g * blockSize (included) and (g + 1) * blockSize (excluded): the cells
    are half-open boxes that tile space. *)
Theorem worldToGrid_cell (blockSize : Q) (p : Vector3)
    (g : BlockSystem.GridPos) :
  (0 < blockSize)%Q ->
  BlockSystem.worldToGrid blockSize p = g <->
  ((inject_Z (BlockSystem.x g) * blockSize <= vx p)%Q
   /\ (vx p < inject_Z (BlockSystem.x g + 1) * blockSize)%Q)
  /\ ((inject_Z (BlockSystem.y g) * blockSize <= vy p)%Q
      /\ (vy p < inject_Z (BlockSystem.y g + 1) * blockSize)%Q)
  /\ ((inject_Z (BlockSystem.z g) * blockSize <= vz p)%Q
      /\ (vz p < inject_Z (BlockSystem.z g + 1) * blockSize)%Q).
Proof.
  intros Hbs. destruct g as [gx gy gz]. unfold BlockSystem.worldToGrid.
  cbn [BlockSystem.x BlockSystem.y BlockSystem.z].
  split.
  - intros Heq. injection Heq as Hx Hy Hz.
    split; [|split]; by apply (floor_div_cell blockSize _ _ Hbs).
  - intros (Hx & Hy & Hz).
    f_equal; by apply (floor_div_cell blockSize _ _ Hbs).
Qed.

Lemma worldToGrid_cell_witness :
  BlockSystem.worldToGrid 1 (mkVector3 (- (1 # 4)) (5 # 2) 3)
  = BlockSystem.mkGridPos (-1) 2 3 <->
  ((inject_Z (-1) * 1 <= - (1 # 4))%Q /\ (- (1 # 4) < inject_Z (-1 + 1) * 1)%Q)
  /\ ((inject_Z 2 * 1 <= 5 # 2)%Q /\ (5 # 2 < inject_Z (2 + 1) * 1)%Q)
  /\ ((inject_Z 3 * 1 <= 3)%Q /\ (3 < inject_Z (3 + 1) * 1)%Q).
Proof.
  apply (worldToGrid_cell 1 (mkVector3 (- (1 # 4)) (5 # 2) 3)
           (BlockSystem.mkGridPos (-1) 2 3)).
  reflexivity.
Defined.

(** X2. Snapping a point to its cell centre moves it by at most half a
    block on every axis: at the block size the constructor sets, and for a
    point with coordinates from -2^52 (included) to 2^52 (excluded), where
    the centre of the cell is a double, gridToWorld (worldToGrid p) is
    within blockSize / 2 of p. *)
Theorem snap_to_centre_distance (p : Vector3) :
  let blockSize := BlockSystem.blockSize BlockSystem.constructor in
  let inRange (v : Q) := (- inject_Z (2 ^ 52) <= v < inject_Z (2 ^ 52))%Q in
  inRange (vx p) -> inRange (vy p) -> inRange (vz p) ->
  let c := BlockSystem.gridToWorld blockSize
             (BlockSystem.worldToGrid blockSize p) in
  (Qabs (vx c - vx p) <= blockSize / 2)%Q
  /\ (Qabs (vy c - vy p) <= blockSize / 2)%Q
  /\ (Qabs (vz c - vz p) <= blockSize / 2)%Q.
Proof.
  cbn zeta. intros _ _ _.
  set (blockSize := BlockSystem.blockSize BlockSystem.constructor).
  assert (0 < blockSize)%Q as Hbs by reflexivity.
  assert (forall v : Q,
    (Qabs (inject_Z (Math_floor (v / blockSize)) * blockSize + blockSize / 2 - v)
     <= blockSize / 2)%Q) as Haxis.
  { intros v.
    destruct (proj1 (floor_div_cell blockSize v _ Hbs) eq_refl) as [Hlo Hhi].
    rewrite inject_Z_plus in Hhi. change (inject_Z 1) with 1%Q in Hhi.
    assert ((inject_Z (Math_floor (v / blockSize)) + 1) * blockSize
            == inject_Z (Math_floor (v / blockSize)) * blockSize + blockSize)%Q
      as Hmul by ring.
    rewrite Hmul in Hhi.
    apply Qabs_Qle_condition.
    change (blockSize / 2)%Q with (blockSize * (1 # 2))%Q. split; lra. }
  unfold BlockSystem.gridToWorld, BlockSystem.worldToGrid.
  cbn [vx vy vz BlockSystem.x BlockSystem.y BlockSystem.z].
  repeat split; apply Haxis.
Qed.

Lemma snap_to_centre_distance_witness :
  let c := BlockSystem.gridToWorld 1
             (BlockSystem.worldToGrid 1 (mkVector3 (- (1 # 4)) (5 # 2) 3)) in
  (Qabs (vx c - - (1 # 4)) <= 1 / 2)%Q
  /\ (Qabs (vy c - (5 # 2)) <= 1 / 2)%Q
  /\ (Qabs (vz c - 3) <= 1 / 2)%Q.
Proof.
  apply (snap_to_centre_distance (mkVector3 (- (1 # 4)) (5 # 2) 3));
    (split; [unfold Qle | unfold Qlt]; vm_compute; [discriminate | reflexivity]).
Defined.

(** ** The occupancy map of BlockSystem *)

(** X3. placeBlock and removeBlock act on their own cell only and report
    whether they acted: after placeBlock g the occupied cells are the former
    ones and g, after removeBlock g the former ones without g; placeBlock
    returns true exactly when g was free and removeBlock exactly when g was
    occupied. *)
Theorem place_remove_cells (s : BlockSystem.State)
    (g g' : BlockSystem.GridPos) :
  (BlockSystem.hasBlock (snd (BlockSystem.placeBlock g s)) g' = true
   <-> BlockSystem.hasBlock s g' = true \/ g' = g)
  /\ (BlockSystem.hasBlock (snd (BlockSystem.removeBlock g s)) g' = true
      <-> BlockSystem.hasBlock s g' = true /\ g' <> g)
  /\ fst (BlockSystem.placeBlock g s) = negb (BlockSystem.hasBlock s g)
  /\ fst (BlockSystem.removeBlock g s) = BlockSystem.hasBlock s g.
Proof.
  split; [|split; [|split]].
  - unfold BlockSystem.placeBlock.
    destruct (BlockSystem.hasBlock s g) eqn:Hg; cbn [snd].
    + split; [by left | intros [H | ->]; done].
    + rewrite !hasBlock_true. cbn [BlockSystem.blocks].
      destruct (decide (BlockSystem.positionToKey g = BlockSystem.positionToKey g'))
        as [Heq | Hne].
      * rewrite <- Heq, lookup_insert_eq.
        apply positionToKey_inj in Heq as ->.
        split; [by right | by eexists].
      * rewrite lookup_insert_ne by done.
        split; [by left | intros [H | ->]; done].
  - unfold BlockSystem.removeBlock.
    destruct (BlockSystem.blocks s !! BlockSystem.positionToKey g) as [m|] eqn:Hg;
      cbn [snd].
    + rewrite !hasBlock_true. cbn [BlockSystem.blocks].
      destruct (decide (BlockSystem.positionToKey g = BlockSystem.positionToKey g'))
        as [Heq | Hne].
      * rewrite <- Heq, lookup_delete_eq.
        apply positionToKey_inj in Heq as ->.
        split; [by intros [x Hx] | by intros [_ Hne]].
      * rewrite lookup_delete_ne by done.
        split; [intros H; split; [done | by intros ->] | by intros [H _]].
    + split; [|by intros [H _]].
      intros H. split; [done|]. intros ->.
      apply hasBlock_true in H as [m Hm]. congruence.
  - unfold BlockSystem.placeBlock. by destruct (BlockSystem.hasBlock s g).
  - unfold BlockSystem.removeBlock, BlockSystem.hasBlock.
    destruct (BlockSystem.blocks s !! BlockSystem.positionToKey g) eqn:Hg;
      cbn [fst].
    + symmetry. apply bool_decide_eq_true. by eexists.
    + symmetry. apply bool_decide_eq_false. by intros [x Hx].
Qed.

(** X4. The highlight is a faithful preview.  updateHighlightPosition never
    touches the map or the scene.  When it returns a cell, that cell is free,
    the highlight is shown, and a left click with the same intersection
    places a block exactly there; when it returns null for an intersection,
    the highlight is hidden and the same left click is rejected without a
    change.  Without an intersection both do nothing. *)
Theorem highlight_previews_click (s : BlockSystem.State)
    (intersection : option Vector3) (normal : Vector3) :
  let shown := BlockSystem.updateHighlightPosition intersection normal s in
  let click := BlockSystem.handleClick intersection normal false s in
  BlockSystem.blocks (snd shown) = BlockSystem.blocks s
  /\ BlockSystem.scene (snd shown) = BlockSystem.scene s
  /\ match fst shown with
     | Some g =>
         BlockSystem.highlightVisible (snd shown) = true
         /\ BlockSystem.highlightPosition (snd shown)
            = BlockSystem.meshPosition (BlockSystem.blockSize s) g
         /\ BlockSystem.hasBlock s g = false
         /\ fst click = true
         /\ BlockSystem.hasBlock (snd click) g = true
         /\ exists m, BlockSystem.scene (snd click) = BlockSystem.scene s ++ [m]
                      /\ BlockSystem.mposition m
                         = BlockSystem.highlightPosition (snd shown)
     | None =>
         BlockSystem.highlightVisible (snd shown) = false
         /\ click = (false, s)
     end.
Proof.
  cbn zeta. unfold BlockSystem.updateHighlightPosition, BlockSystem.handleClick.
  destruct intersection as [point|]; [|done].
  set (g := BlockSystem.worldToGrid _ _).
  destruct (BlockSystem.hasBlock s g) eqn:Hg; cbn [fst snd].
  - split; [done|]. split; [done|]. split; [done|].
    by apply placeBlock_occupied.
  - split; [done|]. split; [done|]. split; [done|]. split; [done|].
    split; [done|]. unfold BlockSystem.placeBlock. rewrite Hg. cbn [fst snd].
    split; [done|]. split.
    + apply hasBlock_true. cbn [BlockSystem.blocks].
      rewrite lookup_insert_eq. by eexists.
    + eexists. split; reflexivity.
Qed.

(** ** Block types and materials *)

Lemma catalog_entry (type : string) (props : BlockSystem.BlockType) :
  BlockSystem.assocGet type BlockSystem.BLOCK_TYPES = Some props ->
  (type, props) ∈ BlockSystem.BLOCK_TYPES.
Proof.
  unfold BlockSystem.assocGet, BlockSystem.BLOCK_TYPES. cbn [List.find fst].
  repeat match goal with
         | |- context [String.eqb ?key type] =>
             destruct (String.eqb_spec key type) as [<- | _];
             [cbn; intros [= <-]; apply list_elem_of_In; cbn; tauto|]
         end.
  cbn. discriminate.
Qed.

(** The key [placeBlock] finds by the name of an entry is the key of that
    entry, and its material has the colour of the entry. *)
Lemma material_of_entry (type : string) (props : BlockSystem.BlockType) :
  (type, props) ∈ BlockSystem.BLOCK_TYPES ->
  List.find
    (fun key =>
       match BlockSystem.assocGet key BlockSystem.BLOCK_TYPES with
       | Some p => String.eqb (BlockSystem.name p) (BlockSystem.name props)
       | None => false
       end) (fst <$> BlockSystem.BLOCK_TYPES) = Some type
  /\ BlockSystem.assocGet type BlockSystem.BLOCK_TYPES = Some props
  /\ exists mat,
       BlockSystem.assocGet type BlockSystem.createBlockMaterials = Some mat
       /\ BlockSystem.mcolor mat = BlockSystem.color props
       /\ BlockSystem.mtransparent mat
          = default false (BlockSystem.transparent props).
Proof.
  intros Hin. apply list_elem_of_In in Hin. cbn in Hin.
  repeat (destruct Hin as [[= <- <-] | Hin];
          [split; [reflexivity|]; split; [reflexivity|];
           eexists; split; [reflexivity|]; split; reflexivity|]).
  done.
Qed.

Lemma call_catalog (c : BlockSystem.Call) (s : BlockSystem.State) :
  BlockSystem.blockMaterials s = BlockSystem.createBlockMaterials ->
  (exists type, (type, BlockSystem.selectedBlockType s) ∈ BlockSystem.BLOCK_TYPES) ->
  (forall m, m ∈ BlockSystem.scene s ->
     exists type props mat,
       (type, props) ∈ BlockSystem.BLOCK_TYPES
       /\ BlockSystem.mmaterial m = Some mat
       /\ BlockSystem.mcolor mat = BlockSystem.color props) ->
  let s' := BlockSystem.call c s in
  BlockSystem.blockMaterials s' = BlockSystem.createBlockMaterials
  /\ (exists type, (type, BlockSystem.selectedBlockType s') ∈ BlockSystem.BLOCK_TYPES)
  /\ (forall m, m ∈ BlockSystem.scene s' ->
        exists type props mat,
          (type, props) ∈ BlockSystem.BLOCK_TYPES
          /\ BlockSystem.mmaterial m = Some mat
          /\ BlockSystem.mcolor mat = BlockSystem.color props).
Proof.
  intros Hmat [sel Hsel] Hscene. cbn zeta.
  assert (forall g,
    let s' := snd (BlockSystem.placeBlock g s) in
    BlockSystem.blockMaterials s' = BlockSystem.createBlockMaterials
    /\ (exists type, (type, BlockSystem.selectedBlockType s') ∈ BlockSystem.BLOCK_TYPES)
    /\ (forall m, m ∈ BlockSystem.scene s' ->
          exists type props mat,
            (type, props) ∈ BlockSystem.BLOCK_TYPES
            /\ BlockSystem.mmaterial m = Some mat
            /\ BlockSystem.mcolor mat = BlockSystem.color props)) as Hplace.
  { intros g. cbn zeta. unfold BlockSystem.placeBlock.
    destruct (BlockSystem.hasBlock s g); cbn [snd]; [by eauto|].
    split; [done|]. split; [by eauto|].
    cbn [BlockSystem.scene]. unfold BlockSystem.sceneAdd.
    intros m [Hm | ->%list_elem_of_singleton]%elem_of_app; [by apply Hscene|].
    destruct (material_of_entry sel _ Hsel) as (Hfind & _ & mat & Hget & Hcol & _).
    exists sel, (BlockSystem.selectedBlockType s), mat.
    split; [done|]. split; [|done].
    cbn [BlockSystem.mmaterial]. rewrite Hfind, Hmat. exact Hget. }
  assert (forall g,
    let s' := snd (BlockSystem.removeBlock g s) in
    BlockSystem.blockMaterials s' = BlockSystem.createBlockMaterials
    /\ (exists type, (type, BlockSystem.selectedBlockType s') ∈ BlockSystem.BLOCK_TYPES)
    /\ (forall m, m ∈ BlockSystem.scene s' ->
          exists type props mat,
            (type, props) ∈ BlockSystem.BLOCK_TYPES
            /\ BlockSystem.mmaterial m = Some mat
            /\ BlockSystem.mcolor mat = BlockSystem.color props)) as Hremove.
  { intros g. cbn zeta. unfold BlockSystem.removeBlock.
    destruct (BlockSystem.blocks s !! _) as [mesh|]; cbn [snd]; [|by eauto].
    split; [done|]. split; [by eauto|].
    cbn [BlockSystem.scene]. intros m Hm. apply Hscene.
    exact (sublist_subseteq _ _ (sceneRemove_sublist _ _) m Hm). }
  destruct c as [g | g | type | i n | i n r]; cbn [BlockSystem.call].
  - apply Hplace.
  - apply Hremove.
  - unfold BlockSystem.setSelectedBlockType.
    destruct (BlockSystem.assocGet type BlockSystem.BLOCK_TYPES) as [props|] eqn:Hget;
      cbn [snd]; [|by eauto].
    split; [done|]. split; [|done]. exists type. by apply catalog_entry.
  - unfold BlockSystem.updateHighlightPosition.
    destruct i as [p|]; [destruct (BlockSystem.hasBlock _ _)|]; cbn [snd]; by eauto.
  - unfold BlockSystem.handleClick. destruct i as [p|]; [|by eauto].
    destruct r; [apply Hremove | apply Hplace].
Qed.

Lemma run_catalog (calls : list BlockSystem.Call) (s : BlockSystem.State) :
  BlockSystem.blockMaterials s = BlockSystem.createBlockMaterials ->
  (exists type, (type, BlockSystem.selectedBlockType s) ∈ BlockSystem.BLOCK_TYPES) ->
  (forall m, m ∈ BlockSystem.scene s ->
     exists type props mat,
       (type, props) ∈ BlockSystem.BLOCK_TYPES
       /\ BlockSystem.mmaterial m = Some mat
       /\ BlockSystem.mcolor mat = BlockSystem.color props) ->
  let s' := BlockSystem.run calls s in
  BlockSystem.blockMaterials s' = BlockSystem.createBlockMaterials
  /\ (exists type, (type, BlockSystem.selectedBlockType s') ∈ BlockSystem.BLOCK_TYPES)
  /\ (forall m, m ∈ BlockSystem.scene s' ->
        exists type props mat,
          (type, props) ∈ BlockSystem.BLOCK_TYPES
          /\ BlockSystem.mmaterial m = Some mat
          /\ BlockSystem.mcolor mat = BlockSystem.color props).
Proof.
  revert s. induction calls as [|c calls IH]; intros s Hmat Hsel Hscene;
    [done|].
  destruct (call_catalog c s Hmat Hsel Hscene) as (Hmat' & Hsel' & Hscene').
  exact (IH _ Hmat' Hsel' Hscene').
Qed.

(** X5. Selection and materials.  Take calls that select no name an object
    inherits (constructor, toString and the like).  After them,
    setSelectedBlockType succeeds for every key of BLOCK_TYPES and makes its
    entry the selected type; for any other text that is no inherited name it
    returns false and leaves the BlockSystem unchanged.  Selecting a key and
    placing a block in a free cell records a mesh with the material made for
    that type, of the colour of its entry; and every mesh of the scene has a
    material of the colour of some entry (the look-up of the material by the
    name of the selected type never comes back undefined). *)
Theorem selected_type_material (calls : list BlockSystem.Call) :
  Forall plainCall calls ->
  let s := BlockSystem.run calls BlockSystem.constructor in
  (forall type,
      match BlockSystem.assocGet type BlockSystem.BLOCK_TYPES with
      | Some props =>
          fst (BlockSystem.setSelectedBlockType type s) = true
          /\ BlockSystem.selectedBlockType
               (snd (BlockSystem.setSelectedBlockType type s)) = props
          /\ forall g,
               BlockSystem.hasBlock s g = false ->
               exists m mat,
                 BlockSystem.blocks
                   (snd (BlockSystem.placeBlock g
                           (snd (BlockSystem.setSelectedBlockType type s))))
                   !! BlockSystem.positionToKey g = Some m
                 /\ BlockSystem.mmaterial m = Some mat
                 /\ BlockSystem.assocGet type (BlockSystem.blockMaterials s)
                    = Some mat
                 /\ BlockSystem.mcolor mat = BlockSystem.color props
      | None =>
          plainKey type -> BlockSystem.setSelectedBlockType type s = (false, s)
      end)
  /\ (forall m, m ∈ BlockSystem.scene s ->
        exists type props mat,
          (type, props) ∈ BlockSystem.BLOCK_TYPES
          /\ BlockSystem.mmaterial m = Some mat
          /\ BlockSystem.mcolor mat = BlockSystem.color props).
Proof.
  intros _. cbn zeta.
  destruct (run_catalog calls BlockSystem.constructor) as (Hmat & Hsel & Hscene).
  { reflexivity. }
  { exists "GRASS". apply list_elem_of_In. cbn. tauto. }
  { intros m Hm. by apply elem_of_nil in Hm. }
  split; [|exact Hscene].
  intros type. unfold BlockSystem.setSelectedBlockType.
  destruct (BlockSystem.assocGet type BlockSystem.BLOCK_TYPES) as [props|] eqn:Hget;
    [|done].
  cbn [fst snd BlockSystem.selectedBlockType].
  split; [done|]. split; [done|]. intros g Hfree.
  destruct (material_of_entry type props (catalog_entry _ _ Hget))
    as (Hfind & _ & mat & Hgetm & Hcol & _).
  unfold BlockSystem.placeBlock.
  replace (BlockSystem.hasBlock _ g) with false by (symmetry; exact Hfree).
  cbn [snd BlockSystem.blocks BlockSystem.selectedBlockType
       BlockSystem.blockMaterials BlockSystem.nextId BlockSystem.blockSize].
  rewrite lookup_insert_eq. eexists. exists mat. split; [reflexivity|].
  cbn [BlockSystem.mmaterial]. rewrite Hfind, Hmat. cbn [mbind option_bind].
  by rewrite Hgetm.
Qed.

Lemma selected_type_material_witness :
  let s :=
    BlockSystem.run
      [BlockSystem.CallSelect "STONE";
       BlockSystem.CallPlace (BlockSystem.mkGridPos 0 0 0)]
      BlockSystem.constructor in
  let g := BlockSystem.mkGridPos 1 0 0 in
  exists m mat,
    BlockSystem.blocks
      (snd (BlockSystem.placeBlock g
              (snd (BlockSystem.setSelectedBlockType "WATER" s))))
      !! BlockSystem.positionToKey g = Some m
    /\ BlockSystem.mmaterial m = Some mat
    /\ BlockSystem.assocGet "WATER" (BlockSystem.blockMaterials s) = Some mat
    /\ BlockSystem.mcolor mat = BlockSystem.color BlockSystem.WATER.
Proof.
  refine (proj2 (proj2 (proj1
            (selected_type_material
               [BlockSystem.CallSelect "STONE";
                BlockSystem.CallPlace (BlockSystem.mkGridPos 0 0 0)] _)
            "WATER"))
            (BlockSystem.mkGridPos 1 0 0) eq_refl).
  apply Forall_cons; split; [reflexivity|].
  apply Forall_cons; split; [exact I | by apply Forall_nil].
Defined.

(** ** The keys of the two main.js *)

Lemma Math_round_window (v : Q) (n : Z) :
  Math_round v = n <->
  (inject_Z n - (1 # 2) <= v)%Q /\ (v < inject_Z n + (1 # 2))%Q.
Proof.
  unfold Math_round. split.
  - intros <-.
    pose proof (Qfloor_le (v + (1 # 2))) as Hle.
    pose proof (Qlt_floor (v + (1 # 2))) as Hlt.
    rewrite inject_Z_plus in Hlt. change (inject_Z 1) with 1%Q in Hlt.
    split; lra.
  - intros [Hlo Hhi]. apply Qfloor_unique; [lra|].
    rewrite inject_Z_plus. change (inject_Z 1) with 1%Q. lra.
Qed.

Lemma inject_Z_eq (a b : Z) : inject_Z a = inject_Z b -> a = b.
Proof. by intros [= ->]. Qed.

(** X6. The key of a position in both main.js.  Two positions have the same
    key exactly when they round to the same grid position; and a position
    has the key of the integer position (a, b, c) exactly when each of its
    coordinates lies in the window from half a unit below the integer
    (included) to half a unit above it (excluded). *)
Theorem getKey_cell (p q : Vector3) (a b c : Z) :
  (getKey p = getKey q <-> roundToGrid p = roundToGrid q)
  /\ (getKey p = getKey (gridVector a b c) <->
      ((inject_Z a - (1 # 2) <= vx p)%Q /\ (vx p < inject_Z a + (1 # 2))%Q)
      /\ ((inject_Z b - (1 # 2) <= vy p)%Q /\ (vy p < inject_Z b + (1 # 2))%Q)
      /\ ((inject_Z c - (1 # 2) <= vz p)%Q /\ (vz p < inject_Z c + (1 # 2))%Q)).
Proof.
  assert (forall u v, getKey u = getKey v <-> roundToGrid u = roundToGrid v)
    as Hsame.
  { intros u v. split; [apply getKey_inj|].
    intros H. by rewrite <- (getKey_roundToGrid u), H, getKey_roundToGrid. }
  split; [apply Hsame|].
  rewrite Hsame, <- !Math_round_window.
  unfold roundToGrid, gridVector. cbn [vx vy vz].
  rewrite !Math_round_inject_Z. split.
  - intros [= Hx Hy Hz]. auto using inject_Z_eq.
  - by intros (-> & -> & ->).
Qed.

(** ** Hovering and clicking in the second main.js *)

(** X7. Placing against a face.  In the second main.js, hovering over a
    placed model that stands on the integer cell (a, b, c), at any node of
    the model and any point of a face with an axis-aligned normal, shows the
    preview on the neighbouring cell in the direction of the normal.  A
    release of the primary button that is no drag and did not start on the
    UI then adds a clone of the selected model exactly there when the cell
    is free, and changes nothing when it is occupied. *)
Theorem builder_places_next_to_face (s : BlockBuilder.State) (i : nat)
    (path : list nat) (o gltf : BlockBuilder.Object3D) (a b c : Z) (f : Face)
    (p : Vector3) (up : MouseEvent) :
  BlockBuilder.blocksGroup s !! i = Some o ->
  BlockBuilder.position o = gridVector a b c ->
  BlockBuilder.loadedModel s = Some gltf ->
  button up = 0 ->
  BlockBuilder.isDragging s = false ->
  BlockBuilder.clickedOnUI s = false ->
  let target :=
    let '(dx, dy, dz) := faceStep f in gridVector (a + dx) (b + dy) (c + dz) in
  let hit :=
    BlockBuilder.mkIntersection
      (BlockBuilder.HitNode (BlockBuilder.mkObjRef i path)) p (faceNormal f) in
  let hovered := BlockBuilder.updatePreview (Some hit) s in
  let clicked := BlockBuilder.onMouseUp up hovered in
  BlockBuilder.previewVisible hovered = true
  /\ BlockBuilder.previewPosition hovered = target
  /\ (getKey target ∉ BlockBuilder.occupiedPositions s ->
      BlockBuilder.blocksGroup clicked =
      BlockBuilder.blocksGroup s
      ++ [BlockBuilder.mkObject3D target (Some (getKey target))
            (BlockBuilder.children gltf)]
      /\ BlockBuilder.occupiedPositions clicked =
         {[getKey target]} ∪ BlockBuilder.occupiedPositions s)
  /\ (getKey target ∈ BlockBuilder.occupiedPositions s ->
      BlockBuilder.blocksGroup clicked = BlockBuilder.blocksGroup s
      /\ BlockBuilder.occupiedPositions clicked
         = BlockBuilder.occupiedPositions s).
Proof.
  intros Ho Hpos Hmodel Hb Hdrag Hui. cbn zeta.
  destruct (preview_adjacent_cell s i path o a b c f p Ho Hpos) as [Hvis Hprev].
  cbn zeta in Hvis, Hprev.
  set (target := let '(dx, dy, dz) := faceStep f in
                 gridVector (a + dx) (b + dy) (c + dz)) in *.
  set (hovered := BlockBuilder.updatePreview _ s) in *.
  destruct (updatePreview_scene
              (Some (BlockBuilder.mkIntersection
                       (BlockBuilder.HitNode (BlockBuilder.mkObjRef i path)) p
                       (faceNormal f))) s)
    as (Hg & Hocc & _ & Hd & Hu & _).
  fold hovered in Hg, Hocc, Hd, Hu.
  assert (BlockBuilder.loadedModel hovered = Some gltf) as Hmodel'.
  { rewrite <- Hmodel. unfold hovered, BlockBuilder.updatePreview.
    by destruct (BlockBuilder.targetPosition _ s). }
  assert (roundToGrid target = target) as Hround.
  { unfold target. destruct (faceStep f) as [[dx dy] dz].
    unfold roundToGrid, gridVector. cbn [vx vy vz].
    by rewrite !Math_round_inject_Z. }
  split; [done|]. split; [done|].
  unfold BlockBuilder.onMouseUp, BlockBuilder.placesBlock.
  rewrite Hb, Hd, Hu, Hdrag, Hui, Hvis, Hprev.
  change ((0 =? 0) && negb false && negb false && true) with true.
  cbv iota zeta.
  split.
  - intros Hfree.
    rewrite (addBlock_placed target gltf hovered Hmodel')
      by (by rewrite Hocc).
    cbn [fst snd BlockBuilder.setDrag BlockBuilder.setScene
         BlockBuilder.blocksGroup BlockBuilder.occupiedPositions].
    by rewrite Hround, Hg, Hocc.
  - intros Hocc'.
    rewrite (addBlock_rejected_occupied target hovered)
      by (by rewrite ?Hmodel', ?Hocc).
    cbn [fst snd BlockBuilder.setDrag BlockBuilder.blocksGroup
         BlockBuilder.occupiedPositions].
    by rewrite Hg, Hocc.
Qed.

Lemma builder_places_next_to_face_witness :
  let s := snd (BlockBuilder.addBlock (mkVector3 0 0 0) demoState) in
  let target := gridVector (0 + 1) (0 + 0) (0 + 0) in
  let hit :=
    BlockBuilder.mkIntersection
      (BlockBuilder.HitNode (BlockBuilder.mkObjRef 0%nat [0%nat]))
      (mkVector3 (1 # 2) (1 # 3) (- (1 # 3))) (faceNormal PosX) in
  let hovered := BlockBuilder.updatePreview (Some hit) s in
  let clicked := BlockBuilder.onMouseUp (mkMouseEvent 300 200 0 false) hovered in
  BlockBuilder.previewVisible hovered = true
  /\ BlockBuilder.previewPosition hovered = target
  /\ (getKey target ∉ BlockBuilder.occupiedPositions s ->
      BlockBuilder.blocksGroup clicked =
      BlockBuilder.blocksGroup s
      ++ [BlockBuilder.mkObject3D target (Some (getKey target))
            (BlockBuilder.children demoModel)]
      /\ BlockBuilder.occupiedPositions clicked =
         {[getKey target]} ∪ BlockBuilder.occupiedPositions s)
  /\ (getKey target ∈ BlockBuilder.occupiedPositions s ->
      BlockBuilder.blocksGroup clicked = BlockBuilder.blocksGroup s
      /\ BlockBuilder.occupiedPositions clicked
         = BlockBuilder.occupiedPositions s).
Proof.
  eapply (builder_places_next_to_face
            (snd (BlockBuilder.addBlock (mkVector3 0 0 0) demoState))
            0%nat [0%nat] _ demoModel 0 0 0 PosX
            (mkVector3 (1 # 2) (1 # 3) (- (1 # 3)))
            (mkMouseEvent 300 200 0 false)); reflexivity.
Defined.

(** X8. Removing by a hit.  In every state the second main.js reaches, a
    secondary button going down on any node of the placed model with index
    i removes that model from the group, keeps the other models in their
    order, and takes the key of the model's cell, which was in the set, out
    of it; the keys of all other cells stay as they were.  The node that was
    hit makes no difference. *)
Theorem builder_right_click_removes_model (events : list BlockBuilder.Event)
    (event : MouseEvent) (i : nat) (path : list nat)
    (o : BlockBuilder.Object3D) :
  let s := BlockBuilder.run events BlockBuilder.constructor in
  button event = 2 ->
  BlockBuilder.blocksGroup s !! i = Some o ->
  let s' :=
    BlockBuilder.onMouseDown event (Some (BlockBuilder.mkObjRef i path)) s in
  BlockBuilder.blocksGroup s' = delete i (BlockBuilder.blocksGroup s)
  /\ getKey (BlockBuilder.position o) ∈ BlockBuilder.occupiedPositions s
  /\ BlockBuilder.occupiedPositions s' =
     BlockBuilder.occupiedPositions s ∖ {[getKey (BlockBuilder.position o)]}
  /\ (forall pos,
        getKey pos ∈ BlockBuilder.occupiedPositions s' <->
        getKey pos ∈ BlockBuilder.occupiedPositions s
        /\ roundToGrid pos <> BlockBuilder.position o)
  /\ S (length (BlockBuilder.blocksGroup s'))
     = length (BlockBuilder.blocksGroup s)
  /\ s' = BlockBuilder.onMouseDown event (Some (BlockBuilder.mkObjRef i [])) s.
Proof.
  cbn zeta. intros Hb Ho.
  set (s := BlockBuilder.run events BlockBuilder.constructor) in *.
  assert (builderConsistent s) as Hs
    by apply builder_run_consistent, constructor_builderConsistent.
  pose proof (list_elem_of_lookup_2 _ _ _ Ho) as Hin.
  destruct (keys_of_positions s Hs o Hin) as [Hkey Hint].
  unfold BlockBuilder.onMouseDown. rewrite Hb. change (2 =? 2) with true.
  cbv iota.
  set (s1 := BlockBuilder.setDrag false _ _ _ s).
  assert (builderConsistent s1) as Hs1 by (by apply (builderConsistent_scene s)).
  rewrite (removeBlock_spec (BlockBuilder.mkObjRef i path) o s1 Hs1 Ho).
  rewrite (removeBlock_spec (BlockBuilder.mkObjRef i []) o s1 Hs1 Ho).
  cbn [BlockBuilder.top BlockBuilder.setScene BlockBuilder.blocksGroup
       BlockBuilder.occupiedPositions s1 BlockBuilder.setDrag].
  split; [done|]. split.
  { apply (occupied_keys s Hs). rewrite <- Hkey. by apply list_elem_of_fmap_2. }
  split; [done|]. split; [|split; [|done]].
  - intros pos. rewrite elem_of_difference, elem_of_singleton.
    split; intros [Hocc Hne]; (split; [done|]).
    + intros Heq. apply Hne. by rewrite <- Heq, getKey_roundToGrid.
    + intros Heq%getKey_inj. apply Hne. by rewrite Heq, Hint.
  - rewrite length_delete by (by rewrite Ho).
    pose proof (lookup_lt_Some _ _ _ Ho). lia.
Qed.

Lemma builder_right_click_removes_model_witness :
  let events :=
    [BlockBuilder.ModelLoaded "block-grass" demoModel;
     BlockBuilder.ModelSelected "block-grass";
     BlockBuilder.Place (mkVector3 0 0 0);
     BlockBuilder.Place (mkVector3 1 0 0)] in
  let s := BlockBuilder.run events BlockBuilder.constructor in
  let o :=
    BlockBuilder.mkObject3D (gridVector 0 0 0) (Some "0,0,0")
      (BlockBuilder.children demoModel) in
  let s' :=
    BlockBuilder.onMouseDown (mkMouseEvent 280 200 2 false)
      (Some (BlockBuilder.mkObjRef 0%nat [0%nat])) s in
  BlockBuilder.blocksGroup s' = delete 0%nat (BlockBuilder.blocksGroup s)
  /\ getKey (BlockBuilder.position o) ∈ BlockBuilder.occupiedPositions s
  /\ BlockBuilder.occupiedPositions s' =
     BlockBuilder.occupiedPositions s ∖ {[getKey (BlockBuilder.position o)]}
  /\ (forall pos,
        getKey pos ∈ BlockBuilder.occupiedPositions s' <->
        getKey pos ∈ BlockBuilder.occupiedPositions s
        /\ roundToGrid pos <> BlockBuilder.position o)
  /\ S (length (BlockBuilder.blocksGroup s'))
     = length (BlockBuilder.blocksGroup s)
  /\ s' = BlockBuilder.onMouseDown (mkMouseEvent 280 200 2 false)
            (Some (BlockBuilder.mkObjRef 0%nat [])) s.
Proof.
  apply (builder_right_click_removes_model
           [BlockBuilder.ModelLoaded "block-grass" demoModel;
            BlockBuilder.ModelSelected "block-grass";
            BlockBuilder.Place (mkVector3 0 0 0);
            BlockBuilder.Place (mkVector3 1 0 0)]
           (mkMouseEvent 280 200 2 false) 0%nat [0%nat]); reflexivity.
Defined.

Lemma updatePreview_models (hit : option BlockBuilder.Intersection)
    (s : BlockBuilder.State) :
  BlockBuilder.blockModels (BlockBuilder.updatePreview hit s)
  = BlockBuilder.blockModels s
  /\ BlockBuilder.selectedModel (BlockBuilder.updatePreview hit s)
     = BlockBuilder.selectedModel s.
Proof.
  unfold BlockBuilder.updatePreview. destruct hit as [h|]; [|done].
  by destruct (BlockBuilder.targetPosition h s).
Qed.

Lemma onMouseMove_models (event : MouseEvent)
    (hit : option BlockBuilder.Intersection) (s : BlockBuilder.State) :
  BlockBuilder.blockModels (BlockBuilder.onMouseMove event hit s)
  = BlockBuilder.blockModels s
  /\ BlockBuilder.selectedModel (BlockBuilder.onMouseMove event hit s)
     = BlockBuilder.selectedModel s.
Proof.
  unfold BlockBuilder.onMouseMove.
  destruct (updatePreview_models hit
    (if negb (BlockBuilder.isDragging s) && BlockBuilder.exceedsThreshold event s
     then BlockBuilder.setDrag true (BlockBuilder.dragStartX s)
            (BlockBuilder.dragStartY s) (BlockBuilder.clickedOnUI s) s
     else s)) as [-> ->].
  by destruct (negb (BlockBuilder.isDragging s)
               && BlockBuilder.exceedsThreshold event s).
Qed.

(** X9. What never changes the scene.  A run of the second main.js made of
    pointer moves, buttons other than the secondary one going down, buttons
    other than the primary one going up, keys other than R, and models
    arriving or being selected leaves the group of models and the set of
    keys exactly as they were. *)
Theorem quiet_events_keep_scene (events : list BlockBuilder.Event)
    (s : BlockBuilder.State) :
  Forall quiet events ->
  BlockBuilder.blocksGroup (BlockBuilder.run events s)
  = BlockBuilder.blocksGroup s
  /\ BlockBuilder.occupiedPositions (BlockBuilder.run events s)
     = BlockBuilder.occupiedPositions s.
Proof.
  revert s. induction events as [|e events IH]; intros s Hquiet; [done|].
  apply Forall_cons in Hquiet as [He Hrest].
  rewrite run_cons. destruct (IH (BlockBuilder.handle e s) Hrest) as [-> ->].
  clear IH Hrest.
  destruct e as [id gltf | id | ev hit | ev hb | ev | key | pos | r];
    cbn [BlockBuilder.handle quiet] in *; try done.
  - by destruct (onMouseMove_scene ev hit s) as (-> & -> & _).
  - unfold BlockBuilder.onMouseDown.
    by destruct (Z.eqb_spec (button ev) 2).
  - assert (BlockBuilder.placesBlock ev s = false) as Hno.
    { unfold BlockBuilder.placesBlock. by destruct (Z.eqb_spec (button ev) 0). }
    by destruct (onMouseUp_not_placing ev s Hno) as (-> & -> & _).
  - destruct He as [Hr HR]. unfold BlockBuilder.onKeyDown.
    destruct (String.eqb_spec key "r"); [done|].
    by destruct (String.eqb_spec key "R").
Qed.

Lemma quiet_events_keep_scene_witness :
  let hit :=
    BlockBuilder.mkIntersection BlockBuilder.HitPlane
      (mkVector3 (1 # 5) 0 (3 # 10)) (faceNormal PosY) in
  let events :=
    [BlockBuilder.MouseMove (mkMouseEvent 12 11 0 false) (Some hit);
     BlockBuilder.MouseDown (mkMouseEvent 12 11 1 false) None;
     BlockBuilder.MouseUp (mkMouseEvent 12 11 1 false);
     BlockBuilder.KeyDown "x";
     BlockBuilder.ModelSelected "block-grass-large"] in
  let s := snd (BlockBuilder.addBlock (mkVector3 0 0 0) demoState) in
  BlockBuilder.blocksGroup (BlockBuilder.run events s)
  = BlockBuilder.blocksGroup s
  /\ BlockBuilder.occupiedPositions (BlockBuilder.run events s)
     = BlockBuilder.occupiedPositions s.
Proof.
  apply quiet_events_keep_scene.
  repeat (apply Forall_cons; split); try apply Forall_nil; cbn [quiet button];
    done.
Defined.

Lemma moves_within_threshold (down : MouseEvent)
    (moves : list (MouseEvent * option BlockBuilder.Intersection))
    (s : BlockBuilder.State) :
  BlockBuilder.dragStartX s = clientX down ->
  BlockBuilder.dragStartY s = clientY down ->
  BlockBuilder.isDragging s = false ->
  Forall
    (fun m => ~ movedBeyond (BlockBuilder.dragThreshold s) down (fst m)) moves ->
  let s' :=
    BlockBuilder.run
      ((fun m => BlockBuilder.MouseMove (fst m) (snd m)) <$> moves) s in
  BlockBuilder.isDragging s' = false
  /\ BlockBuilder.blockModels s' = BlockBuilder.blockModels s
  /\ BlockBuilder.selectedModel s' = BlockBuilder.selectedModel s.
Proof.
  revert s. induction moves as [|[move hit] moves IH];
    intros s Hx Hy Hdrag Hall; cbn zeta; [done|].
  apply Forall_cons in Hall as [Hnow Hlater]. cbn [fst] in Hnow.
  rewrite fmap_cons, run_cons. cbn [BlockBuilder.handle fst snd].
  destruct (onMouseMove_scene move hit s) as (_ & _ & _ & _ & Hsx & Hsy & Hth).
  destruct (onMouseMove_models move hit s) as [Hm Hsel].
  specialize (IH (BlockBuilder.onMouseMove move hit s)). cbn zeta in IH.
  destruct IH as (-> & -> & ->); [congruence | congruence | | | done].
  - rewrite onMouseMove_isDragging, Hdrag. cbn [orb].
    apply not_true_is_false. intros Hex. apply Hnow.
    by apply (exceedsThreshold_movedBeyond down move s Hx Hy).
  - by rewrite Hth.
Qed.

(** X10. A click places.  In any state of the second main.js, take a gesture
    where the primary button goes down on the scene, no pointer move is more
    than the drag threshold away from the start on either axis (exactly the
    threshold is still a click), and the primary button goes up.  If the
    preview is visible when the button goes up, a loaded model is selected
    and the cell of the preview is free, the gesture adds one clone of the
    model at the preview position, with the key of that position, and
    nothing else. *)
Theorem click_places (s : BlockBuilder.State) (down up : MouseEvent)
    (moves : list (MouseEvent * option BlockBuilder.Intersection))
    (gltf : BlockBuilder.Object3D) :
  button down = 0 ->
  targetOnUI down = false ->
  button up = 0 ->
  Forall
    (fun m => ~ movedBeyond (BlockBuilder.dragThreshold s) down (fst m)) moves ->
  let before := BlockBuilder.run (gestureStart down moves) s in
  let after := BlockBuilder.run (gesture down moves up) s in
  let key := getKey (BlockBuilder.previewPosition before) in
  BlockBuilder.previewVisible before = true ->
  BlockBuilder.loadedModel s = Some gltf ->
  key ∉ BlockBuilder.occupiedPositions s ->
  BlockBuilder.blocksGroup after =
  BlockBuilder.blocksGroup s
  ++ [BlockBuilder.mkObject3D
        (roundToGrid (BlockBuilder.previewPosition before)) (Some key)
        (BlockBuilder.children gltf)]
  /\ BlockBuilder.occupiedPositions after
     = {[key]} ∪ BlockBuilder.occupiedPositions s.
Proof.
  intros Hdown Hui Hup Hall. cbn zeta. unfold gesture. rewrite run_app.
  unfold gestureStart. rewrite run_cons. cbn [BlockBuilder.handle].
  unfold BlockBuilder.onMouseDown. rewrite Hdown. change (0 =? 2) with false.
  cbv iota.
  set (s1 := BlockBuilder.setDrag false (clientX down) (clientY down)
               (targetOnUI down) s).
  destruct (moves_run down moves s1 eq_refl eq_refl)
    as (Hg & Ho & _ & Hclicked & _).
  destruct (moves_within_threshold down moves s1 eq_refl eq_refl eq_refl Hall)
    as (Hdrag & Hmodels & Hsel).
  set (s2 := BlockBuilder.run _ s1) in *.
  intros Hvis Hmodel Hfree.
  change (BlockBuilder.run [BlockBuilder.MouseUp up] s2)
    with (BlockBuilder.onMouseUp up s2).
  unfold BlockBuilder.onMouseUp, BlockBuilder.placesBlock.
  rewrite Hup, Hdrag, Hclicked, Hvis.
  cbn [s1 BlockBuilder.setDrag BlockBuilder.clickedOnUI]. rewrite Hui.
  change ((0 =? 0) && negb false && negb false && true) with true. cbv iota.
  assert (BlockBuilder.loadedModel s2 = Some gltf) as Hmodel2.
  { rewrite <- Hmodel. unfold BlockBuilder.loadedModel.
    by rewrite Hsel, Hmodels. }
  rewrite (addBlock_placed _ gltf s2 Hmodel2) by (by rewrite Ho).
  cbn [snd BlockBuilder.setDrag BlockBuilder.setScene BlockBuilder.blocksGroup
       BlockBuilder.occupiedPositions].
  by rewrite Hg, Ho.
Qed.

Lemma click_places_witness :
  let hit :=
    BlockBuilder.mkIntersection BlockBuilder.HitPlane
      (mkVector3 (1 # 5) (1 # 100) (3 # 10)) (faceNormal PosY) in
  let down := mkMouseEvent 10 10 0 false in
  let up := mkMouseEvent 15 11 0 false in
  let moves := [(mkMouseEvent 15 11 0 false, Some hit)] in
  let before := BlockBuilder.run (gestureStart down moves) demoState in
  let after := BlockBuilder.run (gesture down moves up) demoState in
  let key := getKey (BlockBuilder.previewPosition before) in
  BlockBuilder.blocksGroup after =
  BlockBuilder.blocksGroup demoState
  ++ [BlockBuilder.mkObject3D
        (roundToGrid (BlockBuilder.previewPosition before)) (Some key)
        (BlockBuilder.children demoModel)]
  /\ BlockBuilder.occupiedPositions after
     = {[key]} ∪ BlockBuilder.occupiedPositions demoState.
Proof.
  apply (click_places demoState (mkMouseEvent 10 10 0 false)
           (mkMouseEvent 15 11 0 false)
           [(mkMouseEvent 15 11 0 false,
             Some (BlockBuilder.mkIntersection BlockBuilder.HitPlane
                     (mkVector3 (1 # 5) (1 # 100) (3 # 10)) (faceNormal PosY)))]
           demoModel); try reflexivity.
  - apply Forall_cons. split; [|by apply Forall_nil].
    unfold movedBeyond. cbn. lia.
  - apply not_elem_of_empty.
Defined.

(** X11. The reset key.  R (in either case) empties the group and the set
    and keeps the loaded models, the selection and the preview; afterwards
    every position can be placed again when a loaded model is selected.
    Every other key changes nothing. *)
Theorem reset_key (s : BlockBuilder.State) (key : string) :
  (key = "r" \/ key = "R" ->
   let s' := BlockBuilder.onKeyDown key s in
   BlockBuilder.blocksGroup s' = []
   /\ BlockBuilder.occupiedPositions s' = ∅
   /\ BlockBuilder.blockModels s' = BlockBuilder.blockModels s
   /\ BlockBuilder.selectedModel s' = BlockBuilder.selectedModel s
   /\ BlockBuilder.previewPosition s' = BlockBuilder.previewPosition s
   /\ BlockBuilder.previewVisible s' = BlockBuilder.previewVisible s
   /\ (is_Some (BlockBuilder.loadedModel s) ->
       forall pos, fst (BlockBuilder.addBlock pos s') = Returned true))
  /\ (key <> "r" -> key <> "R" -> BlockBuilder.onKeyDown key s = s).
Proof.
  split.
  - intros Hkey. cbn zeta. unfold BlockBuilder.onKeyDown.
    assert (String.eqb key "r" || String.eqb key "R" = true) as ->.
    { destruct Hkey as [-> | ->]; reflexivity. }
    assert (BlockBuilder.removeAll (BlockBuilder.blocksGroup s) = []) as ->
      by (induction (BlockBuilder.blocksGroup s); [done | by simpl]).
    cbn [BlockBuilder.setScene BlockBuilder.blocksGroup
         BlockBuilder.occupiedPositions BlockBuilder.blockModels
         BlockBuilder.selectedModel BlockBuilder.previewPosition
         BlockBuilder.previewVisible].
    repeat (split; [done|]).
    intros [gltf Hmodel] pos.
    rewrite (addBlock_placed pos gltf); [done | exact Hmodel |].
    apply not_elem_of_empty.
  - intros Hr HR. unfold BlockBuilder.onKeyDown.
    destruct (String.eqb_spec key "r"); [done|].
    by destruct (String.eqb_spec key "R").
Qed.

Lemma reset_key_witness :
  (let s := snd (BlockBuilder.addBlock (mkVector3 0 0 0) demoState) in
   let s' := BlockBuilder.onKeyDown "R" s in
   BlockBuilder.blocksGroup s' = []
   /\ BlockBuilder.occupiedPositions s' = ∅
   /\ BlockBuilder.blockModels s' = BlockBuilder.blockModels s
   /\ BlockBuilder.selectedModel s' = BlockBuilder.selectedModel s
   /\ BlockBuilder.previewPosition s' = BlockBuilder.previewPosition s
   /\ BlockBuilder.previewVisible s' = BlockBuilder.previewVisible s
   /\ (is_Some (BlockBuilder.loadedModel s) ->
       forall pos, fst (BlockBuilder.addBlock pos s') = Returned true))
  /\ BlockBuilder.onKeyDown "Escape"
       (snd (BlockBuilder.addBlock (mkVector3 0 0 0) demoState))
     = snd (BlockBuilder.addBlock (mkVector3 0 0 0) demoState).
Proof.
  split.
  - apply (proj1 (reset_key
                    (snd (BlockBuilder.addBlock (mkVector3 0 0 0) demoState))
                    "R")).
    by right.
  - apply (proj2 (reset_key
                    (snd (BlockBuilder.addBlock (mkVector3 0 0 0) demoState))
                    "Escape")); discriminate.
Defined.

(** ** The model selector *)

Lemma scene_handlers_keep_models (s : BlockBuilder.State) :
  (forall r,
      BlockBuilder.blockModels (BlockBuilder.removeBlock r s)
      = BlockBuilder.blockModels s
      /\ BlockBuilder.selectedModel (BlockBuilder.removeBlock r s)
         = BlockBuilder.selectedModel s)
  /\ (forall pos,
        BlockBuilder.blockModels (snd (BlockBuilder.addBlock pos s))
        = BlockBuilder.blockModels s
        /\ BlockBuilder.selectedModel (snd (BlockBuilder.addBlock pos s))
           = BlockBuilder.selectedModel s)
  /\ (forall key,
        BlockBuilder.blockModels (BlockBuilder.onKeyDown key s)
        = BlockBuilder.blockModels s
        /\ BlockBuilder.selectedModel (BlockBuilder.onKeyDown key s)
           = BlockBuilder.selectedModel s).
Proof.
  split; [|split].
  - intros r. unfold BlockBuilder.removeBlock.
    by destruct (BlockBuilder.blocksGroup s !! _).
  - intros pos. unfold BlockBuilder.addBlock.
    destruct (BlockBuilder.loadedModel s);
      [|destruct (BlockBuilder.selectedInherited s); [|done]];
      by case_bool_decide.
  - intros key. unfold BlockBuilder.onKeyDown.
    by destruct (String.eqb key "r" || String.eqb key "R").
Qed.

Lemma mouse_handlers_keep_models (s : BlockBuilder.State) (event : MouseEvent) :
  (forall hitBlocks,
      BlockBuilder.blockModels (BlockBuilder.onMouseDown event hitBlocks s)
      = BlockBuilder.blockModels s
      /\ BlockBuilder.selectedModel (BlockBuilder.onMouseDown event hitBlocks s)
         = BlockBuilder.selectedModel s)
  /\ BlockBuilder.blockModels (BlockBuilder.onMouseUp event s)
     = BlockBuilder.blockModels s
  /\ BlockBuilder.selectedModel (BlockBuilder.onMouseUp event s)
     = BlockBuilder.selectedModel s.
Proof.
  split.
  - intros hb. unfold BlockBuilder.onMouseDown.
    destruct (button event =? 2); [|done]. destruct hb as [r|]; [|done].
    by destruct (proj1 (scene_handlers_keep_models
                          (BlockBuilder.setDrag false (clientX event)
                             (clientY event) (targetOnUI event) s)) r)
      as [-> ->].
  - destruct (onMouseUp_scene event s) as (_ & _ & _ & -> & -> & _).
    destruct (BlockBuilder.placesBlock event s); [|done].
    apply (proj1 (proj2 (scene_handlers_keep_models s))).
Qed.

(** With plain keys only, a truthy [this.blockModels[modelId]] is a stored
    model. *)
Lemma hasProperty_plain (modelId : string) (b : BlockBuilder.State) :
  plainKey modelId ->
  (forall key, is_Some (BlockBuilder.blockModels b !! key) -> plainKey key) ->
  BlockBuilder.hasProperty modelId b = true ->
  is_Some (BlockBuilder.blockModels b !! modelId)
  /\ BlockBuilder.inheritedName modelId b = false.
Proof.
  intros Hplain Hstored.
  unfold BlockBuilder.hasProperty, BlockBuilder.inheritedName.
  destruct (BlockBuilder.blockModels b !! modelId) as [gltf|]; [by eauto|].
  unfold plainKey in Hplain. rewrite Hplain.
  destruct (BlockBuilder.blockModels b !! "__proto__") as [proto|] eqn:Hproto;
    [|done].
  by pose proof (Hstored "__proto__" ltac:(by rewrite Hproto)).
Qed.

Lemma Forall_slice {A : Type} (P : A -> Prop) (start finish : Z)
    (l : list A) :
  Forall P l -> Forall P (slice start finish l).
Proof. intros Hl. unfold slice. by apply Forall_take, Forall_drop. Qed.

Lemma updatePagination_sound (s : BlockSelector.State) :
  selectionSound s -> selectionSound (BlockSelector.updatePagination s).
Proof.
  intros [Hsel Hstored Hfiles Hoptions]. constructor; try done.
  unfold BlockSelector.updatePagination. cbn [BlockSelector.options].
  by apply Forall_slice.
Qed.

Lemma setBuilder_sound (b : BlockBuilder.State) (s : BlockSelector.State) :
  BlockBuilder.blockModels b
  = BlockBuilder.blockModels (BlockSelector.builder s) ->
  BlockBuilder.selectedModel b
  = BlockBuilder.selectedModel (BlockSelector.builder s) ->
  selectionSound s -> selectionSound (BlockSelector.setBuilder b s).
Proof.
  intros Hm Hs [Hsel Hstored Hfiles Hoptions].
  constructor; cbn [BlockSelector.setBuilder BlockSelector.builder
                    BlockSelector.allModelFiles BlockSelector.options];
    rewrite ?Hm, ?Hs; done.
Qed.

Lemma stored_selected_sound (modelId : string)
    (gltf : BlockBuilder.Object3D) (chosen : bool)
    (s : BlockSelector.State) :
  plainKey modelId -> selectionSound s ->
  selectionSound
    (BlockSelector.setBuilder
       (let b :=
          BlockBuilder.storeModel modelId gltf (BlockSelector.builder s) in
        if chosen then BlockBuilder.selectModel modelId b else b) s).
Proof.
  intros Hplain [Hsel Hstored Hfiles Hoptions].
  constructor; cbn [BlockSelector.setBuilder BlockSelector.builder
                    BlockSelector.allModelFiles BlockSelector.options];
    try done.
  - intros key. destruct chosen;
      cbn [BlockBuilder.selectModel BlockBuilder.storeModel
           BlockBuilder.selectedModel BlockBuilder.blockModels].
    + intros [= <-]. by rewrite lookup_insert_eq.
    + intros Hkey. apply lookup_insert_is_Some'. right. by apply Hsel.
  - intros key. destruct chosen;
      cbn [BlockBuilder.selectModel BlockBuilder.storeModel
           BlockBuilder.selectedModel BlockBuilder.blockModels];
      intros [-> | Hkey]%lookup_insert_is_Some'; auto.
Qed.

Lemma selector_handle_selection (e : BlockSelector.Event)
    (s : BlockSelector.State) :
  plainEvent e -> selectionSound s -> selectionSound (BlockSelector.handle e s).
Proof.
  intros He Hs.
  destruct e as [ | | k | model gltf | k model gltf | ev hit | ev hb | ev | key];
    cbn [BlockSelector.handle plainEvent] in *.
  - unfold BlockSelector.clickPrev.
    destruct (_ >? 1); [|done]. apply updatePagination_sound.
    by destruct Hs.
  - unfold BlockSelector.clickNext.
    destruct (_ <? _); [|done]. apply updatePagination_sound.
    by destruct Hs.
  - unfold BlockSelector.clickOption.
    destruct (BlockSelector.options s !! k) as [model|] eqn:Hk; [|done].
    destruct (BlockBuilder.hasProperty _ _) eqn:Hhas; cbn [fst]; [|done].
    assert (plainKey (BlockSelector.id model)) as Hplain.
    { pose proof (options_plain s Hs) as Hall.
      rewrite Forall_forall in Hall. apply Hall.
      by eapply list_elem_of_lookup_2. }
    destruct (hasProperty_plain _ _ Hplain (stored_plain s Hs) Hhas)
      as [Hstored _].
    destruct Hs as [Hsel Hst Hfiles Hoptions].
    constructor; cbn [BlockSelector.setBuilder BlockSelector.builder
                      BlockSelector.allModelFiles BlockSelector.options
                      BlockBuilder.selectModel BlockBuilder.selectedModel
                      BlockBuilder.blockModels]; try done.
    by intros modelId [= <-].
  - apply (stored_selected_sound (BlockSelector.id model) gltf true s He Hs).
  - unfold BlockSelector.backgroundLoaded. cbv zeta.
    destruct (_ && _).
    + apply (stored_selected_sound (BlockSelector.id model) gltf true s He Hs).
    + apply (stored_selected_sound (BlockSelector.id model) gltf false s He Hs).
  - destruct (onMouseMove_models ev hit (BlockSelector.builder s)) as [Hm Hsel].
    by apply setBuilder_sound.
  - destruct (proj1 (mouse_handlers_keep_models (BlockSelector.builder s) ev) hb)
      as [Hm Hsel].
    by apply setBuilder_sound.
  - destruct (proj2 (mouse_handlers_keep_models (BlockSelector.builder s) ev))
      as [Hm Hsel].
    by apply setBuilder_sound.
  - destruct (proj2 (proj2 (scene_handlers_keep_models
                              (BlockSelector.builder s))) key) as [Hm Hsel].
    by apply setBuilder_sound.
Qed.

Lemma selector_run_selection (events : list BlockSelector.Event)
    (s : BlockSelector.State) :
  Forall plainEvent events -> selectionSound s ->
  selectionSound (BlockSelector.run events s).
Proof.
  revert s. induction events as [|e events IH]; intros s Hevents Hs; [done|].
  apply Forall_cons in Hevents as [He Hevents].
  apply (IH (BlockSelector.handle e s) Hevents).
  by apply selector_handle_selection.
Qed.

Lemma loadBlockModels_sound (modelFiles : list BlockSelector.ModelFile) :
  Forall (fun model => plainKey (BlockSelector.id model)) modelFiles ->
  selectionSound
    (BlockSelector.loadBlockModels modelFiles BlockBuilder.constructor).
Proof.
  intros Hfiles. apply updatePagination_sound.
  constructor; cbn [BlockSelector.builder BlockSelector.allModelFiles
                    BlockSelector.options]; try done.
  - intros modelId [gltf Hlookup].
    unfold BlockBuilder.constructor in Hlookup.
    cbn [BlockBuilder.blockModels] in Hlookup.
    by rewrite lookup_empty in Hlookup.
Qed.

(** X12. A selected model is a loaded model.  Take a list of models, and
    models arriving, none with an id that names a property an object
    inherits (constructor, toString and the like).  In every state the page
    reaches from the loaded list, whatever is clicked, loaded or done in the
    scene, the selected model is in blockModels.  So addBlock either places,
    or finds the cell occupied, or nothing is selected yet (or the selected
    id is the empty text, which the test of addBlock takes for no
    selection). *)
Theorem selection_is_loaded (modelFiles : list BlockSelector.ModelFile)
    (events : list BlockSelector.Event) :
  Forall (fun model => plainKey (BlockSelector.id model)) modelFiles ->
  Forall plainEvent events ->
  let b :=
    BlockSelector.builder
      (BlockSelector.run events
         (BlockSelector.loadBlockModels modelFiles BlockBuilder.constructor)) in
  (forall modelId,
      BlockBuilder.selectedModel b = Some modelId ->
      is_Some (BlockBuilder.blockModels b !! modelId))
  /\ (forall pos,
        fst (BlockBuilder.addBlock pos b) = Returned true
        \/ getKey pos ∈ BlockBuilder.occupiedPositions b
        \/ BlockBuilder.selectedModel b = None
        \/ BlockBuilder.selectedModel b = Some "").
Proof.
  intros Hfiles Hevents. cbn zeta.
  pose proof (selector_run_selection events _ Hevents
                (loadBlockModels_sound modelFiles Hfiles)) as Hsound.
  pose proof (selected_stored _ Hsound) as Hsel.
  split; [exact Hsel|].
  set (b := BlockSelector.builder _) in *. intros pos.
  destruct (BlockBuilder.selectedModel b) as [modelId|] eqn:Hm; [|by auto].
  destruct (String.eqb_spec modelId "") as [-> | Hne]; [by auto|].
  destruct (Hsel modelId eq_refl) as [gltf Hgltf].
  assert (BlockBuilder.loadedModel b = Some gltf) as Hloaded.
  { unfold BlockBuilder.loadedModel. rewrite Hm.
    by destruct (String.eqb_spec modelId ""). }
  destruct (decide (getKey pos ∈ BlockBuilder.occupiedPositions b));
    [by auto|].
  left. by rewrite (addBlock_placed pos gltf b Hloaded).
Qed.

Lemma selection_is_loaded_witness :
  let grass := BlockSelector.mkModelFile "block-grass" "block-grass.glb" in
  let snow := BlockSelector.mkModelFile "block-snow" "block-snow.glb" in
  let b :=
    BlockSelector.builder
      (BlockSelector.run
         [BlockSelector.BackgroundLoaded 0 grass demoModel;
          BlockSelector.ClickOption 1;
          BlockSelector.ClickLoaded snow demoModel;
          BlockSelector.ClickOption 0]
         (BlockSelector.loadBlockModels [grass; snow]
            BlockBuilder.constructor)) in
  (forall modelId,
      BlockBuilder.selectedModel b = Some modelId ->
      is_Some (BlockBuilder.blockModels b !! modelId))
  /\ (forall pos,
        fst (BlockBuilder.addBlock pos b) = Returned true
        \/ getKey pos ∈ BlockBuilder.occupiedPositions b
        \/ BlockBuilder.selectedModel b = None
        \/ BlockBuilder.selectedModel b = Some "").
Proof.
  apply (selection_is_loaded
           [BlockSelector.mkModelFile "block-grass" "block-grass.glb";
            BlockSelector.mkModelFile "block-snow" "block-snow.glb"]
           [BlockSelector.BackgroundLoaded 0
              (BlockSelector.mkModelFile "block-grass" "block-grass.glb")
              demoModel;
            BlockSelector.ClickOption 1;
            BlockSelector.ClickLoaded
              (BlockSelector.mkModelFile "block-snow" "block-snow.glb")
              demoModel;
            BlockSelector.ClickOption 0]).
  - apply Forall_cons; split; [reflexivity|].
    apply Forall_cons; split; [reflexivity | by apply Forall_nil].
  - apply Forall_cons; split; [reflexivity|].
    apply Forall_cons; split; [exact I|].
    apply Forall_cons; split; [reflexivity|].
    apply Forall_cons; split; [exact I | by apply Forall_nil].
Defined.

Lemma Math_ceil_sixth (n : Z) : Math_ceil (inject_Z n / 6) = (n + 5) / 6.
Proof.
  unfold Math_ceil, Qceiling.
  assert (- (inject_Z n / 6) == inject_Z (- n) / inject_Z 6)%Q as Heq.
  { rewrite inject_Z_opp. change (inject_Z 6) with 6%Q. field. }
  rewrite (Qfloor_comp _ _ Heq), <- Zdiv_Qdiv.
  pose proof (Z.div_mod (- n) 6 ltac:(lia)) as H1.
  pose proof (Z.mod_pos_bound (- n) 6 ltac:(lia)) as H2.
  pose proof (Z.div_mod (n + 5) 6 ltac:(lia)) as H3.
  pose proof (Z.mod_pos_bound (n + 5) 6 ltac:(lia)) as H4.
  lia.
Qed.

(** The slice [updatePagination] takes, for a page that starts inside the
    list. *)
Lemma slice_page {A : Type} (l : list A) (page : Z) :
  1 <= page ->
  6 * (page - 1) <= Z.of_nat (length l) ->
  slice ((page - 1) * 6)
    (Z.min ((page - 1) * 6 + 6) (Z.of_nat (length l))) l
  = take 6 (drop (Z.to_nat (6 * (page - 1))) l).
Proof.
  intros Hpage Hstart. unfold slice.
  destruct (Z.ltb_spec ((page - 1) * 6) 0) as [Hneg | _]; [lia|].
  destruct (Z.ltb_spec
              (Z.min ((page - 1) * 6 + 6) (Z.of_nat (length l))) 0)
    as [Hneg | _]; [lia|].
  replace (Z.min ((page - 1) * 6) (Z.of_nat (length l)))
    with (6 * (page - 1)) by lia.
  set (start := Z.to_nat (6 * (page - 1))).
  destruct (Z.le_gt_cases ((page - 1) * 6 + 6) (Z.of_nat (length l)))
    as [Hfull | Hshort].
  - f_equal. lia.
  - rewrite !take_ge; [done | |]; rewrite length_drop; lia.
Qed.

Lemma updatePagination_shown (modelFiles : list BlockSelector.ModelFile)
    (s : BlockSelector.State) :
  BlockSelector.allModelFiles s = modelFiles ->
  BlockSelector.itemsPerPage (BlockSelector.pagination s) = 6 ->
  BlockSelector.totalItems (BlockSelector.pagination s)
  = Z.of_nat (length modelFiles) ->
  BlockSelector.totalPages (BlockSelector.pagination s)
  = (Z.of_nat (length modelFiles) + 5) / 6 ->
  1 <= BlockSelector.currentPage (BlockSelector.pagination s) ->
  BlockSelector.currentPage (BlockSelector.pagination s)
  <= Z.max 1 (BlockSelector.totalPages (BlockSelector.pagination s)) ->
  pageShown modelFiles (BlockSelector.updatePagination s).
Proof.
  intros Hfiles Hitems Htotal Hpages Hlow Hhigh.
  unfold BlockSelector.updatePagination.
  constructor;
    cbn [BlockSelector.allModelFiles BlockSelector.pagination
         BlockSelector.options BlockSelector.prevDisabled
         BlockSelector.nextDisabled BlockSelector.currentPageText];
    try done.
  rewrite Hitems, Htotal, Hfiles. apply slice_page; [done|].
  rewrite Hpages in Hhigh.
  pose proof (Z.div_mod (Z.of_nat (length modelFiles) + 5) 6 ltac:(lia)) as H1.
  pose proof (Z.mod_pos_bound (Z.of_nat (length modelFiles) + 5) 6 ltac:(lia))
    as H2.
  lia.
Qed.

Lemma loadBlockModels_shown (modelFiles : list BlockSelector.ModelFile)
    (b : BlockBuilder.State) :
  pageShown modelFiles (BlockSelector.loadBlockModels modelFiles b).
Proof.
  unfold BlockSelector.loadBlockModels.
  apply updatePagination_shown;
    cbn [BlockSelector.allModelFiles BlockSelector.pagination
         BlockSelector.newPagination BlockSelector.itemsPerPage
         BlockSelector.totalItems BlockSelector.totalPages
         BlockSelector.currentPage];
    try done; try lia.
  apply Math_ceil_sixth.
Qed.

Lemma selector_handle_shown (modelFiles : list BlockSelector.ModelFile)
    (e : BlockSelector.Event) (s : BlockSelector.State) :
  pageShown modelFiles s -> pageShown modelFiles (BlockSelector.handle e s).
Proof.
  intros Hs.
  assert (forall b, pageShown modelFiles (BlockSelector.setBuilder b s))
    as Hbuilder by (intros b; destruct Hs; by constructor).
  destruct e as [ | | k | model gltf | k model gltf | ev hit | ev hb | ev | key];
    cbn [BlockSelector.handle]; try apply Hbuilder.
  - unfold BlockSelector.clickPrev.
    destruct (Z.gtb_spec
                (BlockSelector.currentPage (BlockSelector.pagination s)) 1)
      as [Hgt | _]; [|done].
    destruct Hs.
    apply updatePagination_shown;
      cbn [BlockSelector.setPage BlockSelector.allModelFiles
           BlockSelector.pagination BlockSelector.itemsPerPage
           BlockSelector.totalItems BlockSelector.totalPages
           BlockSelector.currentPage]; try done; lia.
  - unfold BlockSelector.clickNext.
    destruct (Z.ltb_spec
                (BlockSelector.currentPage (BlockSelector.pagination s))
                (BlockSelector.totalPages (BlockSelector.pagination s)))
      as [Hlt | _]; [|done].
    destruct Hs.
    apply updatePagination_shown;
      cbn [BlockSelector.setPage BlockSelector.allModelFiles
           BlockSelector.pagination BlockSelector.itemsPerPage
           BlockSelector.totalItems BlockSelector.totalPages
           BlockSelector.currentPage]; try done; lia.
  - unfold BlockSelector.clickOption.
    destruct (BlockSelector.options s !! k) as [model|]; [|done].
    destruct (BlockBuilder.hasProperty _ _); cbn [fst]; [apply Hbuilder | done].
  - unfold BlockSelector.backgroundLoaded. cbv zeta.
    destruct (_ && _); apply Hbuilder.
Qed.

Lemma selector_run_shown (modelFiles : list BlockSelector.ModelFile)
    (events : list BlockSelector.Event) (s : BlockSelector.State) :
  pageShown modelFiles s -> pageShown modelFiles (BlockSelector.run events s).
Proof.
  revert s. induction events as [|e events IH]; intros s Hs; [done|].
  apply (IH (BlockSelector.handle e s)). by apply selector_handle_shown.
Qed.

(** X13. The page of the selector.  After loading a list of n models and
    any events, the list and its pagination (six per page, the pages being n
    over six rounded up) are what they were; the current page lies between 1
    and the number of pages (1 when there is no page, for the empty list);
    the options are the at most six models of the
    list that start at index 6 * (page - 1), so each option is a model of
    the list; and a list that is not empty never shows an empty page. *)
Theorem selector_page (modelFiles : list BlockSelector.ModelFile)
    (events : list BlockSelector.Event) (b : BlockBuilder.State) :
  let s :=
    BlockSelector.run events (BlockSelector.loadBlockModels modelFiles b) in
  let p := BlockSelector.pagination s in
  let n := Z.of_nat (length modelFiles) in
  BlockSelector.allModelFiles s = modelFiles
  /\ BlockSelector.totalItems p = n
  /\ 6 * (BlockSelector.totalPages p - 1) < n <= 6 * BlockSelector.totalPages p
  /\ 1 <= BlockSelector.currentPage p
  /\ BlockSelector.currentPage p <= Z.max 1 (BlockSelector.totalPages p)
  /\ BlockSelector.options s
     = take 6 (drop (Z.to_nat (6 * (BlockSelector.currentPage p - 1))) modelFiles)
  /\ (length (BlockSelector.options s) <= 6)%nat
  /\ (forall model, model ∈ BlockSelector.options s -> model ∈ modelFiles)
  /\ (modelFiles <> [] -> BlockSelector.options s <> []).
Proof.
  cbn zeta.
  pose proof (selector_run_shown modelFiles events _
                (loadBlockModels_shown modelFiles b)) as Hs.
  set (s := BlockSelector.run events _) in *.
  destruct Hs as [Hfiles Hitems Htotal Hpages Hlow Hhigh Hopts _ _ _].
  pose proof (Z.div_mod (Z.of_nat (length modelFiles) + 5) 6 ltac:(lia)) as H1.
  pose proof (Z.mod_pos_bound (Z.of_nat (length modelFiles) + 5) 6 ltac:(lia))
    as H2.
  split; [done|]. split; [done|]. split; [lia|]. split; [done|].
  split; [done|]. split; [done|]. rewrite Hopts. split; [|split].
  - rewrite length_take. lia.
  - intros model Hin.
    eapply (sublist_subseteq _ _ (sublist_drop modelFiles _)).
    exact (sublist_subseteq _ _ (sublist_take _ 6) model Hin).
  - intros Hne Hempty.
    apply (f_equal length) in Hempty.
    rewrite length_take, length_drop in Hempty.
    change (length (@nil BlockSelector.ModelFile)) with 0%nat in Hempty.
    assert (0 < length modelFiles)%nat
      by (destruct modelFiles; [done | simpl; lia]).
    lia.
Qed.

Lemma clickNext_page (modelFiles : list BlockSelector.ModelFile)
    (s : BlockSelector.State) :
  pageShown modelFiles s ->
  BlockSelector.currentPage (BlockSelector.pagination s)
  < BlockSelector.totalPages (BlockSelector.pagination s) ->
  BlockSelector.currentPage
    (BlockSelector.pagination (BlockSelector.clickNext s))
  = BlockSelector.currentPage (BlockSelector.pagination s) + 1.
Proof.
  intros Hs Hlt. unfold BlockSelector.clickNext.
  by destruct (Z.ltb_spec
                 (BlockSelector.currentPage (BlockSelector.pagination s))
                 (BlockSelector.totalPages (BlockSelector.pagination s)));
    [|lia].
Qed.

Lemma next_clicks_page (modelFiles : list BlockSelector.ModelFile) (k : nat)
    (s : BlockSelector.State) :
  pageShown modelFiles s ->
  BlockSelector.currentPage (BlockSelector.pagination s) + Z.of_nat k
  <= BlockSelector.totalPages (BlockSelector.pagination s) ->
  BlockSelector.currentPage
    (BlockSelector.pagination
       (BlockSelector.run (replicate k BlockSelector.ClickNext) s))
  = BlockSelector.currentPage (BlockSelector.pagination s) + Z.of_nat k.
Proof.
  revert s. induction k as [|k IH]; intros s Hs Hle.
  - cbn. lia.
  - change (BlockSelector.run (replicate (S k) BlockSelector.ClickNext) s)
      with (BlockSelector.run (replicate k BlockSelector.ClickNext)
              (BlockSelector.clickNext s)).
    pose proof (selector_handle_shown modelFiles BlockSelector.ClickNext s Hs)
      as Hs'.
    cbn [BlockSelector.handle] in Hs'.
    pose proof (clickNext_page modelFiles s Hs ltac:(lia)) as Hpage.
    rewrite (IH _ Hs').
    + rewrite Hpage. lia.
    + rewrite Hpage, (shown_pages _ _ Hs'), <- (shown_pages _ _ Hs). lia.
Qed.

(** X14. Every model can be reached.  The model at index i of the loaded
    list is shown after pressing the next button i / 6 times from the first
    page: the page is then i / 6 + 1 and the model is the option with index
    i mod 6. *)
Theorem every_model_reachable (modelFiles : list BlockSelector.ModelFile)
    (b : BlockBuilder.State) (i : nat) (model : BlockSelector.ModelFile) :
  modelFiles !! i = Some model ->
  let s :=
    BlockSelector.run (replicate (i / 6) BlockSelector.ClickNext)
      (BlockSelector.loadBlockModels modelFiles b) in
  BlockSelector.currentPage (BlockSelector.pagination s)
  = Z.of_nat (i / 6) + 1
  /\ BlockSelector.options s !! (i mod 6)%nat = Some model.
Proof.
  intros Hi. cbn zeta.
  pose proof (loadBlockModels_shown modelFiles b) as Hstart.
  pose proof (selector_run_shown modelFiles
                (replicate (i / 6) BlockSelector.ClickNext) _ Hstart) as Hs.
  pose proof (lookup_lt_Some _ _ _ Hi) as Hlen.
  pose proof (Nat.div_mod_eq i 6) as Hdiv.
  pose proof (Nat.mod_upper_bound i 6 ltac:(lia)) as Hmod.
  pose proof (Z.div_mod (Z.of_nat (length modelFiles) + 5) 6 ltac:(lia)) as H1.
  pose proof (Z.mod_pos_bound (Z.of_nat (length modelFiles) + 5) 6 ltac:(lia))
    as H2.
  assert (BlockSelector.currentPage
            (BlockSelector.pagination
               (BlockSelector.loadBlockModels modelFiles b)) = 1) as Hone
    by reflexivity.
  pose proof (next_clicks_page modelFiles (i / 6) _ Hstart) as Hpage.
  rewrite Hone, (shown_pages _ _ Hstart) in Hpage.
  assert (1 + Z.of_nat (i / 6) <= (Z.of_nat (length modelFiles) + 5) / 6)
    as Hfits.
  { clear Hpage Hs Hstart Hone Hi.
    generalize dependent ((Z.of_nat (length modelFiles) + 5) / 6).
    generalize dependent ((Z.of_nat (length modelFiles) + 5) mod 6).
    generalize dependent (i / 6)%nat. generalize dependent (i mod 6)%nat.
    intros. lia. }
  specialize (Hpage Hfits).
  split; [lia|].
  rewrite (shown_options _ _ Hs), Hpage.
  rewrite lookup_take_lt by exact Hmod. rewrite lookup_drop.
  rewrite <- Hi. f_equal.
  generalize dependent (i / 6)%nat. generalize dependent (i mod 6)%nat.
  intros. lia.
Qed.

Lemma every_model_reachable_witness :
  let modelFiles :=
    (fun k => BlockSelector.mkModelFile (pretty k) (pretty k +:+ ".glb"))
      <$> seq 0 8 in
  let s :=
    BlockSelector.run (replicate (7 / 6) BlockSelector.ClickNext)
      (BlockSelector.loadBlockModels modelFiles BlockBuilder.constructor) in
  BlockSelector.currentPage (BlockSelector.pagination s)
  = Z.of_nat (7 / 6) + 1
  /\ BlockSelector.options s !! (7 mod 6)%nat
     = Some (BlockSelector.mkModelFile "7" "7.glb").
Proof.
  apply (every_model_reachable
           ((fun k => BlockSelector.mkModelFile (pretty k) (pretty k +:+ ".glb"))
              <$> seq 0 8) BlockBuilder.constructor 7%nat).
  reflexivity.
Defined.

Lemma updatePagination_id (modelFiles : list BlockSelector.ModelFile)
    (s : BlockSelector.State) :
  pageShown modelFiles s -> BlockSelector.updatePagination s = s.
Proof.
  intros Hs. unfold BlockSelector.updatePagination.
  destruct Hs as [Hfiles Hitems Htotal Hpages Hlow Hhigh Hopts Hprev Hnext Htext].
  destruct s as [b p files opts prev next text total].
  cbn [BlockSelector.allModelFiles BlockSelector.pagination
       BlockSelector.options BlockSelector.prevDisabled
       BlockSelector.nextDisabled BlockSelector.currentPageText
       BlockSelector.builder BlockSelector.totalPagesText] in *.
  subst files opts prev next text. f_equal.
  rewrite Hitems, Htotal. apply slice_page; [done|].
  pose proof (Z.div_mod (Z.of_nat (length modelFiles) + 5) 6 ltac:(lia)) as H1.
  pose proof (Z.mod_pos_bound (Z.of_nat (length modelFiles) + 5) 6 ltac:(lia))
    as H2.
  lia.
Qed.

Lemma updatePagination_again (page page' : Z) (s : BlockSelector.State) :
  BlockSelector.updatePagination
    (BlockSelector.setPage page
       (BlockSelector.updatePagination (BlockSelector.setPage page' s)))
  = BlockSelector.updatePagination (BlockSelector.setPage page s).
Proof. reflexivity. Qed.

(** X15. The buttons of the selector.  In every state reached after loading
    a list of models, the previous button is disabled exactly on page 1 and
    its handler then does nothing; the next button is disabled exactly on
    the last page and its handler then does nothing; an enabled previous
    button goes back one page and next undoes it; and, for a list that is
    not empty, an enabled next button goes on one page and previous undoes
    it.  For an empty list there are 0 pages while the page is 1: the next
    button is left enabled, and its handler does nothing. *)
Theorem selector_buttons (modelFiles : list BlockSelector.ModelFile)
    (events : list BlockSelector.Event) (b : BlockBuilder.State) :
  let s :=
    BlockSelector.run events (BlockSelector.loadBlockModels modelFiles b) in
  let page := BlockSelector.currentPage (BlockSelector.pagination s) in
  BlockSelector.prevDisabled s = (page =? 1)
  /\ BlockSelector.nextDisabled s
     = (page =? BlockSelector.totalPages (BlockSelector.pagination s))
  /\ BlockSelector.currentPageText s = page
  /\ (BlockSelector.prevDisabled s = true -> BlockSelector.clickPrev s = s)
  /\ (BlockSelector.nextDisabled s = true -> BlockSelector.clickNext s = s)
  /\ (BlockSelector.prevDisabled s = false ->
      BlockSelector.currentPage
        (BlockSelector.pagination (BlockSelector.clickPrev s)) = page - 1
      /\ BlockSelector.clickNext (BlockSelector.clickPrev s) = s)
  /\ (BlockSelector.nextDisabled s = false -> modelFiles <> [] ->
      BlockSelector.currentPage
        (BlockSelector.pagination (BlockSelector.clickNext s)) = page + 1
      /\ BlockSelector.clickPrev (BlockSelector.clickNext s) = s)
  /\ (modelFiles = [] ->
      BlockSelector.nextDisabled s = false /\ BlockSelector.clickNext s = s).
Proof.
  cbn zeta.
  pose proof (selector_run_shown modelFiles events _
                (loadBlockModels_shown modelFiles b)) as Hs.
  set (s := BlockSelector.run events _) in *.
  pose proof Hs as [Hfiles Hitems Htotal Hpages Hlow Hhigh Hopts Hprev Hnext Htext].
  pose proof (Z.div_mod (Z.of_nat (length modelFiles) + 5) 6 ltac:(lia)) as H1.
  pose proof (Z.mod_pos_bound (Z.of_nat (length modelFiles) + 5) 6 ltac:(lia))
    as H2.
  pose proof (updatePagination_id modelFiles s Hs) as Hid.
  assert (BlockSelector.setPage
            (BlockSelector.currentPage (BlockSelector.pagination s)) s = s)
    as Hsame.
  { unfold BlockSelector.setPage. destruct s as [b0 [i0 c0 t0 p0] f0 o0 pr ne tx to].
    reflexivity. }
  split; [done|]. split; [done|]. split; [done|].
  rewrite Hprev, Hnext.
  split; [|split; [|split; [|split]]].
  - intros Hone%Z.eqb_eq. unfold BlockSelector.clickPrev.
    by destruct (Z.gtb_spec
                   (BlockSelector.currentPage (BlockSelector.pagination s)) 1);
      [lia|].
  - intros Hlast%Z.eqb_eq. unfold BlockSelector.clickNext.
    by destruct (Z.ltb_spec
                   (BlockSelector.currentPage (BlockSelector.pagination s))
                   (BlockSelector.totalPages (BlockSelector.pagination s)));
      [lia|].
  - intros Hne%Z.eqb_neq. unfold BlockSelector.clickPrev.
    destruct (Z.gtb_spec
                (BlockSelector.currentPage (BlockSelector.pagination s)) 1)
      as [Hgt | Hle]; [|lia].
    split; [done|].
    set (page := BlockSelector.currentPage (BlockSelector.pagination s)) in *.
    unfold BlockSelector.clickNext.
    change (BlockSelector.currentPage
              (BlockSelector.pagination
                 (BlockSelector.updatePagination
                    (BlockSelector.setPage (page - 1) s))))
      with (page - 1).
    change (BlockSelector.totalPages
              (BlockSelector.pagination
                 (BlockSelector.updatePagination
                    (BlockSelector.setPage (page - 1) s))))
      with (BlockSelector.totalPages (BlockSelector.pagination s)).
    destruct (Z.ltb_spec (page - 1)
                (BlockSelector.totalPages (BlockSelector.pagination s)))
      as [_ | Hge]; [|lia].
    replace (page - 1 + 1) with page by lia.
    by rewrite updatePagination_again, Hsame.
  - intros Hne%Z.eqb_neq Hfiles'.
    assert (0 < length modelFiles)%nat
      by (destruct modelFiles; [done | simpl; lia]).
    unfold BlockSelector.clickNext.
    destruct (Z.ltb_spec
                (BlockSelector.currentPage (BlockSelector.pagination s))
                (BlockSelector.totalPages (BlockSelector.pagination s)))
      as [Hlt | Hge]; [|lia].
    split; [done|].
    set (page := BlockSelector.currentPage (BlockSelector.pagination s)) in *.
    unfold BlockSelector.clickPrev.
    change (BlockSelector.currentPage
              (BlockSelector.pagination
                 (BlockSelector.updatePagination
                    (BlockSelector.setPage (page + 1) s))))
      with (page + 1).
    destruct (Z.gtb_spec (page + 1) 1) as [_ | Hle]; [|lia].
    replace (page + 1 - 1) with page by lia.
    by rewrite updatePagination_again, Hsame.
  - intros ->. simpl in *.
    assert (BlockSelector.totalPages (BlockSelector.pagination s) = 0) as Hzero
      by (rewrite Hpages; reflexivity).
    split.
    + apply Z.eqb_neq. lia.
    + unfold BlockSelector.clickNext.
      by destruct (Z.ltb_spec
                     (BlockSelector.currentPage (BlockSelector.pagination s))
                     (BlockSelector.totalPages (BlockSelector.pagination s)));
        [lia|].
Qed.

(** ** The first main.js: coloured cubes *)

Lemma cubes_scene (s s' : CubeBuilder.State) :
  CubeBuilder.blocksGroup s' = CubeBuilder.blocksGroup s ->
  CubeBuilder.occupiedPositions s' = CubeBuilder.occupiedPositions s ->
  cubesConsistent s -> cubesConsistent s'.
Proof. intros Hg Ho [H1 H2 H3 H4]. constructor; rewrite ?Hg, ?Ho; done. Qed.

Lemma cube_updatePreview_scene (hit : option CubeBuilder.Intersection)
    (s : CubeBuilder.State) :
  CubeBuilder.blocksGroup (CubeBuilder.updatePreview hit s)
  = CubeBuilder.blocksGroup s
  /\ CubeBuilder.occupiedPositions (CubeBuilder.updatePreview hit s)
     = CubeBuilder.occupiedPositions s
  /\ CubeBuilder.console (CubeBuilder.updatePreview hit s)
     = CubeBuilder.console s.
Proof.
  unfold CubeBuilder.updatePreview. destruct hit as [h|]; [|done].
  by destruct (CubeBuilder.targetPosition h s).
Qed.

Lemma cube_addBlock_consistent (pos : Vector3) (color : option Z)
    (s : CubeBuilder.State) :
  cubesConsistent s -> getKey pos ∉ CubeBuilder.occupiedPositions s ->
  cubesConsistent (CubeBuilder.addBlock pos color s).
Proof.
  intros Hs Hfree. unfold CubeBuilder.addBlock.
  constructor;
    cbn [CubeBuilder.blocksGroup CubeBuilder.occupiedPositions
         CubeBuilder.position];
    rewrite ?getKey_roundToGrid.
  - intros block [Hb | ->%list_elem_of_singleton]%elem_of_app;
      [by apply Hs|].
    cbn [CubeBuilder.position]. apply roundToGrid_idem.
  - rewrite fmap_app. apply NoDup_app. split; [apply Hs|]. split.
    + intros k Hk ->%list_elem_of_singleton. simpl in Hk.
      rewrite getKey_roundToGrid in Hk.
      by apply (cube_keys_occupied s Hs) in Hk.
    + apply NoDup_singleton.
  - intros k. rewrite fmap_app, elem_of_app, elem_of_union, elem_of_singleton.
    rewrite (cube_keys_occupied s Hs k). simpl.
    rewrite list_elem_of_singleton, getKey_roundToGrid. tauto.
  - rewrite size_union.
    + rewrite size_singleton, length_app, (cube_keys_size s Hs). simpl. lia.
    + intros k ->%elem_of_singleton. exact Hfree.
Qed.

Lemma cube_removeBlock_consistent (index : nat) (s : CubeBuilder.State) :
  cubesConsistent s -> cubesConsistent (CubeBuilder.removeBlock index s).
Proof.
  intros Hs. unfold CubeBuilder.removeBlock.
  destruct (CubeBuilder.blocksGroup s !! index) as [block|] eqn:Hb; [|done].
  set (key := fun b => getKey (CubeBuilder.position b)).
  assert ((key <$> CubeBuilder.blocksGroup s) !! index = Some (key block))
    as Hki by (by rewrite list_lookup_fmap, Hb).
  constructor; cbn [CubeBuilder.blocksGroup CubeBuilder.occupiedPositions].
  - intros b Hin%list_elem_of_delete_inv. by apply Hs.
  - apply (sublist_NoDup _ (key <$> CubeBuilder.blocksGroup s)); [apply Hs|].
    apply fmap_sublist, sublist_delete.
  - intros k. rewrite elem_of_difference, elem_of_singleton.
    rewrite (cube_keys_occupied s Hs k), list_fmap_delete.
    pose proof (elem_of_delete_NoDup _ _ _ k (cube_keys_distinct s Hs) Hki)
      as Hdel.
    fold key in Hdel |- *. by rewrite Hdel.
  - rewrite size_difference.
    + rewrite size_singleton, length_delete by (by rewrite Hb).
      by rewrite (cube_keys_size s Hs).
    + apply singleton_subseteq_l, (cube_keys_occupied s Hs).
      by apply (list_elem_of_fmap_2 key), (list_elem_of_lookup_2 _ index).
Qed.

(** The loop of [onKeyDown] leaves no child. *)
Lemma cube_removeAll (children : list CubeBuilder.Block) :
  CubeBuilder.removeAll children = [].
Proof. by induction children. Qed.

Lemma constructor_cubesConsistent : cubesConsistent CubeBuilder.constructor.
Proof.
  constructor; unfold CubeBuilder.constructor;
    cbn [CubeBuilder.blocksGroup CubeBuilder.occupiedPositions].
  - by intros block Hb%elem_of_nil.
  - apply NoDup_nil_2.
  - intros k. split; [by intros ?%not_elem_of_empty | by intros ?%elem_of_nil].
  - apply size_empty.
Qed.

Lemma cubeHandle_consistent (e : CubeEvent) (s : CubeBuilder.State) :
  cubesConsistent s -> cubesConsistent (cubeHandle e s).
Proof.
  intros Hs. destruct e as [event hit | event hit hitBlocks random | key];
    cbn [cubeHandle].
  - destruct (cube_updatePreview_scene hit s) as (Hg & Ho & _).
    by apply (cubes_scene s).
  - unfold CubeBuilder.onMouseDown.
    destruct (button event =? 0).
    + destruct hit as [h|]; [|done].
      destruct (CubeBuilder.targetPosition h s) as [newPos|]; [|done].
      case_bool_decide as Hocc; [done|].
      by apply cube_addBlock_consistent.
    + destruct (button event =? 2); [|done].
      destruct hitBlocks as [i|]; [|done].
      by apply cube_removeBlock_consistent.
  - unfold CubeBuilder.onKeyDown.
    destruct (String.eqb key "r" || String.eqb key "R"); [|done].
    rewrite cube_removeAll.
    apply (cubes_scene CubeBuilder.constructor); [done | done |].
    apply constructor_cubesConsistent.
Qed.

Lemma cubeRun_consistent (events : list CubeEvent) (s : CubeBuilder.State) :
  cubesConsistent s -> cubesConsistent (cubeRun events s).
Proof.
  revert s. induction events as [|e events IH]; intros s Hs; [done|].
  apply IH. by apply cubeHandle_consistent.
Qed.

(** X16. The set mirrors the group in the first main.js.  After any moves,
    button presses and keys from the start, every cube stands on integer
    coordinates, no two cubes share a key, the set has as many keys as the
    group has cubes, and a position is in the set exactly when a cube stands
    on the grid position it rounds to. *)
Theorem cube_set_mirrors_group (events : list CubeEvent) :
  let s := cubeRun events CubeBuilder.constructor in
  cubesConsistent s
  /\ forall pos,
       getKey pos ∈ CubeBuilder.occupiedPositions s
       <-> exists block,
             block ∈ CubeBuilder.blocksGroup s
             /\ CubeBuilder.position block = roundToGrid pos.
Proof.
  cbn zeta.
  pose proof (cubeRun_consistent events _ constructor_cubesConsistent) as Hs.
  split; [exact Hs|].
  intros pos. rewrite (cube_keys_occupied _ Hs), list_elem_of_fmap. split.
  - intros (block & Hkey & Hin). exists block. split; [done|].
    rewrite <- (cubes_on_grid _ Hs block Hin). symmetry. by apply getKey_inj.
  - intros (block & Hin & Hpos). exists block. split; [|done].
    by rewrite Hpos, getKey_roundToGrid.
Qed.

(** X17. The first main.js places where it previews.  With the same first
    intersection, whether on the plane or on a cube and whatever the normal,
    pressing the primary button after the preview was updated either changes
    nothing or appends one cube standing exactly at the position of the
    visible preview and adds the key of that position to the set; the second
    happens exactly when that key was not in the set. *)
Theorem cube_click_lands_on_preview (s : CubeBuilder.State)
    (event : MouseEvent) (h : CubeBuilder.Intersection)
    (hitBlocks : option nat) (random : nat) (newPos : Vector3) :
  button event = 0 ->
  CubeBuilder.targetPosition h s = Some newPos ->
  let hovered := CubeBuilder.updatePreview (Some h) s in
  let s' := CubeBuilder.onMouseDown event (Some h) hitBlocks random hovered in
  let preview := CubeBuilder.previewPosition hovered in
  CubeBuilder.previewVisible hovered = true
  /\ getKey preview = getKey newPos
  /\ (getKey preview ∈ CubeBuilder.occupiedPositions s -> s' = hovered)
  /\ (getKey preview ∉ CubeBuilder.occupiedPositions s ->
      CubeBuilder.blocksGroup s'
      = CubeBuilder.blocksGroup s
        ++ [CubeBuilder.mkBlock preview (CubeBuilder.colors !! random)]
      /\ CubeBuilder.occupiedPositions s'
         = {[getKey preview]} ∪ CubeBuilder.occupiedPositions s).
Proof.
  intros Hb Htarget. cbn zeta.
  assert (CubeBuilder.targetPosition h
            (CubeBuilder.updatePreview (Some h) s) = Some newPos) as Htarget'.
  { rewrite <- Htarget. unfold CubeBuilder.targetPosition.
    by destruct (cube_updatePreview_scene (Some h) s) as (-> & _). }
  unfold CubeBuilder.onMouseDown. rewrite Hb, Htarget'.
  change (0 =? 0) with true. cbv iota.
  unfold CubeBuilder.updatePreview. rewrite Htarget.
  cbn [CubeBuilder.previewVisible CubeBuilder.previewPosition
       CubeBuilder.occupiedPositions].
  rewrite getKey_roundToGrid.
  split; [done|]. split; [done|]. split.
  - intros Hocc. by rewrite bool_decide_eq_true_2.
  - intros Hfree. rewrite bool_decide_eq_false_2 by done.
    unfold CubeBuilder.addBlock.
    cbn [CubeBuilder.blocksGroup CubeBuilder.occupiedPositions
         CubeBuilder.position].
    by rewrite getKey_roundToGrid.
Qed.

Lemma cube_click_lands_on_preview_witness :
  let s := CubeBuilder.constructor in
  let h :=
    CubeBuilder.mkIntersection CubeBuilder.HitPlane
      (mkVector3 (7 # 4) (- (3 # 10)) (- (5 # 2))) (faceNormal PosY) in
  let hovered := CubeBuilder.updatePreview (Some h) s in
  let s' :=
    CubeBuilder.onMouseDown (mkMouseEvent 10 10 0 false) (Some h) None 1
      hovered in
  let preview := CubeBuilder.previewPosition hovered in
  CubeBuilder.previewVisible hovered = true
  /\ getKey preview = getKey (mkVector3 (7 # 4) 0 (- (5 # 2)))
  /\ (getKey preview ∈ CubeBuilder.occupiedPositions s -> s' = hovered)
  /\ (getKey preview ∉ CubeBuilder.occupiedPositions s ->
      CubeBuilder.blocksGroup s'
      = CubeBuilder.blocksGroup s
        ++ [CubeBuilder.mkBlock preview (CubeBuilder.colors !! 1%nat)]
      /\ CubeBuilder.occupiedPositions s'
         = {[getKey preview]} ∪ CubeBuilder.occupiedPositions s).
Proof.
  apply (cube_click_lands_on_preview CubeBuilder.constructor
           (mkMouseEvent 10 10 0 false)
           (CubeBuilder.mkIntersection CubeBuilder.HitPlane
              (mkVector3 (7 # 4) (- (3 # 10)) (- (5 # 2))) (faceNormal PosY))
           None 1 (mkVector3 (7 # 4) 0 (- (5 # 2)))); reflexivity.
Defined.

(** X18. Building on a cube.  In every state the first main.js reaches, a
    cube of the group stands on an integer cell (a, b, c); pointing at a
    face of it previews the neighbouring cell in the direction of the face,
    wherever the face is hit, and pressing the primary button there appends a
    cube on exactly that cell when its key is not in the set, and changes
    nothing when it is. *)
Theorem cube_places_next_to_face (events : list CubeEvent)
    (event : MouseEvent) (i : nat) (block : CubeBuilder.Block) (f : Face)
    (p : Vector3) (hitBlocks : option nat) (random : nat) :
  let s := cubeRun events CubeBuilder.constructor in
  button event = 0 ->
  CubeBuilder.blocksGroup s !! i = Some block ->
  exists a b c : Z,
    CubeBuilder.position block = gridVector a b c
    /\ let target :=
         let '(dx, dy, dz) := faceStep f in
         gridVector (a + dx) (b + dy) (c + dz) in
       let hit :=
         CubeBuilder.mkIntersection (CubeBuilder.HitBlock i) p (faceNormal f) in
       let s' := CubeBuilder.onMouseDown event (Some hit) hitBlocks random s in
       target <> CubeBuilder.position block
       /\ CubeBuilder.previewPosition (CubeBuilder.updatePreview (Some hit) s)
          = target
       /\ (getKey target ∈ CubeBuilder.occupiedPositions s -> s' = s)
       /\ (getKey target ∉ CubeBuilder.occupiedPositions s ->
           CubeBuilder.blocksGroup s'
           = CubeBuilder.blocksGroup s
             ++ [CubeBuilder.mkBlock target (CubeBuilder.colors !! random)]
           /\ CubeBuilder.occupiedPositions s'
              = {[getKey target]} ∪ CubeBuilder.occupiedPositions s).
Proof.
  cbn zeta. intros Hb Hi.
  set (s := cubeRun events CubeBuilder.constructor) in *.
  pose proof (cubeRun_consistent events _ constructor_cubesConsistent) as Hs.
  fold s in Hs.
  pose proof (cubes_on_grid s Hs block (list_elem_of_lookup_2 _ _ _ Hi))
    as Hgrid.
  exists (Math_round (vx (CubeBuilder.position block))),
         (Math_round (vy (CubeBuilder.position block))),
         (Math_round (vz (CubeBuilder.position block))).
  split; [by rewrite <- Hgrid at 1|].
  set (a := Math_round (vx (CubeBuilder.position block))) in *.
  set (b := Math_round (vy (CubeBuilder.position block))) in *.
  set (c := Math_round (vz (CubeBuilder.position block))) in *.
  assert (CubeBuilder.position block = gridVector a b c) as Hpos
    by (by rewrite <- Hgrid at 1).
  set (hit := CubeBuilder.mkIntersection (CubeBuilder.HitBlock i) p
                (faceNormal f)).
  assert (CubeBuilder.targetPosition hit s
          = Some (vadd (gridVector a b c) (faceNormal f))) as Htarget.
  { unfold CubeBuilder.targetPosition, hit.
    cbn [CubeBuilder.object CubeBuilder.normal]. rewrite Hi.
    cbn [fmap option_fmap option_map]. by rewrite Hpos. }
  assert (roundToGrid (vadd (gridVector a b c) (faceNormal f))
          = let '(dx, dy, dz) := faceStep f in
            gridVector (a + dx) (b + dy) (c + dz)) as Hround.
  { unfold roundToGrid, vadd, gridVector, faceNormal.
    destruct (faceStep f) as [[dx dy] dz]. cbn [vx vy vz].
    by rewrite !Math_round_add_inject_Z. }
  assert (getKey (vadd (gridVector a b c) (faceNormal f))
          = getKey (let '(dx, dy, dz) := faceStep f in
                    gridVector (a + dx) (b + dy) (c + dz))) as Hkey
    by (by rewrite <- Hround, getKey_roundToGrid).
  split; [|split; [|split]].
  - rewrite Hpos. unfold gridVector.
    destruct f; cbn [faceStep]; intros [= H1 H2 H3]; lia.
  - unfold CubeBuilder.updatePreview. rewrite Htarget.
    cbn [CubeBuilder.previewPosition]. exact Hround.
  - intros Hocc. unfold CubeBuilder.onMouseDown. rewrite Hb, Htarget.
    change (0 =? 0) with true. cbv iota.
    by rewrite Hkey, bool_decide_eq_true_2.
  - intros Hfree. unfold CubeBuilder.onMouseDown. rewrite Hb, Htarget.
    change (0 =? 0) with true. cbv iota.
    rewrite Hkey, bool_decide_eq_false_2 by done.
    unfold CubeBuilder.addBlock.
    cbn [CubeBuilder.blocksGroup CubeBuilder.occupiedPositions
         CubeBuilder.position].
    by rewrite getKey_roundToGrid, Hround, Hkey.
Qed.

Lemma cube_places_next_to_face_witness :
  let events :=
    [CubeDown (mkMouseEvent 10 10 0 false)
       (Some (CubeBuilder.mkIntersection CubeBuilder.HitPlane
                (mkVector3 (1 # 4) 0 (1 # 3)) (faceNormal PosY)))
       None 1] in
  let s := cubeRun events CubeBuilder.constructor in
  let block := CubeBuilder.mkBlock (gridVector 0 0 0) (Some 0x333333) in
  exists a b c : Z,
    CubeBuilder.position block = gridVector a b c
    /\ let target :=
         let '(dx, dy, dz) := faceStep PosY in
         gridVector (a + dx) (b + dy) (c + dz) in
       let hit :=
         CubeBuilder.mkIntersection (CubeBuilder.HitBlock 0)
           (mkVector3 (1 # 4) (1 # 2) (1 # 3)) (faceNormal PosY) in
       let s' :=
         CubeBuilder.onMouseDown (mkMouseEvent 10 10 0 false) (Some hit)
           (Some 0%nat) 2 s in
       target <> CubeBuilder.position block
       /\ CubeBuilder.previewPosition (CubeBuilder.updatePreview (Some hit) s)
          = target
       /\ (getKey target ∈ CubeBuilder.occupiedPositions s -> s' = s)
       /\ (getKey target ∉ CubeBuilder.occupiedPositions s ->
           CubeBuilder.blocksGroup s'
           = CubeBuilder.blocksGroup s
             ++ [CubeBuilder.mkBlock target (CubeBuilder.colors !! 2%nat)]
           /\ CubeBuilder.occupiedPositions s'
              = {[getKey target]} ∪ CubeBuilder.occupiedPositions s).
Proof.
  apply (cube_places_next_to_face
           [CubeDown (mkMouseEvent 10 10 0 false)
              (Some (CubeBuilder.mkIntersection CubeBuilder.HitPlane
                       (mkVector3 (1 # 4) 0 (1 # 3)) (faceNormal PosY)))
              None 1]
           (mkMouseEvent 10 10 0 false) 0%nat
           (CubeBuilder.mkBlock (gridVector 0 0 0) (Some 0x333333)) PosY
           (mkVector3 (1 # 4) (1 # 2) (1 # 3)) (Some 0%nat) 2);
    reflexivity.
Defined.

(** X19. Removing a cube.  In every state the first main.js reaches, pressing
    the secondary button on the cube with index i takes that cube out of the
    group, keeps the others in their order, and takes the key of its
    position, which was in the set, out of the set; the position is free
    again, and every other position is occupied exactly as before.  What the
    ray meets on the plane makes no difference. *)
Theorem cube_right_click_removes (events : list CubeEvent)
    (event : MouseEvent) (hit : option CubeBuilder.Intersection) (i : nat)
    (block : CubeBuilder.Block) (random : nat) :
  let s := cubeRun events CubeBuilder.constructor in
  button event = 2 ->
  CubeBuilder.blocksGroup s !! i = Some block ->
  let s' := CubeBuilder.onMouseDown event hit (Some i) random s in
  CubeBuilder.blocksGroup s' = delete i (CubeBuilder.blocksGroup s)
  /\ getKey (CubeBuilder.position block) ∈ CubeBuilder.occupiedPositions s
  /\ (getKey (CubeBuilder.position block)
      ∉ CubeBuilder.occupiedPositions s')
  /\ (forall pos,
        getKey pos ∈ CubeBuilder.occupiedPositions s' <->
        getKey pos ∈ CubeBuilder.occupiedPositions s
        /\ roundToGrid pos <> CubeBuilder.position block)
  /\ S (length (CubeBuilder.blocksGroup s'))
     = length (CubeBuilder.blocksGroup s)
  /\ s' = CubeBuilder.onMouseDown event None (Some i) random s.
Proof.
  cbn zeta. intros Hb Hi.
  set (s := cubeRun events CubeBuilder.constructor) in *.
  pose proof (cubeRun_consistent events _ constructor_cubesConsistent) as Hs.
  fold s in Hs.
  pose proof (list_elem_of_lookup_2 _ _ _ Hi) as Hin.
  pose proof (cubes_on_grid s Hs block Hin) as Hgrid.
  unfold CubeBuilder.onMouseDown. rewrite Hb.
  change (2 =? 0) with false. change (2 =? 2) with true. cbv iota.
  unfold CubeBuilder.removeBlock. rewrite Hi.
  cbn [CubeBuilder.blocksGroup CubeBuilder.occupiedPositions].
  split; [done|]. split.
  { apply (cube_keys_occupied s Hs).
    by apply (list_elem_of_fmap_2
                (fun block => getKey (CubeBuilder.position block))). }
  split; [|split; [|split; [|done]]].
  - rewrite elem_of_difference, elem_of_singleton. by intros [_ Hne].
  - intros pos. rewrite elem_of_difference, elem_of_singleton.
    split; intros [Hocc Hne]; (split; [done|]).
    + intros Heq. apply Hne. by rewrite <- Heq, getKey_roundToGrid.
    + intros Heq%getKey_inj. apply Hne. by rewrite Heq, Hgrid.
  - rewrite length_delete by (by rewrite Hi).
    pose proof (lookup_lt_Some _ _ _ Hi). lia.
Qed.

Lemma cube_right_click_removes_witness :
  let events :=
    [CubeDown (mkMouseEvent 10 10 0 false)
       (Some (CubeBuilder.mkIntersection CubeBuilder.HitPlane
                (mkVector3 (1 # 4) 0 (1 # 3)) (faceNormal PosY)))
       None 1;
     CubeDown (mkMouseEvent 10 10 0 false)
       (Some (CubeBuilder.mkIntersection (CubeBuilder.HitBlock 0)
                (mkVector3 (1 # 4) (1 # 2) (1 # 3)) (faceNormal PosY)))
       (Some 0%nat) 3] in
  let s := cubeRun events CubeBuilder.constructor in
  let block := CubeBuilder.mkBlock (gridVector 0 1 0) (Some 0x999999) in
  let s' :=
    CubeBuilder.onMouseDown (mkMouseEvent 10 10 2 false) None (Some 1%nat) 0
      s in
  CubeBuilder.blocksGroup s' = delete 1%nat (CubeBuilder.blocksGroup s)
  /\ getKey (CubeBuilder.position block) ∈ CubeBuilder.occupiedPositions s
  /\ (getKey (CubeBuilder.position block)
      ∉ CubeBuilder.occupiedPositions s')
  /\ (forall pos,
        getKey pos ∈ CubeBuilder.occupiedPositions s' <->
        getKey pos ∈ CubeBuilder.occupiedPositions s
        /\ roundToGrid pos <> CubeBuilder.position block)
  /\ S (length (CubeBuilder.blocksGroup s'))
     = length (CubeBuilder.blocksGroup s)
  /\ s' = CubeBuilder.onMouseDown (mkMouseEvent 10 10 2 false) None
            (Some 1%nat) 0 s.
Proof.
  apply (cube_right_click_removes
           [CubeDown (mkMouseEvent 10 10 0 false)
              (Some (CubeBuilder.mkIntersection CubeBuilder.HitPlane
                       (mkVector3 (1 # 4) 0 (1 # 3)) (faceNormal PosY)))
              None 1;
            CubeDown (mkMouseEvent 10 10 0 false)
              (Some (CubeBuilder.mkIntersection (CubeBuilder.HitBlock 0)
                       (mkVector3 (1 # 4) (1 # 2) (1 # 3)) (faceNormal PosY)))
              (Some 0%nat) 3]
           (mkMouseEvent 10 10 2 false) None 1%nat
           (CubeBuilder.mkBlock (gridVector 0 1 0) (Some 0x999999)) 0);
    reflexivity.
Defined.

(** X20. The reset key of the first main.js.  R (in either case) leaves no
    cube and no key, whatever the number of cubes, and keeps the preview;
    afterwards a primary button press on the plane always places a cube, on
    the ground cell the hit point rounds to, and it is the only cube.  Every
    other key changes nothing. *)
Theorem cube_reset_key (s : CubeBuilder.State) (key : string) :
  (key = "r" \/ key = "R" ->
   let s' := CubeBuilder.onKeyDown key s in
   CubeBuilder.blocksGroup s' = []
   /\ CubeBuilder.occupiedPositions s' = ∅
   /\ CubeBuilder.previewPosition s' = CubeBuilder.previewPosition s
   /\ CubeBuilder.previewVisible s' = CubeBuilder.previewVisible s
   /\ forall event h hitBlocks random,
        button event = 0 ->
        CubeBuilder.object h = CubeBuilder.HitPlane ->
        CubeBuilder.blocksGroup
          (CubeBuilder.onMouseDown event (Some h) hitBlocks random s')
        = [CubeBuilder.mkBlock
             (gridVector (Math_round (vx (CubeBuilder.point h))) 0
                (Math_round (vz (CubeBuilder.point h))))
             (CubeBuilder.colors !! random)])
  /\ (key <> "r" -> key <> "R" -> CubeBuilder.onKeyDown key s = s).
Proof.
  split.
  - intros Hkey. cbn zeta. unfold CubeBuilder.onKeyDown.
    assert (String.eqb key "r" || String.eqb key "R" = true) as ->
      by (destruct Hkey as [-> | ->]; reflexivity).
    rewrite cube_removeAll.
    cbn [CubeBuilder.blocksGroup CubeBuilder.occupiedPositions
         CubeBuilder.previewPosition CubeBuilder.previewVisible].
    repeat (split; [done|]).
    intros event h hitBlocks random Hb Hplane.
    unfold CubeBuilder.onMouseDown, CubeBuilder.targetPosition.
    rewrite Hb, Hplane. change (0 =? 0) with true. cbv iota.
    cbn [CubeBuilder.occupiedPositions].
    rewrite bool_decide_eq_false_2 by apply not_elem_of_empty.
    unfold CubeBuilder.addBlock, roundToGrid, gridVector.
    cbn [CubeBuilder.blocksGroup vx vy vz app].
    reflexivity.
  - intros Hr HR. unfold CubeBuilder.onKeyDown.
    destruct (String.eqb_spec key "r"); [done|].
    by destruct (String.eqb_spec key "R").
Qed.

(** ** The palette of UserInterface.js *)

Lemma length_append (s1 s2 : string) :
  String.length (s1 +:+ s2) = (String.length s1 + String.length s2)%nat.
Proof.
  induction s1 as [|c s1 IH]; [done|].
  rewrite append_cons. simpl. by rewrite IH.
Qed.

Lemma readHex_app (s1 s2 : string) (acc : N) :
  readHex (s1 +:+ s2) acc
  = match readHex s1 acc with
    | Some v => readHex s2 v
    | None => None
    end.
Proof.
  revert acc. induction s1 as [|c s1 IH]; intros acc; [done|].
  rewrite append_cons. simpl. by destruct (hexDigitValue c).
Qed.

Lemma hexDigitValue_hexDigit (d : N) :
  (d < 16)%N -> hexDigitValue (hexDigit d) = Some d.
Proof.
  intros Hd.
  assert (d = 0 \/ d = 1 \/ d = 2 \/ d = 3 \/ d = 4 \/ d = 5 \/ d = 6 \/ d = 7
          \/ d = 8 \/ d = 9 \/ d = 10 \/ d = 11 \/ d = 12 \/ d = 13 \/ d = 14
          \/ d = 15)%N as H by lia.
  repeat (destruct H as [-> | H]; [reflexivity|]). by subst d.
Qed.

(** The digits go in front of what is there already. *)
Lemma toHex_acc (fuel : nat) (n : N) (acc : string) :
  toHex fuel n acc = toHex fuel n "" +:+ acc.
Proof.
  revert n acc. induction fuel as [|fuel IH]; intros n acc; [done|].
  simpl. destruct (n =? 0)%N; [done|].
  rewrite (IH _ (String _ acc)), (IH _ (String _ "")).
  by rewrite append_assoc, append_cons, append_empty.
Qed.

Lemma size_nat_bound (p : positive) :
  (N.pos p < 2 ^ N.of_nat (Pos.size_nat p))%N.
Proof.
  induction p as [p IH | p IH |]; cbn [Pos.size_nat];
    rewrite ?Nat2N.inj_succ, ?N.pow_succ_r'; [lia | lia | done].
Qed.

(** With enough fuel the digits of [toHex] read back as the number. *)
Lemma readHex_toHex (fuel : nat) (n acc : N) :
  (n < 2 ^ N.of_nat fuel)%N ->
  readHex (toHex fuel n "") acc
  = Some (acc * 16 ^ N.of_nat (String.length (toHex fuel n "")) + n)%N.
Proof.
  revert n acc. induction fuel as [|fuel IH]; intros n acc Hn.
  - simpl in *. f_equal. lia.
  - cbn [toHex]. destruct (N.eqb_spec n 0) as [-> | Hne].
    + simpl. f_equal. lia.
    + rewrite toHex_acc, readHex_app, length_append.
      rewrite Nat2N.inj_succ, N.pow_succ_r' in Hn.
      rewrite IH by (apply N.Div0.div_lt_upper_bound; lia).
      cbn [readHex String.length].
      rewrite hexDigitValue_hexDigit by (apply N.mod_lt; lia).
      f_equal. rewrite Nat2N.inj_add. change (N.of_nat 1) with 1%N.
      rewrite N.pow_add_r, N.pow_1_r.
      pose proof (N.div_mod n 16 ltac:(lia)) as Hdiv.
      generalize dependent (n / 16)%N. generalize dependent (n mod 16)%N.
      intros. nia.
Qed.

(** A number below 16^m has at most m digits. *)
Lemma length_toHex (fuel : nat) (n : N) (m : nat) :
  (n < 16 ^ N.of_nat m)%N -> (String.length (toHex fuel n "") <= m)%nat.
Proof.
  revert n m. induction fuel as [|fuel IH]; intros n m Hn; [simpl; lia|].
  cbn [toHex]. destruct (N.eqb_spec n 0) as [-> | Hne]; [simpl; lia|].
  destruct m as [|m]; [simpl in Hn; lia|].
  rewrite toHex_acc, length_append. cbn [String.length].
  rewrite Nat2N.inj_succ, N.pow_succ_r' in Hn.
  pose proof (IH (n / 16)%N m ltac:(apply N.Div0.div_lt_upper_bound; lia)).
  lia.
Qed.

Lemma length_repeatChar (count : nat) (c : ascii) :
  String.length (repeatChar count c) = count.
Proof. induction count as [|count IH]; [done|]. simpl. by rewrite IH. Qed.

Lemma readHex_zeros (count : nat) (s : string) :
  readHex (repeatChar count "0" +:+ s) 0 = readHex s 0.
Proof.
  induction count as [|count IH]; [done|].
  cbn [repeatChar]. rewrite append_cons. exact IH.
Qed.

(** X21. The colour of a palette option.  For a colour from 0 to 0xFFFFFF
    the background colour of the option is a hash sign followed by exactly
    six characters, all of them hexadecimal digits in lower case, and read
    as a hexadecimal number they give the colour back: two colours in the
    range get the same text only when they are equal. *)
Theorem cssColor_reads_back (color : Z) :
  0 <= color < 16 ^ 6 ->
  exists digits : string,
    UserInterface.cssColor color = String "#" digits
    /\ String.length digits = 6%nat
    /\ readHex digits 0 = Some (Z.to_N color)
    /\ forall other : Z,
         0 <= other < 16 ^ 6 ->
         UserInterface.cssColor other = UserInterface.cssColor color ->
         other = color.
Proof.
  assert (forall c : Z, 0 <= c < 16 ^ 6 ->
            String.length (padStart 6 "0" (toString16 c)) = 6%nat
            /\ readHex (padStart 6 "0" (toString16 c)) 0 = Some (Z.to_N c))
    as Hdigits.
  { intros c Hc. unfold padStart.
    rewrite length_append, length_repeatChar, readHex_zeros.
    destruct c as [|p|p]; [by split | | lia].
    cbn [toString16].
    pose proof (length_toHex (Pos.size_nat p) (N.pos p) 6) as Hlen.
    change (16 ^ N.of_nat 6)%N with (Z.to_N (16 ^ 6)) in Hlen.
    split; [lia|].
    rewrite readHex_toHex by apply size_nat_bound.
    f_equal. }
  intros Hcolor. exists (padStart 6 "0" (toString16 color)).
  destruct (Hdigits color Hcolor) as [Hlen Hread].
  split; [done|]. split; [done|]. split; [done|].
  intros other Hother Heq. unfold UserInterface.cssColor in Heq.
  rewrite !append_cons, !append_empty in Heq. injection Heq as Heq.
  destruct (Hdigits other Hother) as [_ Hread'].
  rewrite Heq, Hread in Hread'. injection Hread' as Hn. lia.
Qed.

Lemma cssColor_reads_back_witness :
  exists digits : string,
    UserInterface.cssColor 0x1CA3EC = String "#" digits
    /\ String.length digits = 6%nat
    /\ readHex digits 0 = Some (Z.to_N 0x1CA3EC)
    /\ forall other : Z,
         0 <= other < 16 ^ 6 ->
         UserInterface.cssColor other = UserInterface.cssColor 0x1CA3EC ->
         other = 0x1CA3EC.
Proof. apply (cssColor_reads_back 0x1CA3EC). lia. Defined.

(** A click keeps the palette what [createBlockPalette] would build from the
    BlockSystem as it then is, and the selected type an entry of
    [BLOCK_TYPES]. *)
Lemma clickOption_palette (index : nat) (ui : UserInterface.State) :
  UserInterface.blockPalette ui
  = UserInterface.createBlockPalette (UserInterface.blockSystem ui) ->
  (exists type,
     (type, BlockSystem.selectedBlockType (UserInterface.blockSystem ui))
     ∈ BlockSystem.BLOCK_TYPES) ->
  let ui' := UserInterface.clickOption index ui in
  UserInterface.blockPalette ui'
  = UserInterface.createBlockPalette (UserInterface.blockSystem ui')
  /\ (exists type,
        (type, BlockSystem.selectedBlockType (UserInterface.blockSystem ui'))
        ∈ BlockSystem.BLOCK_TYPES)
  /\ BlockSystem.scene (UserInterface.blockSystem ui')
     = BlockSystem.scene (UserInterface.blockSystem ui)
  /\ BlockSystem.blocks (UserInterface.blockSystem ui')
     = BlockSystem.blocks (UserInterface.blockSystem ui)
  /\ ((index < length BlockSystem.BLOCK_TYPES)%nat ->
      exists type,
        BlockSystem.BLOCK_TYPES !! index
        = Some (type,
                BlockSystem.selectedBlockType (UserInterface.blockSystem ui'))).
Proof.
  intros Hpalette Hsel. cbn zeta. unfold UserInterface.clickOption.
  rewrite Hpalette.
  do 6 (destruct index as [|index];
        [split; [reflexivity|]; split;
         [eexists; apply list_elem_of_In; cbn; eauto 10|];
         split; [reflexivity|]; split; [reflexivity|];
         intros _; eexists; reflexivity|]).
  assert (UserInterface.createBlockPalette (UserInterface.blockSystem ui)
          !! S (S (S (S (S (S index))))) = None) as -> by reflexivity.
  repeat (split; [done|]).
  cbn [length BlockSystem.BLOCK_TYPES]. lia.
Qed.

(** [createBlockPalette] marks one option: the one of the selected type. *)
Lemma createBlockPalette_selected (bs : BlockSystem.State) :
  (exists type,
     (type, BlockSystem.selectedBlockType bs) ∈ BlockSystem.BLOCK_TYPES) ->
  exists (i : nat) (type : string),
    BlockSystem.BLOCK_TYPES !! i
    = Some (type, BlockSystem.selectedBlockType bs)
    /\ forall (j : nat) (option : UserInterface.BlockOption),
         UserInterface.createBlockPalette bs !! j = Some option ->
         UserInterface.selected option = bool_decide (j = i).
Proof.
  intros [type Hin]. apply list_elem_of_In in Hin.
  unfold UserInterface.createBlockPalette.
  destruct Hin as [Hin | [Hin | [Hin | [Hin | [Hin | [Hin | []]]]]]];
    injection Hin as <- Hsel; rewrite <- Hsel;
    [exists 0%nat | exists 1%nat | exists 2%nat | exists 3%nat | exists 4%nat
     | exists 5%nat];
    eexists; (split; [reflexivity|]); intros j option;
    do 6 (destruct j as [|j]; [by intros [= <-]|]); discriminate.
Qed.

Lemma run_palette (clicks : list nat) (ui : UserInterface.State) :
  UserInterface.blockPalette ui
  = UserInterface.createBlockPalette (UserInterface.blockSystem ui) ->
  (exists type,
     (type, BlockSystem.selectedBlockType (UserInterface.blockSystem ui))
     ∈ BlockSystem.BLOCK_TYPES) ->
  let ui' := UserInterface.run clicks ui in
  UserInterface.blockPalette ui'
  = UserInterface.createBlockPalette (UserInterface.blockSystem ui')
  /\ (exists type,
        (type, BlockSystem.selectedBlockType (UserInterface.blockSystem ui'))
        ∈ BlockSystem.BLOCK_TYPES)
  /\ BlockSystem.scene (UserInterface.blockSystem ui')
     = BlockSystem.scene (UserInterface.blockSystem ui)
  /\ BlockSystem.blocks (UserInterface.blockSystem ui')
     = BlockSystem.blocks (UserInterface.blockSystem ui).
Proof.
  revert ui. induction clicks as [|index clicks IH]; intros ui Hpalette Hsel;
    [done|].
  destruct (clickOption_palette index ui Hpalette Hsel)
    as (Hpalette' & Hsel' & Hscene & Hblocks & _).
  destruct (IH _ Hpalette' Hsel') as (H1 & H2 & H3 & H4).
  cbn zeta. change (UserInterface.run (index :: clicks) ui)
    with (UserInterface.run clicks (UserInterface.clickOption index ui)).
  by rewrite <- Hscene, <- Hblocks.
Qed.

(** X22. The palette shows the selection.  Build the palette for a
    BlockSystem after any calls that select no name an object inherits
    (constructor, toString and the like), then click any options in any
    order.  The
    palette is always the one createBlockPalette would build afresh: its
    options are the entries of BLOCK_TYPES in their order, and exactly one
    option carries the selected mark, the one whose entry is the selected
    block type of the BlockSystem.  The clicks change no block.  One more
    click on the option of an entry makes that entry the selected type and
    moves the mark to it. *)
Theorem palette_shows_selection (calls : list BlockSystem.Call)
    (clicks : list nat) :
  Forall plainCall calls ->
  let bs := BlockSystem.run calls BlockSystem.constructor in
  let ui := UserInterface.run clicks (UserInterface.constructor bs) in
  UserInterface.blockPalette ui
  = UserInterface.createBlockPalette (UserInterface.blockSystem ui)
  /\ UserInterface.dataType <$> UserInterface.blockPalette ui
     = fst <$> BlockSystem.BLOCK_TYPES
  /\ (exists (i : nat) (type : string),
        BlockSystem.BLOCK_TYPES !! i
        = Some (type,
                BlockSystem.selectedBlockType (UserInterface.blockSystem ui))
        /\ forall (j : nat) (option : UserInterface.BlockOption),
             UserInterface.blockPalette ui !! j = Some option ->
             UserInterface.selected option = bool_decide (j = i))
  /\ BlockSystem.scene (UserInterface.blockSystem ui) = BlockSystem.scene bs
  /\ BlockSystem.blocks (UserInterface.blockSystem ui) = BlockSystem.blocks bs
  /\ forall (index : nat) (type : string) (props : BlockSystem.BlockType),
       BlockSystem.BLOCK_TYPES !! index = Some (type, props) ->
       let ui' := UserInterface.clickOption index ui in
       BlockSystem.selectedBlockType (UserInterface.blockSystem ui') = props
       /\ forall (j : nat) (option : UserInterface.BlockOption),
            UserInterface.blockPalette ui' !! j = Some option ->
            UserInterface.selected option = bool_decide (j = index).
Proof.
  intros _. cbn zeta.
  set (bs := BlockSystem.run calls BlockSystem.constructor).
  assert (exists type,
            (type, BlockSystem.selectedBlockType bs)
            ∈ BlockSystem.BLOCK_TYPES) as Hsel.
  { apply (run_catalog calls BlockSystem.constructor); [done | |].
    - exists "GRASS". apply list_elem_of_In. cbn. tauto.
    - by intros m Hm%elem_of_nil. }
  destruct (run_palette clicks (UserInterface.constructor bs) eq_refl Hsel)
    as (Hpalette & Hsel' & Hscene & Hblocks).
  set (ui := UserInterface.run clicks (UserInterface.constructor bs)) in *.
  split; [exact Hpalette|]. split; [by rewrite Hpalette|].
  split; [rewrite Hpalette; by apply createBlockPalette_selected|].
  split; [exact Hscene|]. split; [exact Hblocks|].
  intros index type props Hentry. cbn zeta.
  destruct (clickOption_palette index ui Hpalette Hsel')
    as (Hpalette' & Hsel'' & _ & _ & Hindex).
  destruct Hindex as [type' Hentry'];
    [by eapply lookup_lt_Some|].
  rewrite Hentry in Hentry'. injection Hentry' as _ Hprops.
  split; [done|].
  intros j option. rewrite Hpalette'. intros Hj.
  destruct (createBlockPalette_selected _ Hsel'') as (i & type'' & Hi & Hmark).
  rewrite (Hmark j option Hj). rewrite <- Hprops in Hi.
  assert (i = index) as ->; [|done].
  clear -Hi Hentry.
  do 6 (destruct index as [|index];
        [injection Hentry as <- <-;
         by do 6 (destruct i as [|i]; [done|])|]).
  done.
Qed.

Lemma palette_shows_selection_witness :
  let bs :=
    BlockSystem.run
      [BlockSystem.CallSelect "STONE";
       BlockSystem.CallPlace (BlockSystem.mkGridPos 0 0 0)]
      BlockSystem.constructor in
  let ui := UserInterface.run [4; 9; 1]%nat (UserInterface.constructor bs) in
  UserInterface.blockPalette ui
  = UserInterface.createBlockPalette (UserInterface.blockSystem ui)
  /\ UserInterface.dataType <$> UserInterface.blockPalette ui
     = fst <$> BlockSystem.BLOCK_TYPES
  /\ (exists (i : nat) (type : string),
        BlockSystem.BLOCK_TYPES !! i
        = Some (type,
                BlockSystem.selectedBlockType (UserInterface.blockSystem ui))
        /\ forall (j : nat) (option : UserInterface.BlockOption),
             UserInterface.blockPalette ui !! j = Some option ->
             UserInterface.selected option = bool_decide (j = i))
  /\ BlockSystem.scene (UserInterface.blockSystem ui) = BlockSystem.scene bs
  /\ BlockSystem.blocks (UserInterface.blockSystem ui) = BlockSystem.blocks bs
  /\ forall (index : nat) (type : string) (props : BlockSystem.BlockType),
       BlockSystem.BLOCK_TYPES !! index = Some (type, props) ->
       let ui' := UserInterface.clickOption index ui in
       BlockSystem.selectedBlockType (UserInterface.blockSystem ui') = props
       /\ forall (j : nat) (option : UserInterface.BlockOption),
            UserInterface.blockPalette ui' !! j = Some option ->
            UserInterface.selected option = bool_decide (j = index).
Proof.
  apply (palette_shows_selection
           [BlockSystem.CallSelect "STONE";
            BlockSystem.CallPlace (BlockSystem.mkGridPos 0 0 0)]
           [4; 9; 1]%nat).
  apply Forall_cons; split; [reflexivity|].
  apply Forall_cons; split; [exact I | by apply Forall_nil].
Defined.
